(** * PipeOps CLI: a shallow embedding of the pipeline orchestration core

    The development follows the Python sources of [pipeops_cli_package/Core]:
    - [ProjectAnalyzer] (the pure scoring of a file listing for its
      language and its type, and, in module [Analyzer], the analysis of the
      project on the host);
    - [GitLabHandler] (the repository client: retry wrapper, branch and file
      listing with fallback, branch creation with confirmation, commits and
      merge requests);
    - [PipelineGenerator] (file actions, commit and merge-request workflow);
    - [PipelineMonitor] (the polling loop of [monitor_pipeline], the
      analysis of a failed pipeline and [wait_for_job_completion]).

    Conventions of the embedding.
    - Python values that come from or go to the host are JSON documents
      ([json]); dictionaries are association lists, first binding wins.
    - Python exceptions are values of [exn]; a method is a function from a
      [State] to a new [State] and a [Result] (a value or a raised exception).
      The [State] holds the host, the trace of what has happened, the lines
      the user will type, and the two memo fields of the client.
    - The repository host is a parameter: a state type [S] and a function
      [serve] answering one HTTP request.  Every call of [requests.request]
      is one application of [serve] and one entry of the [trace].  Three
      hosts are defined to run the client against: one that answers from a
      script, one that always gives the same answer, and a small model of
      the host's branch interface.
    - [time.sleep] is recorded in the trace; [time.time] reads a clock oracle.
    - Calls to the logger and to [print] have no influence on control flow
      and are left out, except where formatting the message can raise.

    The definitions come first; the properties follow, module by module. *)

From Stdlib Require Import List String Ascii ZArith QArith Bool Lia Arith Lqa.
From Stdlib Require Import DecimalString.
Import ListNotations.
Local Open Scope string_scope.
Local Open Scope Z_scope.
Set Warnings "-register-all".

(** ** Strings as Python uses them *)

Module PyStr.

(** [c.lower()] on one ASCII character; other bytes are left as they are. *)
Definition lower_ascii (c : ascii) : ascii :=
  let n := nat_of_ascii c in
  if (Nat.leb 65 n && Nat.leb n 90)%bool then ascii_of_nat (n + 32) else c.

(** [s.lower()] *)
Fixpoint lower (s : string) : string :=
  match s with
  | EmptyString => EmptyString
  | String c r => String (lower_ascii c) (lower r)
  end.

(** [s.startswith(p)] *)
Fixpoint startswith (p s : string) : bool :=
  match p, s with
  | EmptyString, _ => true
  | String a p', String b s' => (Ascii.eqb a b && startswith p' s')%bool
  | String _ _, EmptyString => false
  end.

Fixpoint drop (n : nat) (s : string) : string :=
  match n, s with
  | O, _ => s
  | S k, EmptyString => EmptyString
  | S k, String _ r => drop k r
  end.

(** [s.endswith(suffix)] *)
Definition endswith (suffix s : string) : bool :=
  (Nat.leb (String.length suffix) (String.length s)
   && String.eqb (drop (String.length s - String.length suffix) s) suffix)%bool.

(** [x in xs] for a list of strings *)
Fixpoint contains (x : string) (xs : list string) : bool :=
  match xs with
  | [] => false
  | y :: r => (String.eqb y x || contains x r)%bool
  end.

(** [needle in s] for strings *)
Fixpoint has_substring (needle s : string) : bool :=
  (startswith needle s ||
   match s with
   | EmptyString => false
   | String _ r => has_substring needle r
   end)%bool.

(** [s.replace(old, new)] for a non-empty [old]: leftmost matches, not
    overlapping.  [skip] counts the characters of a match still to drop. *)
Fixpoint replace_from (old new : string) (skip : nat) (s : string) : string :=
  match s with
  | EmptyString => EmptyString
  | String c r =>
      match skip with
      | S k => replace_from old new k r
      | O =>
          if startswith old s
          then new ++ replace_from old new (String.length old - 1) r
          else String c (replace_from old new 0 r)
      end
  end.

Definition replace (old new s : string) : string := replace_from old new 0 s.

(** [s.split(sep)] for a one-character separator *)
Fixpoint split_on (sep : ascii) (acc : string) (s : string) : list string :=
  match s with
  | EmptyString => [acc]
  | String c r =>
      if Ascii.eqb c sep then acc :: split_on sep EmptyString r
      else split_on sep (acc ++ String c EmptyString) r
  end.

Definition split (sep : ascii) (s : string) : list string :=
  split_on sep EmptyString s.

(** the ASCII characters [strip] removes; strings are read as bytes, and
    white space outside ASCII is not recognised *)
Definition is_space (c : ascii) : bool :=
  let n := nat_of_ascii c in
  (Nat.eqb n 32 || (Nat.leb 9 n && Nat.leb n 13)
   || (Nat.leb 28 n && Nat.leb n 31))%bool.

Fixpoint lstrip (s : string) : string :=
  match s with
  | EmptyString => EmptyString
  | String c r => if is_space c then lstrip r else s
  end.

Fixpoint rev_string (acc s : string) : string :=
  match s with
  | EmptyString => acc
  | String c r => rev_string (String c acc) r
  end.

(** [s.strip()] *)
Definition strip (s : string) : string :=
  rev_string EmptyString (lstrip (rev_string EmptyString (lstrip s))).

(** [str(n)] for an integer *)
Definition of_Z (n : Z) : string := NilZero.string_of_int (Z.to_int n).

End PyStr.

(** ** ProjectAnalyzer: the detection of language and type *)

Module ProjectAnalyzer.
Import PyStr.

Definition python_indicators : list string :=
  [ "app.py"; "main.py"; "server.py"; "manage.py"; "wsgi.py"; "asgi.py";
    "requirements.txt"; "setup.py"; "pyproject.toml"; "__init__.py" ].

Definition nodejs_indicators : list string :=
  [ "package.json"; "server.js"; "app.js"; "index.js";
    "yarn.lock"; "package-lock.json" ].

(** The [for indicator in ...: if indicator in files_lower: count += 1] loop. *)
Definition count_indicators (indicators files_lower : list string) : nat :=
  List.length (filter (fun indicator => contains indicator files_lower) indicators).

(** [len([f for f in files_lower if f.endswith(ext)])] *)
Definition count_ext (ext : string) (files_lower : list string) : nat :=
  List.length (filter (endswith ext) files_lower).

Definition python_count (files : list string) : nat :=
  let files_lower := map lower files in
  (count_indicators python_indicators files_lower + count_ext ".py" files_lower)%nat.

Definition nodejs_count (files : list string) : nat :=
  let files_lower := map lower files in
  (count_indicators nodejs_indicators files_lower + count_ext ".js" files_lower)%nat.

Definition _detect_language (files : list string) : string :=
  let python_count := python_count files in
  let nodejs_count := nodejs_count files in
  if Nat.ltb nodejs_count python_count then "python"
  else if Nat.ltb python_count nodejs_count then "javascript"
  else if Nat.ltb 0 python_count then "python"
  else "unknown".

Definition service_indicators : list string :=
  [ "dockerfile"; "docker-compose.yml"; "app.py"; "server.py";
    "server.js"; "manage.py"; "wsgi.py"; "asgi.py" ].

Definition package_indicators : list string :=
  [ "setup.py"; "pyproject.toml"; "package.json" ].

(** [any(indicator in files_lower for indicator in indicators)] *)
Definition any_indicator (indicators files_lower : list string) : bool :=
  existsb (fun indicator => contains indicator files_lower) indicators.

Definition _detect_type (files : list string) (language : string) : string :=
  let files_lower := map lower files in
  let has_service_indicator := any_indicator service_indicators files_lower in
  let has_package_indicator := any_indicator package_indicators files_lower in
  if (has_service_indicator && has_package_indicator)%bool then
    if contains "dockerfile" files_lower then "service" else "service"
  else if has_service_indicator then "service"
  else if has_package_indicator then "package"
  else "unknown".

End ProjectAnalyzer.

(** ** Python values, exceptions and the state of a run *)

Module Py.

(** JSON documents double as the Python values the client handles:
    [JNull] is [None], [JDict] a [dict] (keys unique, first binding read),
    [JReal] a float. *)
Inductive json : Type :=
| JNull
| JBool (b : bool)
| JNum (n : Z)
| JReal (q : Q)
| JStr (s : string)
| JList (items : list json)
| JDict (fields : list (string * json)).

Inductive exn : Type :=
| HTTPError (status_code : Z)      (* requests.exceptions.HTTPError *)
| RequestException (what : string) (* connection errors, timeouts, bad JSON *)
| TypeError
| AttributeError
| KeyError (key : string)
| IndexError
| ValueError (what : string)
| FileNotFoundError (path : string)
| EOFError
| RecursionError.                  (* the interpreter's bound on call depth *)

Inductive Result (A : Type) : Type :=
| Ok (a : A)
| Raise (e : exn).
Arguments Ok {A} a.
Arguments Raise {A} e.

Fixpoint lookup (k : string) (fields : list (string * json)) : option json :=
  match fields with
  | [] => None
  | (k', v) :: r => if String.eqb k' k then Some v else lookup k r
  end.

(** [bool(v)] *)
Definition truthy (v : json) : bool :=
  match v with
  | JNull => false
  | JBool b => b
  | JNum n => negb (n =? 0)
  | JReal q => negb (Qeq_bool q 0)
  | JStr s => negb (String.eqb s "")
  | JList l => match l with [] => false | _ => true end
  | JDict f => match f with [] => false | _ => true end
  end.

Definition as_number (v : json) : option Q :=
  match v with
  | JBool b => Some (if b then 1%Q else 0%Q)
  | JNum n => Some (inject_Z n)
  | JReal q => Some q
  | _ => None
  end.

(** [a == b].  Numbers and booleans compare by value; dictionaries compare
    key by key, whatever the order (on a dictionary written with a key
    repeated, which no decoded document is, the comparison with itself can
    fail). *)
Fixpoint py_eqb (a b : json) : bool :=
  match a, b with
  | JNull, JNull => true
  | JStr s, JStr t => String.eqb s t
  | JList l, JList m =>
      (fix all2 (l m : list json) : bool :=
         match l, m with
         | [], [] => true
         | x :: l', y :: m' => (py_eqb x y && all2 l' m')%bool
         | _, _ => false
         end) l m
  | JDict f, JDict g =>
      (Nat.eqb (List.length f) (List.length g) &&
       (fix sub (f : list (string * json)) : bool :=
          match f with
          | [] => true
          | (k, v) :: r =>
              (match lookup k g with
               | Some w => py_eqb v w
               | None => false
               end && sub r)%bool
          end) f)%bool
  | JBool x, _ | JNum x, _ | JReal x, _ =>
      match as_number a, as_number b with
      | Some p, Some q => Qeq_bool p q
      | _, _ => false
      end
  | _, _ => false
  end.

(** [x in xs] *)
Definition py_in (x : json) (xs : list json) : bool := existsb (py_eqb x) xs.

(** [v.get(key, default)] *)
Definition get (v : json) (key : string) (default : json) : Result json :=
  match v with
  | JDict f => Ok (match lookup key f with Some x => x | None => default end)
  | _ => Raise AttributeError
  end.

(** [v[key]] for a string key *)
Definition getitem (v : json) (key : string) : Result json :=
  match v with
  | JDict f => match lookup key f with Some x => Ok x | None => Raise (KeyError key) end
  | _ => Raise TypeError
  end.

Fixpoint chars (s : string) : list json :=
  match s with
  | EmptyString => []
  | String c r => JStr (String c EmptyString) :: chars r
  end.

(** [v[0]] *)
Definition first_item (v : json) : Result json :=
  match v with
  | JList (x :: _) => Ok x
  | JList [] => Raise IndexError
  | JStr s => match chars s with x :: _ => Ok x | [] => Raise IndexError end
  | JDict _ => Raise (KeyError "0")
  | _ => Raise TypeError
  end.

(** the items [for x in v] visits *)
Definition iterate (v : json) : Result (list json) :=
  match v with
  | JList l => Ok l
  | JDict f => Ok (map (fun kv => JStr (fst kv)) f)
  | JStr s => Ok (chars s)
  | _ => Raise TypeError
  end.

(** [len(v)] *)
Definition len (v : json) : Result nat :=
  match v with
  | JList l => Ok (List.length l)
  | JDict f => Ok (List.length f)
  | JStr s => Ok (String.length s)
  | _ => Raise TypeError
  end.

Definition is_none (v : json) : bool :=
  match v with JNull => true | _ => false end.

(** The depth a method may recurse to before Python raises
    [RecursionError].  The recursive methods of the client go one level
    deep, so the exact bound does not matter. *)
Definition recursion_limit : nat := 1000.

Definition bind_result {A B} (r : Result A) (f : A -> Result B) : Result B :=
  match r with
  | Ok a => f a
  | Raise e => Raise e
  end.

(** a list comprehension whose element expression may raise *)
Fixpoint map_result {A B} (f : A -> Result B) (l : list A) : Result (list B) :=
  match l with
  | [] => Ok []
  | x :: r =>
      bind_result (f x) (fun y =>
      bind_result (map_result f r) (fun ys => Ok (y :: ys)))
  end.

Definition is_str (v : json) : bool :=
  match v with JStr _ => true | _ => false end.

Definition is_dict (v : json) : bool :=
  match v with JDict _ => true | _ => false end.

(** [str(e)], used where the text of an exception is stored in a result *)
Definition str_exn (e : exn) : string :=
  match e with
  | HTTPError c => "HTTPError " ++ PyStr.of_Z c
  | RequestException w => w
  | TypeError => "TypeError"
  | AttributeError => "AttributeError"
  | KeyError k => "'" ++ k ++ "'"
  | IndexError => "IndexError"
  | ValueError w => w
  | FileNotFoundError p => p
  | EOFError => "EOFError"
  | RecursionError => "maximum recursion depth exceeded"
  end.

(** *** HTTP *)

Inductive Method : Type := GET | POST | DELETE.

(** The URLs the client builds from [api_url]; the URL-quoting of a branch
    name is kept symbolic. *)
Inductive Url : Type :=
| api_url                                   (* the project itself *)
| branches_url                              (* /repository/branches *)
| branch_url (branch_name : string)         (* /repository/branches/<name> *)
| tree_url                                  (* /repository/tree *)
| commits_url                               (* /repository/commits *)
| merge_requests_url                        (* /merge_requests *)
| pipeline_url (pipeline_id : Z)            (* /pipelines/<id> *)
| pipeline_jobs_url (pipeline_id : Z).      (* /pipelines/<id>/jobs *)

Record Request : Type := mkRequest {
  method : Method;
  url : Url;
  params : list (string * json);
  payload : json                            (* the [json=] body, [JNull] if none *)
}.

(** What [requests.request] does: raise, or hand back a response with a
    status code and a body ([None] when the body is not valid JSON). *)
Inductive Reply : Type :=
| Fails (e : exn)
| Answers (status_code : Z) (body : option json).

Record Response : Type := mkResponse {
  status_code : Z;
  body : option json
}.

(** [response.json()] *)
Definition response_json (r : Response) : Result json :=
  match body r with
  | Some j => Ok j
  | None => Raise (RequestException "JSONDecodeError")
  end.

Inductive Event : Type :=
| Call (request : Request) (reply : Reply)  (* one [requests.request] *)
| Sleep (seconds : Z)                       (* one [time.sleep] *)
| Input (line : string).                    (* one line read by [input] *)

Section Run.
Context {S : Type}.

(** The host, what has happened so far, and the mutable fields of the one
    [GitLabHandler] instance of the run. *)
Record State : Type := mkState {
  server : S;
  trace : list Event;
  ticks : nat;                  (* readings of [time.time] so far *)
  stdin : list string;          (* the lines [input] will read *)
  _project_info : json;
  _default_branch : json
}.

Definition M (A : Type) : Type := State -> State * Result A.

Definition ret {A} (a : A) : M A := fun st => (st, Ok a).

Definition raise {A} (e : exn) : M A := fun st => (st, Raise e).

Definition bind {A B} (m : M A) (f : A -> M B) : M B :=
  fun st =>
    match m st with
    | (st', Ok a) => f a st'
    | (st', Raise e) => (st', Raise e)
    end.

(** [try: body  except Exception as e: handler(e)] *)
Definition try_except {A} (body : M A) (handler : exn -> M A) : M A :=
  fun st =>
    match body st with
    | (st', Ok a) => (st', Ok a)
    | (st', Raise e) => handler e st'
    end.

Definition lift {A} (r : Result A) : M A := fun st => (st, r).

Definition record (ev : Event) (st : State) : State :=
  mkState (server st) (trace st ++ [ev]) (ticks st) (stdin st)
          (_project_info st) (_default_branch st).

(** [time.sleep(seconds)]; a negative length is a [ValueError] *)
Definition sleep (seconds : Z) : M unit :=
  fun st =>
    if seconds <? 0
    then (st, Raise (ValueError "sleep length must be non-negative"))
    else (record (Sleep seconds) st, Ok tt).

(** [input(prompt)]: the next line of standard input, [EOFError] at its end *)
Definition input : M string :=
  fun st =>
    match stdin st with
    | [] => (st, Raise EOFError)
    | line :: rest =>
        (record (Input line)
           (mkState (server st) (trace st) (ticks st) rest
                    (_project_info st) (_default_branch st)),
         Ok line)
    end.

Definition set_server (s : S) (st : State) : State :=
  mkState s (trace st) (ticks st) (stdin st)
          (_project_info st) (_default_branch st).

Definition get_project_info : M json := fun st => (st, Ok (_project_info st)).

Definition set_project_info (v : json) : M unit :=
  fun st => (mkState (server st) (trace st) (ticks st) (stdin st)
                     v (_default_branch st), Ok tt).

Definition get_default_branch_field : M json :=
  fun st => (st, Ok (_default_branch st)).

Definition set_default_branch (v : json) : M unit :=
  fun st => (mkState (server st) (trace st) (ticks st) (stdin st)
                     (_project_info st) v, Ok tt).

(** the state after one more reading of the clock *)
Definition tick (st : State) : State :=
  mkState (server st) (trace st) (Datatypes.S (ticks st)) (stdin st)
          (_project_info st) (_default_branch st).

(** [time.time()]: the next reading of the clock *)
Definition time_time (clock : nat -> Q) : M Q :=
  fun st => (tick st, Ok (clock (ticks st))).

End Run.
Arguments State S : clear implicits.
Arguments M S A : clear implicits.

End Py.

Declare Scope py_scope.
Delimit Scope py_scope with py.
Notation "x <- m ;; k" := (Py.bind m (fun x => k))
  (at level 100, m at next level, right associativity) : py_scope.
Notation "m ;;; k" := (Py.bind m (fun _ => k))
  (at level 100, right associativity) : py_scope.

(** ** GitLabHandler: the repository client *)

Module GitLabHandler.
Import Py.
Local Open Scope py_scope.

Section Client.
Context {S : Type}.
Variable serve : S -> Request -> S * Reply.   (* the repository host *)
Variable max_retries : Z.                     (* [self.max_retries] *)

(** [response.raise_for_status()] *)
Definition raise_for_status (status_code : Z) : Result unit :=
  if ((400 <=? status_code) && (status_code <? 600))%bool
  then Raise (HTTPError status_code) else Ok tt.

Definition _make_request (method : Method) (url : Url)
           (params : list (string * json)) (payload : json) : M S Response :=
  fun st =>
    let request := mkRequest method url params payload in
    let (s', reply) := serve (server st) request in
    let st' := record (Call request reply) (set_server s' st) in
    match reply with
    | Fails e => (st', Raise e)
    | Answers status_code body =>
        if 400 <=? status_code then
          match raise_for_status status_code with
          | Raise e => (st', Raise e)
          | Ok _ => (st', Ok (mkResponse status_code body))
          end
        else (st', Ok (mkResponse status_code body))
    end.

(** The body of [for attempt in range(self.max_retries)], with the
    attempts still to make, the index of this one and [last_error]. *)
Fixpoint retry_loop {A} (func : M S A) (remaining : nat) (attempt : Z)
         (last_error : option exn) : M S A :=
  match remaining with
  | O =>
      match last_error with
      | Some e => raise e
      | None => raise TypeError               (* [raise None] *)
      end
  | Datatypes.S remaining' =>
      try_except func
        (fun e =>
           (if attempt <? max_retries - 1
            then sleep ((attempt + 1) * 2)
            else ret tt) ;;;
           retry_loop func remaining' (attempt + 1) (Some e))
  end.

Definition _simple_retry {A} (func : M S A) : M S A :=
  retry_loop func (Z.to_nat max_retries) 0 None.

Definition get_project : M S json :=
  info <- get_project_info ;;
  if is_none info then
    try_except
      (response <- _simple_retry (_make_request GET api_url [] JNull) ;;
       project_info <- lift (response_json response) ;;
       set_project_info project_info ;;;
       ret project_info)
      (fun _ => ret JNull)
  else ret info.

Definition get_default_branch : M S json :=
  cached <- get_default_branch_field ;;
  if is_none cached then
    project_info <- get_project ;;
    (if truthy project_info then
       default_branch <- lift (get project_info "default_branch" (JStr "main")) ;;
       set_default_branch default_branch
     else set_default_branch (JStr "main")) ;;;
    get_default_branch_field
  else ret cached.

(** [', '.join(branches[:5])] in the log line raises on a non-string *)
Definition join_first_five (branches : list json) : Result unit :=
  if forallb is_str (firstn 5 branches) then Ok tt else Raise TypeError.

Definition get_available_branches : M S (list json) :=
  try_except
    (response <- _simple_retry (_make_request GET branches_url [] JNull) ;;
     branches_data <- lift (response_json response) ;;
     items <- lift (iterate branches_data) ;;
     branches <- lift (map_result (fun branch => getitem branch "name") items) ;;
     lift (join_first_five branches) ;;;
     ret branches)
    (fun _ =>
       default_branch <- get_default_branch ;;
       ret [default_branch]).

(** [[file['path'] for file in tree if file['type'] == 'blob']] *)
Fixpoint blob_paths (items : list json) : Result (list json) :=
  match items with
  | [] => Ok []
  | file :: rest =>
      bind_result (getitem file "type") (fun type =>
      if py_eqb type (JStr "blob") then
        bind_result (getitem file "path") (fun path =>
        bind_result (blob_paths rest) (fun paths => Ok (path :: paths)))
      else blob_paths rest)
  end.

Definition tree_params (ref : json) : list (string * json) :=
  [("ref", ref); ("recursive", JStr "true"); ("per_page", JNum 100)].

(** the [try] body shared by the first attempt and the common-name probes *)
Definition fetch_tree (ref : json) : M S (list json) :=
  response <- _simple_retry (_make_request GET tree_url (tree_params ref) JNull) ;;
  tree <- lift (response_json response) ;;
  items <- lift (iterate tree) ;;
  lift (blob_paths items).

Definition common_branches : list string := ["main"; "master"; "develop"].

(** [for branch in common_branches: ...] followed by [return []] *)
Fixpoint probe_common_branches (branches : list string)
         (available_branches : list json) (ref : json) : M S (list json) :=
  match branches with
  | [] => ret []
  | branch :: rest =>
      if (py_in (JStr branch) available_branches
          && negb (py_eqb (JStr branch) ref))%bool
      then try_except (fetch_tree (JStr branch))
             (fun _ => probe_common_branches rest available_branches ref)
      else probe_common_branches rest available_branches ref
  end.

Fixpoint get_file_list_depth (depth : nat) (ref : json) : M S (list json) :=
  match depth with
  | O => raise RecursionError
  | Datatypes.S depth' =>
      ref <- (if is_none ref then get_default_branch else ret ref) ;;
      try_except (fetch_tree ref)
        (fun e =>
           match e with
           | HTTPError status_code =>
               if status_code =? 404 then
                 default_branch <- get_default_branch ;;
                 if negb (py_eqb ref default_branch)
                 then get_file_list_depth depth' default_branch
                 else
                   available_branches <- get_available_branches ;;
                   probe_common_branches common_branches available_branches ref
               else ret []
           | _ => ret []
           end)
  end.

Definition get_file_list (ref : json) : M S (list json) :=
  get_file_list_depth recursion_limit ref.

Definition branch_exists (branch_name : string) : M S bool :=
  try_except
    (_simple_retry (_make_request GET (branch_url branch_name) [] JNull) ;;;
     ret true)
    (fun e =>
       match e with
       | HTTPError status_code =>
           if status_code =? 404 then ret false else ret false
       | _ => ret false
       end).

Definition delete_branch (branch_name : string) : M S bool :=
  try_except
    (_simple_retry (_make_request DELETE (branch_url branch_name) [] JNull) ;;;
     ret true)
    (fun _ => ret false).

Definition get_branch_info (branch_name : string) : M S json :=
  try_except
    (response <- _simple_retry (_make_request GET (branch_url branch_name) [] JNull) ;;
     lift (response_json response))
    (fun _ => ret JNull).

(** what [create_branch] reads of the branch record before it prompts:
    [branch_info.get('commit', {})], [.get('message', 'Unknown')[:50]]
    and [.get('created_at', 'Unknown')] *)
Definition read_last_commit (branch_info : json) : Result unit :=
  bind_result (get branch_info "commit" (JDict [])) (fun last_commit =>
  bind_result (get last_commit "message" (JStr "Unknown")) (fun message =>
  bind_result (match message with
               | JStr _ | JList _ => Ok tt
               | _ => Raise TypeError
               end) (fun _ =>
  bind_result (get last_commit "created_at" (JStr "Unknown")) (fun _ =>
  Ok tt)))).

(** The [while True] prompt, one line of input per round.  The result is
    [true] when the loop is left by [break] (go on to the creation) and
    [false] when [create_branch] returns [False] from inside it. *)
Fixpoint choice_loop (lines : list string) (branch_name : string) : M S bool :=
  match lines with
  | [] => raise EOFError
  | _ :: rest =>
      line <- input ;;
      let choice := PyStr.strip line in
      if (String.eqb choice "1" || String.eqb choice "")%bool then
        deleted <- delete_branch branch_name ;;
        if deleted then ret true else ret false
      else if String.eqb choice "2" then ret false
      else choice_loop rest branch_name
  end.

(** The [if self.branch_exists(branch_name):] block, with the same
    reading of the result as [choice_loop]. *)
Definition confirm_replace (branch_name : string) : M S bool :=
  branch_info <- get_branch_info branch_name ;;
  if truthy branch_info then
    lift (read_last_commit branch_info) ;;;
    (fun st => choice_loop (stdin st) branch_name st)
  else
    line <- input ;;
    let confirm := PyStr.lower (PyStr.strip line) in
    if PyStr.contains confirm ["y"; "yes"] then
      deleted <- delete_branch branch_name ;;
      if negb deleted then ret false else ret true
    else ret false.

Definition branch_payload (branch_name : string) (ref : json) : json :=
  JDict [("branch", JStr branch_name); ("ref", ref)].

Fixpoint create_branch_depth (depth : nat) (branch_name : string) (ref : json)
  : M S bool :=
  match depth with
  | O => raise RecursionError
  | Datatypes.S depth' =>
      ref <- (if is_none ref then get_default_branch else ret ref) ;;
      exists_ <- branch_exists branch_name ;;
      proceed <- (if exists_ then confirm_replace branch_name else ret true) ;;
      if proceed then
        try_except
          (_simple_retry
             (_make_request POST branches_url [] (branch_payload branch_name ref)) ;;;
           ret true)
          (fun e =>
             match e with
             | HTTPError status_code =>
                 if status_code =? 400 then
                   default_branch <- get_default_branch ;;
                   if negb (py_eqb ref default_branch)
                   then create_branch_depth depth' branch_name default_branch
                   else ret false
                 else ret false
             | _ => ret false
             end)
      else ret false
  end.

Definition create_branch (branch_name : string) (ref : json) : M S bool :=
  create_branch_depth recursion_limit branch_name ref.

Definition commit_files (branch_name commit_message : string) (actions : json)
  : M S json :=
  let payload := JDict [("branch", JStr branch_name);
                        ("commit_message", JStr commit_message);
                        ("actions", actions)] in
  try_except
    (response <- _simple_retry (_make_request POST commits_url [] payload) ;;
     commit_data <- lift (response_json response) ;;
     lift (get commit_data "id" (JStr "unknown")) ;;;
     ret commit_data)
    (fun _ => ret JNull).

Definition _find_existing_mr (source_branch : string) : M S json :=
  try_except
    (let params := [("source_branch", JStr source_branch);
                    ("state", JStr "opened");
                    ("per_page", JNum 1)] in
     response <- _simple_retry (_make_request GET merge_requests_url params JNull) ;;
     mrs <- lift (response_json response) ;;
     if truthy mrs then
       mr <- lift (first_item mrs) ;;
       lift (get mr "iid" JNull) ;;;
       ret mr
     else ret JNull)
    (fun _ => ret JNull).

(** the target chosen when [target_branch is None] *)
Definition select_target : M S json :=
  available_branches <- get_available_branches ;;
  default_branch <- get_default_branch ;;
  let preferred_targets := [JStr "develop"; JStr "dev"; default_branch] in
  let target_branch :=
    match find (fun preferred => py_in preferred available_branches)
               preferred_targets with
    | Some preferred => preferred
    | None => JNull
    end in
  ret (if is_none target_branch then default_branch else target_branch).

Definition mr_payload (title source_branch : string) (target_branch description : json)
  : json :=
  JDict ([("source_branch", JStr source_branch);
          ("target_branch", target_branch);
          ("title", JStr title);
          ("remove_source_branch", JBool true)]
         ++ (if truthy description then [("description", description)] else [])).

Definition create_merge_request (title source_branch : string)
           (target_branch description : json) : M S json :=
  target_branch <- (if is_none target_branch then select_target
                    else ret target_branch) ;;
  let payload := mr_payload title source_branch target_branch description in
  try_except
    (response <- _simple_retry (_make_request POST merge_requests_url [] payload) ;;
     mr_data <- lift (response_json response) ;;
     lift (get mr_data "web_url" (JStr "unknown")) ;;;
     ret mr_data)
    (fun e =>
       match e with
       | HTTPError status_code =>
           if status_code =? 409 then
             existing_mr <- _find_existing_mr source_branch ;;
             if truthy existing_mr then
               lift (get existing_mr "web_url" JNull) ;;;
               ret existing_mr
             else raise e
           else raise e
       | _ => ret JNull
       end).

Definition get_pipeline_by_id (pipeline_id : Z) : M S json :=
  try_except
    (response <- _simple_retry (_make_request GET (pipeline_url pipeline_id) [] JNull) ;;
     lift (response_json response))
    (fun _ => ret JNull).

Definition get_pipeline_jobs (pipeline_id : Z) : M S json :=
  try_except
    (response <- _simple_retry
                   (_make_request GET (pipeline_jobs_url pipeline_id) [] JNull) ;;
     jobs <- lift (response_json response) ;;
     lift (len jobs) ;;;
     ret jobs)
    (fun _ => ret (JList [])).

End Client.
End GitLabHandler.

(** ** PipelineMonitor *)

Module PipelineMonitor.
Import Py.
Local Open Scope py_scope.

Section Monitor.
Context {S : Type}.
Variable serve : S -> Request -> S * Reply.
Variable max_retries : Z.          (* of [self.gitlab] *)
Variable clock : nat -> Q.         (* the readings of [time.time()] *)
Variable check_interval : Z.       (* [self.check_interval] *)

Definition terminal_statuses : list json :=
  [JStr "success"; JStr "failed"; JStr "canceled"; JStr "skipped"].

(** the [for job in jobs] loop of [_analyze_failure] *)
Fixpoint collect_failed_jobs (jobs : list json) : Result (list json) :=
  match jobs with
  | [] => Ok []
  | job :: rest =>
      bind_result (get job "status" JNull) (fun status =>
      if py_eqb status (JStr "failed") then
        bind_result (get job "name" JNull) (fun name =>
        bind_result (get job "id" JNull) (fun id =>
        bind_result (get job "stage" JNull) (fun stage =>
        bind_result (collect_failed_jobs rest) (fun failed_jobs =>
        Ok (JDict [("name", name); ("id", id); ("stage", stage)] :: failed_jobs)))))
      else collect_failed_jobs rest)
  end.

Definition _analyze_failure (pipeline_id : Z) : M S json :=
  try_except
    (jobs <- GitLabHandler.get_pipeline_jobs serve max_retries pipeline_id ;;
     if negb (truthy jobs) then
       ret (JDict [("error", JStr "Could not retrieve pipeline jobs")])
     else
       items <- lift (iterate jobs) ;;
       failed_jobs <- lift (collect_failed_jobs items) ;;
       total_jobs <- lift (len jobs) ;;
       ret (JDict [("failed_jobs", JList failed_jobs);
                   ("total_jobs", JNum (Z.of_nat total_jobs))]))
    (fun e => ret (JDict [("error", JStr (str_exn e))])).

Definition Qltb (x y : Q) : bool := negb (Qle_bool y x).

(** One evaluation of the [while] condition, followed by the loop body
    when it holds.  [inl checks] asks for another round, [inr result] is
    what [monitor_pipeline] returns. *)
Definition monitor_round (pipeline_id max_wait_time : Z) (start_time : Q)
           (checks : Z) : M S (Z + json) :=
  now <- time_time clock ;;
  if Qltb (now - start_time) (inject_Z max_wait_time) then
    let checks := checks + 1 in
    pipeline_info <- GitLabHandler.get_pipeline_by_id serve max_retries pipeline_id ;;
    if negb (truthy pipeline_info) then
      ret (inr (JDict [("status", JStr "error");
                       ("error", JStr "Could not retrieve pipeline info")]))
    else
      current_status <- lift (get pipeline_info "status" (JStr "unknown")) ;;
      now <- time_time clock ;;
      let elapsed := (now - start_time)%Q in
      if py_in current_status terminal_statuses then
        let result := [("status", current_status);
                       ("pipeline_id", JNum pipeline_id);
                       ("duration", JReal elapsed);
                       ("checks", JNum checks)] in
        if py_eqb current_status (JStr "failed") then
          failure_analysis <- _analyze_failure pipeline_id ;;
          ret (inr (JDict (result ++ [("failure_analysis", failure_analysis)])))
        else ret (inr (JDict result))
      else
        sleep check_interval ;;;
        ret (inl checks)
  else
    ret (inr (JDict [("status", JStr "timeout");
                     ("pipeline_id", JNum pipeline_id);
                     ("duration", JNum max_wait_time);
                     ("checks", JNum checks)])).

(** The [while] loop, for at most [fuel] evaluations of its condition;
    [None] when the fuel runs out first. *)
Fixpoint monitor_loop (fuel : nat) (pipeline_id max_wait_time : Z)
         (start_time : Q) (checks : Z) (st : State S)
  : option (State S * Result json) :=
  match fuel with
  | O => None
  | Datatypes.S fuel' =>
      match monitor_round pipeline_id max_wait_time start_time checks st with
      | (st', Ok (inl checks')) =>
          monitor_loop fuel' pipeline_id max_wait_time start_time checks' st'
      | (st', Ok (inr result)) => Some (st', Ok result)
      | (st', Raise e) => Some (st', Raise e)
      end
  end.

Definition monitor_pipeline (fuel : nat) (pipeline_id max_wait_time : Z)
           (st : State S) : option (State S * Result json) :=
  match time_time clock st with
  | (st', Ok start_time) =>
      monitor_loop fuel pipeline_id max_wait_time start_time 0 st'
  | (st', Raise e) => Some (st', Raise e)
  end.

(** the [for job in jobs] search of [wait_for_job_completion]; [JNull] is
    [target_job = None] *)
Fixpoint find_job (job_name : string) (jobs : list json) : Result json :=
  match jobs with
  | [] => Ok JNull
  | job :: rest =>
      bind_result (get job "name" JNull) (fun name =>
      if py_eqb name (JStr job_name) then Ok job else find_job job_name rest)
  end.

(** One evaluation of the [while] condition of [wait_for_job_completion],
    followed by the loop body when it holds.  [inl tt] asks for another
    round, [inr result] is what the method returns. *)
Definition wait_round (pipeline_id : Z) (job_name : string) (timeout : Z)
           (start_time : Q) : M S (unit + json) :=
  now <- time_time clock ;;
  if Qltb (now - start_time) (inject_Z timeout) then
    try_except
      (jobs <- GitLabHandler.get_pipeline_jobs serve max_retries pipeline_id ;;
       items <- lift (iterate jobs) ;;
       target_job <- lift (find_job job_name items) ;;
       if negb (truthy target_job) then
         ret (inr (JDict [("error", JStr ("Job '" ++ job_name ++ "' not found"))]))
       else
         job_status <- lift (get target_job "status" (JStr "unknown")) ;;
         if py_in job_status terminal_statuses then
           now <- time_time clock ;;
           ret (inr (JDict [("job_name", JStr job_name);
                            ("status", job_status);
                            ("duration", JReal (now - start_time));
                            ("job_info", target_job)]))
         else
           sleep check_interval ;;;
           ret (inl tt))
      (fun _ => sleep check_interval ;;; ret (inl tt))
  else
    ret (inr (JDict [("job_name", JStr job_name);
                     ("status", JStr "timeout");
                     ("duration", JNum timeout)])).

Fixpoint wait_loop (fuel : nat) (pipeline_id : Z) (job_name : string) (timeout : Z)
         (start_time : Q) (st : State S) : option (State S * Result json) :=
  match fuel with
  | O => None
  | Datatypes.S fuel' =>
      match wait_round pipeline_id job_name timeout start_time st with
      | (st', Ok (inl _)) => wait_loop fuel' pipeline_id job_name timeout start_time st'
      | (st', Ok (inr result)) => Some (st', Ok result)
      | (st', Raise e) => Some (st', Raise e)
      end
  end.

(** [wait_for_job_completion], for at most [fuel] evaluations of the
    condition of its loop *)
Definition wait_for_job_completion (fuel : nat) (pipeline_id : Z) (job_name : string)
           (timeout : Z) (st : State S) : option (State S * Result json) :=
  match time_time clock st with
  | (st', Ok start_time) => wait_loop fuel pipeline_id job_name timeout start_time st'
  | (st', Raise e) => Some (st', Raise e)
  end.

End Monitor.
End PipelineMonitor.

(** ** PipelineGenerator *)

Module PipelineGenerator.
Import Py.
Local Open Scope py_scope.

(** The project descriptor [ProjectAnalyzer.analyze] builds; every key is
    always present there, so the [.get] defaults are never used. *)
Record ProjectData : Type := mkProjectData {
  name : string;
  language : string;
  type : string;
  has_pipeline : bool;
  files : list string;
  default_branch : string;
  available_branches : list string;
  analysis_branch : string
}.

(** [config['pipelines'][pipeline_type]] *)
Record PipelineConfig : Type := mkPipelineConfig {
  template_path : string;
  files_to_create : list string;
  required_env : list string
}.

Record Config : Type := mkConfig {
  default_branches : list (string * string);   (* [config['global']['default_branches']] *)
  pipelines : list (string * PipelineConfig)
}.

Fixpoint assoc {A} (k : string) (l : list (string * A)) : option A :=
  match l with
  | [] => None
  | (k', v) :: r => if String.eqb k' k then Some v else assoc k r
  end.

Definition get_or {A} (k : string) (l : list (string * A)) (default : A) : A :=
  match assoc k l with Some v => v | None => default end.

Definition newline : string := String (ascii_of_nat 10) EmptyString.

Fixpoint bytes (l : list nat) : string :=
  match l with
  | [] => EmptyString
  | b :: r => String (ascii_of_nat b) (bytes r)
  end.

(** the three non-ASCII characters of the description, in UTF-8 *)
Definition memo : string := bytes [240; 159; 147; 157]%nat.
Definition sparkles : string := bytes [226; 156; 168]%nat.
Definition arrow : string := bytes [226; 134; 146]%nat.

Definition _render_template (template_str : string) (context : list (string * string))
  : string :=
  fold_left
    (fun rendered_str kv =>
       let placeholder := "{{" ++ fst kv ++ "}}" in
       if PyStr.has_substring placeholder rendered_str
       then PyStr.replace placeholder (snd kv) rendered_str
       else rendered_str)
    context template_str.

Definition _get_branch_names (config : Config) : list (string * string) :=
  let branch_config := default_branches config in
  [("source", get_or "source" branch_config "main");
   ("target", get_or "target" branch_config "dev");
   ("feature", get_or "feature_prefix" branch_config "feature/pipeops")].

Definition _get_best_target_branch (project_data : ProjectData) : string :=
  let available_branches := available_branches project_data in
  let analysis_branch := analysis_branch project_data in
  let default_branch := default_branch project_data in
  if PyStr.contains analysis_branch ["develop"; "dev"] then analysis_branch
  else
    match find (fun target => PyStr.contains target available_branches)
               ["develop"; "dev"; default_branch] with
    | Some target => target
    | None => default_branch
    end.

Definition _get_best_source_branch (project_data : ProjectData) (config : Config)
  : string :=
  let available_branches := available_branches project_data in
  let default_branch := default_branch project_data in
  let analysis_branch := analysis_branch project_data in
  if (negb (String.eqb analysis_branch "")
      && PyStr.contains analysis_branch available_branches)%bool
  then analysis_branch
  else if PyStr.contains default_branch available_branches then default_branch
  else match available_branches with
       | first :: _ => first
       | [] => "main"
       end.

(** [str(Path(template_path) / file_name)]; an absolute [file_name] replaces
    the directory.  Other normalisation of the path is left to the reader of
    the file system. *)
Definition path_join (template_path file_name : string) : string :=
  if PyStr.startswith "/" file_name then file_name
  else template_path ++ "/" ++ file_name.

Section Generator.
Context {S : Type}.
Variable serve : S -> Request -> S * Reply.
(** The template files: [None] for a path that does not exist, else what
    reading the file gives. *)
Variable file_system : string -> option (Result string).
Variable creation_date : string.   (* [date.today().strftime("%Y-%m-%d")] *)
Variable creation_year : Z.        (* [date.today().year] *)

(** [self.gitlab = GitLabHandler(token, project_url)] *)
Definition max_retries : Z := 3.

Definition _load_template_file (template_path : string) : M S string :=
  match file_system template_path with
  | None => raise (FileNotFoundError template_path)
  | Some content => lift content
  end.

Definition _prepare_context (project_data : ProjectData) : list (string * string) :=
  let context :=
    [("creation_date", creation_date);
     ("creation_year", PyStr.of_Z creation_year);
     ("project_name", name project_data);
     ("language", language project_data);
     ("pipeline_type", type project_data)] in
  if PyStr.has_substring "_" (type project_data) then
    match PyStr.split "_"%char (type project_data) with
    | first :: second :: _ =>
        context ++ [("original_language", first); ("original_type", second)]
    | _ => context
    end
  else context.

Definition _check_file_exists_in_branch (branch_name file_path : string) : M S bool :=
  try_except
    (files_in_branch <- GitLabHandler.get_file_list serve max_retries (JStr branch_name) ;;
     ret (py_in (JStr file_path) files_in_branch))
    (fun _ => ret false).

Definition file_action (action_type file_name file_content : string) : json :=
  JDict [("action", JStr action_type);
         ("file_path", JStr file_name);
         ("content", JStr file_content)].

(** the [for file_name in files_to_create] loop *)
Fixpoint build_actions (template_path : string) (context : list (string * string))
         (source_branch : string) (files_to_create : list string)
  : M S (list json) :=
  match files_to_create with
  | [] => ret []
  | file_name :: rest =>
      template_content <- _load_template_file (path_join template_path file_name) ;;
      let file_content := _render_template template_content context in
      file_exists <- _check_file_exists_in_branch source_branch file_name ;;
      let action_type := if file_exists then "update" else "create" in
      actions <- build_actions template_path context source_branch rest ;;
      ret (file_action action_type file_name file_content :: actions)
  end.

Definition _create_pipeline_files (project_data : ProjectData) (config : Config)
           (source_branch : string) : M S (list json) :=
  let pipeline_type := type project_data in
  match assoc pipeline_type (pipelines config) with
  | None =>
      raise (ValueError ("Pipeline type '" ++ pipeline_type
                         ++ "' not found in configuration"))
  | Some pipeline_config =>
      build_actions (template_path pipeline_config)
                    (_prepare_context project_data)
                    source_branch
                    (files_to_create pipeline_config)
  end.

Definition text_of (v : json) : string :=
  match v with JStr s => s | _ => EmptyString end.

Definition action_field (action : json) (key : string) : string :=
  match action with
  | JDict fields => match lookup key fields with Some v => text_of v | None => "" end
  | _ => ""
  end.

Definition _create_mr_description (project_data : ProjectData) (config : Config)
           (actions : list json) (source_branch : string) : Result string :=
  let pipeline_type := type project_data in
  match assoc pipeline_type (pipelines config) with
  | None => Raise (KeyError pipeline_type)
  | Some pipeline_config =>
  let required_env := required_env pipeline_config in
  Ok ("## PipeOps: Automated Pipeline Setup

### Project Information
- **Project**: `" ++ name project_data ++ "`
- **Pipeline Type**: `" ++ pipeline_type ++ "`
- **Source Branch**: `" ++ source_branch ++ "` (used as base for new pipeline)
- **Generated**: " ++ creation_date ++ "

### Branch Flow
```
" ++ source_branch ++ " " ++ arrow ++ " feature/pipeops " ++ arrow ++ " (target branch)
```

### Files Modified
"
  ++ String.concat "" (map (fun action =>
                    "- " ++ (if String.eqb (action_field action "action") "update"
                             then memo else sparkles)
                    ++ " `" ++ action_field action "file_path" ++ "` ("
                    ++ action_field action "action" ++ "d)" ++ newline)
                 actions)
  ++ "
### Required Environment Variables
"
  ++ String.concat "" (map (fun var => "- `" ++ var ++ "`" ++ newline) required_env)
  ++ "
### Next Steps
1. Review the pipeline configuration files
2. Ensure all required environment variables are configured
3. Merge this MR to activate the pipeline
4. Monitor the first pipeline run

---
*Generated by PipeOps CLI from `" ++ source_branch ++ "` branch*
")
  end.

(** [generate_and_commit]; [JNull] is the absent outcome [None]. *)
Definition generate_and_commit (project_data : ProjectData) (config : Config)
  : M S json :=
  try_except
    (let branches := _get_branch_names config in
     let new_branch := get_or "feature" branches "" in
     let source_branch := _get_best_source_branch project_data config in
     let target_branch := _get_best_target_branch project_data in
     created <- GitLabHandler.create_branch serve max_retries new_branch
                  (JStr source_branch) ;;
     if negb created then ret JNull
     else
       actions <- _create_pipeline_files project_data config source_branch ;;
       if negb (truthy (JList actions)) then ret JNull
       else
         let pipeline_type := type project_data in
         let action_word := if has_pipeline project_data then "Update" else "Add" in
         let commit_message :=
           action_word ++ " pipeline configuration for " ++ pipeline_type
           ++ newline ++ newline ++ "Generated by PipeOps CLI" ++ newline
           ++ "Based on: " ++ source_branch in
         commit_result <- GitLabHandler.commit_files serve max_retries new_branch
                            commit_message (JList actions) ;;
         if negb (truthy commit_result) then ret JNull
         else
           let pipeline_triggered := false in
           let mr_title :=
             "PipeOps: " ++ action_word ++ " pipeline for " ++ pipeline_type in
           mr_description <-
             lift (_create_mr_description project_data config actions source_branch) ;;
           mr_result <- GitLabHandler.create_merge_request serve max_retries
                          mr_title new_branch (JStr target_branch)
                          (JStr mr_description) ;;
           ret (JDict [("success", JBool true);
                       ("branch_name", JStr new_branch);
                       ("source_branch", JStr source_branch);
                       ("target_branch", JStr target_branch);
                       ("commit", commit_result);
                       ("merge_request", mr_result);
                       ("files_created", JNum (Z.of_nat (List.length actions)));
                       ("pipeline_type", JStr pipeline_type);
                       ("pipeline_triggered", JBool pipeline_triggered)]))
    (fun _ => ret JNull).

End Generator.
End PipelineGenerator.

(** ** ProjectAnalyzer: the analysis of the project on the host *)

Module Analyzer.
Import Py.
Local Open Scope py_scope.

(** The dictionary [analyze] builds and hands to its helpers.  Its eight
    keys are set when it is created and none is ever removed, so that a
    [.get] with a default reads the key.  The values of the branch keys and
    the file list are what the host sent. *)
Record ProjectData : Type := mkProjectData {
  name : string;
  language : string;
  type : string;
  has_pipeline : bool;
  files : list json;
  default_branch : json;
  available_branches : list json;
  analysis_branch : json
}.

(** [project_data[key] = value] *)
Definition with_default_branch (d : ProjectData) (value : json) : ProjectData :=
  mkProjectData (name d) (language d) (type d) (has_pipeline d) (files d)
                value (available_branches d) (analysis_branch d).

Definition with_available_branches (d : ProjectData) (value : list json) : ProjectData :=
  mkProjectData (name d) (language d) (type d) (has_pipeline d) (files d)
                (default_branch d) value (analysis_branch d).

Definition with_has_pipeline (d : ProjectData) (value : bool) : ProjectData :=
  mkProjectData (name d) (language d) (type d) value (files d)
                (default_branch d) (available_branches d) (analysis_branch d).

Definition with_files (d : ProjectData) (value : list json) : ProjectData :=
  mkProjectData (name d) (language d) (type d) (has_pipeline d) value
                (default_branch d) (available_branches d) (analysis_branch d).

Definition with_analysis_branch (d : ProjectData) (value : json) : ProjectData :=
  mkProjectData (name d) (language d) (type d) (has_pipeline d) (files d)
                (default_branch d) (available_branches d) value.

Definition with_language (d : ProjectData) (value : string) : ProjectData :=
  mkProjectData (name d) value (type d) (has_pipeline d) (files d)
                (default_branch d) (available_branches d) (analysis_branch d).

Definition with_type (d : ProjectData) (value : string) : ProjectData :=
  mkProjectData (name d) (language d) value (has_pipeline d) (files d)
                (default_branch d) (available_branches d) (analysis_branch d).

Definition _get_primary_branch_for_analysis (project_data : ProjectData) : json :=
  let available_branches := available_branches project_data in
  let default_branch := default_branch project_data in
  let priority_branches :=
    [JStr "develop"; JStr "dev"; default_branch; JStr "main"; JStr "master"] in
  match find (fun branch => py_in branch available_branches) priority_branches with
  | Some branch => branch
  | None => default_branch
  end.

(** The paths of a listing as strings: [[f.lower() for f in files]] raises
    on a path that is not one. *)
Definition strings_of (files : list json) : Result (list string) :=
  map_result (fun f => match f with
                       | JStr s => Ok s
                       | _ => Raise AttributeError
                       end) files.

(** [_detect_language] and [_detect_type] on a listing as the host sent it *)
Definition _detect_language (files : list json) : Result string :=
  bind_result (strings_of files) (fun names =>
  Ok (ProjectAnalyzer._detect_language names)).

Definition _detect_type (files : list json) (language : string) : Result string :=
  bind_result (strings_of files) (fun names =>
  Ok (ProjectAnalyzer._detect_type names language)).

(** [', '.join(branch_names)] in the log line raises on a non-string *)
Definition join_names (branch_names : list json) : Result unit :=
  if forallb is_str branch_names then Ok tt else Raise TypeError.

Section Client.
Context {S : Type}.
Variable serve : S -> Request -> S * Reply.

(** [self.gitlab = GitLabHandler(token, project_url)] *)
Definition max_retries : Z := 3.

(** [requests.get(url, headers=...)]: one request, sent once *)
Definition requests_get (url : Url) : M S Response :=
  fun st =>
    let request := mkRequest GET url [] JNull in
    let (s', reply) := serve (server st) request in
    let st' := record (Call request reply) (set_server s' st) in
    match reply with
    | Fails e => (st', Raise e)
    | Answers status_code body => (st', Ok (mkResponse status_code body))
    end.

Definition _get_default_branch : M S json :=
  try_except
    (res <- requests_get api_url ;;
     lift (GitLabHandler.raise_for_status (status_code res)) ;;;
     project_info <- lift (response_json res) ;;
     lift (get project_info "default_branch" (JStr "main")))
    (fun _ => ret (JStr "main")).

Definition _get_available_branches : M S (list json) :=
  try_except
    (res <- requests_get branches_url ;;
     lift (GitLabHandler.raise_for_status (status_code res)) ;;;
     branches <- lift (response_json res) ;;
     items <- lift (iterate branches) ;;
     branch_names <- lift (map_result (fun branch => getitem branch "name") items) ;;
     lift (join_names branch_names) ;;;
     ret branch_names)
    (fun _ => ret []).

Definition _get_analysis_files (project_data : ProjectData) : M S (list json * json) :=
  let primary_branch := _get_primary_branch_for_analysis project_data in
  try_except
    (files <- GitLabHandler.get_file_list serve max_retries primary_branch ;;
     ret (files, primary_branch))
    (fun _ =>
       let default_branch := default_branch project_data in
       if negb (py_eqb primary_branch default_branch) then
         try_except
           (files <- GitLabHandler.get_file_list serve max_retries default_branch ;;
            ret (files, default_branch))
           (fun _ => ret ([], primary_branch))
       else ret ([], primary_branch)).

(** The [for branch in branches_to_check] loop.  The [try] block either
    returns [True] or leaves the loop to go on with the next branch, as
    does the handler. *)
Fixpoint check_branches (branches_to_check : list json) (project_data : ProjectData)
  : M S bool :=
  match branches_to_check with
  | [] => ret false
  | branch :: rest =>
      if py_in branch (available_branches project_data) then
        found <- try_except
                   (files <- GitLabHandler.get_file_list serve max_retries branch ;;
                    names <- lift (strings_of files) ;;
                    ret (PyStr.contains ".gitlab-ci.yml" (map PyStr.lower names)))
                   (fun _ => ret false) ;;
        if found then ret true else check_branches rest project_data
      else check_branches rest project_data
  end.

Definition _check_for_pipeline (project_data : ProjectData) : M S bool :=
  check_branches [JStr "develop"; JStr "dev"; default_branch project_data;
                  JStr "main"; JStr "master"]
                 project_data.

(** One statement of the [try] block of [analyze]: when it raises, the
    handler logs the error and [analyze] returns the dictionary as the
    statements before it have left it. *)
Definition attempt {A} (project_data : ProjectData) (statement : M S A)
           (rest : A -> M S ProjectData) : M S ProjectData :=
  fun st =>
    match statement st with
    | (st', Ok a) => rest a st'
    | (st', Raise _) => (st', Ok project_data)
    end.

(** [analyze]; [project_name] is the last component of the project path *)
Definition analyze (project_name : string) : M S ProjectData :=
  let project_data :=
    mkProjectData project_name "unknown" "unknown" false []
                  (JStr "main") [] (JStr "main") in
  attempt project_data _get_default_branch (fun default_branch =>
  let project_data := with_default_branch project_data default_branch in
  attempt project_data _get_available_branches (fun available_branches =>
  let project_data := with_available_branches project_data available_branches in
  attempt project_data (_check_for_pipeline project_data) (fun has_pipeline =>
  let project_data := with_has_pipeline project_data has_pipeline in
  attempt project_data (_get_analysis_files project_data) (fun result =>
  let (files, analysis_branch) := result in
  let project_data :=
    with_analysis_branch (with_files project_data files) analysis_branch in
  attempt project_data (lift (_detect_language files)) (fun detected_language =>
  let project_data := with_language project_data detected_language in
  attempt project_data (lift (_detect_type files detected_language))
          (fun detected_type =>
  ret (with_type project_data detected_type))))))).

End Client.
End Analyzer.

(** ** Two hosts to run the client against *)

(** A host that answers from a prepared list, one reply per request, and
    refuses the connection once the list is used up. *)
Module Script.
Import Py.

Definition serve (replies : list Reply) (request : Request) : list Reply * Reply :=
  match replies with
  | [] => ([], Fails (RequestException "ConnectionError"))
  | reply :: rest => (rest, reply)
  end.

(** a fresh client in front of the script, with the lines the user will type *)
Definition start (replies : list Reply) (lines : list string) : State (list Reply) :=
  mkState replies [] 0 lines JNull JNull.

End Script.

(** A host that gives the same reply to every request. *)
Module Steady.
Import Py.

Definition serve (reply : Reply) (s : unit) (request : Request) : unit * Reply :=
  (tt, reply).

Definition start (lines : list string) : State unit :=
  mkState tt [] 0 lines JNull JNull.

End Steady.

(** A model of the branch interface of the repository host.  The host is not
    part of the repository; what is assumed of it is written here.
    - A branch has a name and points at a commit; [branches] lists them.
    - Looking a branch up answers 200 with its record, or 404.
    - Deleting a branch that exists removes it and answers 204; deleting one
      that does not exist answers 404.
    - Creating a branch answers 400 when the name is taken or when the ref
      does not name a branch; else the new branch points at the commit of
      the ref, and the answer is 201.
    - A request may fail before it reaches the host ([outages]): the call
      then raises and the host is left as it was. *)
Module Host.
Import Py.

Record State : Type := mkHost {
  branches : list (string * string);   (* name, commit *)
  project : json;                      (* the project record *)
  outages : list (option exn)          (* what happens to the coming requests *)
}.

Fixpoint commit_of (name : string) (bs : list (string * string)) : option string :=
  match bs with
  | [] => None
  | (n, c) :: rest => if String.eqb n name then Some c else commit_of name rest
  end.

Definition remove (name : string) (bs : list (string * string))
  : list (string * string) :=
  filter (fun b => negb (String.eqb (fst b) name)) bs.

Definition branch_record (name commit : string) : json :=
  JDict [("name", JStr name); ("commit", JDict [("id", JStr commit)])].

(** the name and the ref of a creation request, when both are strings *)
Definition creation (payload : json) : option (string * string) :=
  match payload with
  | JDict fields =>
      match lookup "branch" fields, lookup "ref" fields with
      | Some (JStr name), Some (JStr ref) => Some (name, ref)
      | _, _ => None
      end
  | _ => None
  end.

(** the answer of a host that is reached *)
Definition respond (bs : list (string * string)) (project : json) (request : Request)
  : list (string * string) * Reply :=
  match method request, url request with
  | GET, api_url => (bs, Answers 200 (Some project))
  | GET, branches_url =>
      (bs, Answers 200 (Some (JList (map (fun b => branch_record (fst b) (snd b)) bs))))
  | GET, branch_url name =>
      match commit_of name bs with
      | Some commit => (bs, Answers 200 (Some (branch_record name commit)))
      | None => (bs, Answers 404 None)
      end
  | DELETE, branch_url name =>
      match commit_of name bs with
      | Some _ => (remove name bs, Answers 204 None)
      | None => (bs, Answers 404 None)
      end
  | POST, branches_url =>
      match creation (payload request) with
      | Some (name, ref) =>
          match commit_of name bs, commit_of ref bs with
          | None, Some commit =>
              ((bs ++ [(name, commit)])%list,
               Answers 201 (Some (branch_record name commit)))
          | _, _ => (bs, Answers 400 None)
          end
      | None => (bs, Answers 400 None)
      end
  | _, _ => (bs, Answers 404 None)
  end.

Definition serve (h : State) (request : Request) : State * Reply :=
  match outages h with
  | Some e :: rest => (mkHost (branches h) (project h) rest, Fails e)
  | None :: rest =>
      let (bs, reply) := respond (branches h) (project h) request in
      (mkHost bs (project h) rest, reply)
  | [] =>
      let (bs, reply) := respond (branches h) (project h) request in
      (mkHost bs (project h) [], reply)
  end.

Definition start (h : State) (lines : list string) : Py.State State :=
  mkState h [] 0 lines JNull JNull.

(** how many branches carry this name *)
Definition count (name : string) (bs : list (string * string)) : nat :=
  List.length (filter (fun b => String.eqb (fst b) name) bs).

End Host.

(** ** A sample project *)

Module Sample.
Import Py PipelineGenerator.

Definition project_data : ProjectData :=
  mkProjectData "shop" "python" "python_service" false
                ["app.py"; "requirements.txt"; "Dockerfile"]
                "main" ["main"; "develop"] "develop".

Definition config : Config :=
  mkConfig []
           [("python_service",
             mkPipelineConfig "templates/python_service"
                              [".gitlab-ci.yml"; "Dockerfile"]
                              ["OC_URL"; "OC_TOKEN"])].

Definition file_system (path : string) : option (Result string) :=
  if String.eqb path "templates/python_service/.gitlab-ci.yml"
  then Some (Ok "# pipeline of {{project_name}} ({{language}}), {{creation_year}}")
  else if String.eqb path "templates/python_service/Dockerfile"
  then Some (Ok "FROM python:3")
  else None.

(** the tree of branch develop, as the host sends it *)
Definition tree : json :=
  JList [JDict [("path", JStr "app.py"); ("type", JStr "blob")];
         JDict [("path", JStr "src"); ("type", JStr "tree")];
         JDict [("path", JStr "Dockerfile"); ("type", JStr "blob")]].

Definition listing : list json := [JStr "app.py"; JStr "Dockerfile"].

(** the branch asked for is gone; the project's default branch is "main" *)
Definition branch_gone : list Reply :=
  [Answers 404 None; Answers 404 None; Answers 404 None;
   Answers 200 (Some (JDict [("default_branch", JStr "main")]));
   Answers 200 (Some tree)].

(** The host of a run in which the feature branch does not exist yet, the
    branch and the commit are created, and the host cannot be reached any
    more when the merge request is to be opened. *)
Definition unreachable_for_merge_request : list Reply :=
  [Answers 404 None; Answers 404 None; Answers 404 None;
   Answers 201 (Some (JDict [("name", JStr "feature/pipeops")]));
   Answers 200 (Some tree);
   Answers 200 (Some tree);
   Answers 201 (Some (JDict [("id", JStr "4f2a9c")]))].

(** a host on which the feature branch is left over from an earlier run *)
Definition leftover : Host.State :=
  Host.mkHost [("main", "c0"); ("develop", "c1"); ("feature/pipeops", "c9")]
              (JDict [("default_branch", JStr "main")])
              [].

End Sample.

(** a clock that advances one second from each reading to the next *)
Definition one_second_per_reading (n : nat) : Q := inject_Z (Z.of_nat n).

(** the answer of a host on which the pipeline is still running *)
Definition running : Py.Reply :=
  Py.Answers 200 (Some (Py.JDict [("status", Py.JStr "running")])).

(** ** Vocabulary of the properties *)

Module Spec.
Import Py.

(** [m] relates the state it starts from to the state it ends in. *)
Definition keeps {S : Type} (R : State S -> State S -> Prop) {A : Type} (m : M S A)
  : Prop :=
  forall st st' r, m st = (st', r) -> R st st'.

(** the host can answer [request] with this status and body *)
Definition served {S : Type} (serve : S -> Request -> S * Reply)
           (request : Request) (status_code : Z) (body : option json) : Prop :=
  exists s, snd (serve s request) = Answers status_code body.

(** what [_make_request] makes of a reply: the response, or the exception of
    a failed call or of a status from 400 to 599 *)
Definition reply_result (reply : Reply) : Result Response :=
  match reply with
  | Fails e => Raise e
  | Answers status_code body =>
      if ((400 <=? status_code) && (status_code <? 600))%bool
      then Raise (HTTPError status_code)
      else Ok (mkResponse status_code body)
  end.

(** The events of consecutive attempts at [request], numbered from [index],
    one per reply, with a pause of twice the attempt's number after every
    attempt but the last. *)
Fixpoint retry_trace (request : Request) (index : Z) (replies : list Reply)
  : list Event :=
  match replies with
  | [] => []
  | reply :: rest =>
      Call request reply ::
      match rest with
      | [] => []
      | _ :: _ => Sleep (index * 2) :: retry_trace request (index + 1) rest
      end
  end.

(** [result] is a dictionary whose ["status"] is one of the [allowed] names *)
Definition status_in (allowed : list string) (result : json) : Prop :=
  exists fields status,
    result = JDict fields
    /\ lookup "status" fields = Some (JStr status)
    /\ In status allowed.

Definition claimed_statuses : list string :=
  ["success"; "failed"; "canceled"; "skipped"; "timeout"].

Definition returned_statuses : list string := claimed_statuses ++ ["error"].

(** Every pipeline record the host hands out is a JSON object (or a value
    Python reads as false). *)
Definition pipeline_records_are_objects {S : Type}
           (serve : S -> Request -> S * Reply) (pipeline_id : Z) : Prop :=
  forall status_code info,
    served serve (mkRequest GET (pipeline_url pipeline_id) [] JNull)
           status_code (Some info) ->
    truthy info = true -> is_dict info = true.

(** the two states are at the same reading of the clock *)
Definition same_ticks {S : Type} (a b : State S) : Prop := ticks a = ticks b.

(** the later state has the trace of the earlier one, and maybe more *)
Definition trace_grows {S : Type} (a b : State S) : Prop :=
  exists more, trace b = (trace a ++ more)%list.

(** the two states hold the same memoised project record and default branch *)
Definition same_caches {S : Type} (a b : State S) : Prop :=
  _project_info a = _project_info b /\ _default_branch a = _default_branch b.

(** As long as the host is in a state of [Inv], it answers the listing of
    [source_branch] with a tree whose blobs are [listing], and stays in [Inv]:
    the source branch is unchanged. *)
Definition lists_steadily {S : Type} (serve : S -> Request -> S * Reply)
           (Inv : S -> Prop) (source_branch : string) (listing : list json) : Prop :=
  forall s, Inv s ->
    let request := mkRequest GET tree_url
                     (GitLabHandler.tree_params (JStr source_branch)) JNull in
    exists status_code tree items,
      snd (serve s request) = Answers status_code (Some tree)
      /\ status_code < 400
      /\ iterate tree = Ok items
      /\ GitLabHandler.blob_paths items = Ok listing
      /\ Inv (fst (serve s request)).



(** [_make_request] raises on this reply *)
Definition failed (reply : Reply) : bool :=
  match reply_result reply with
  | Raise _ => true
  | Ok _ => false
  end.

(** Reading the events from left to right, [blocked] telling whether the
    last request was an attempt at deleting that failed: the answer is [None]
    when such an attempt is followed by a prompt or by a request that is not
    a new attempt at deleting, and else [Some] of the final [blocked]. *)
Fixpoint deletion_guards (blocked : bool) (events : list Event) : option bool :=
  match events with
  | [] => Some blocked
  | Sleep _ :: rest => deletion_guards blocked rest
  | Input _ :: rest => if blocked then None else deletion_guards false rest
  | Call request reply :: rest =>
      match method request with
      | DELETE => deletion_guards (failed reply) rest
      | _ => if blocked then None else deletion_guards false rest
      end
  end.

(** from [a] to [b] the trace has grown by events that pass [deletion_guards] *)
Definition guarded {S : Type} (blocked : bool) (a b : State S) (blocked' : bool)
  : Prop :=
  exists new,
    trace b = (trace a ++ new)%list
    /\ deletion_guards blocked new = Some blocked'.

(** [request] asks for the deletion of the branch [name] *)
Definition deletes (name : string) (request : Request) : bool :=
  match method request, url request with
  | DELETE, branch_url branch_name => String.eqb branch_name name
  | _, _ => false
  end.

(** Reading the events from left to right, [asked] telling whether the user
    has been prompted and [deleted] whether a deletion of the branch [name]
    has succeeded: the answer is [None] when a creation is sent after a
    prompt and before any deletion has succeeded, and else [Some] of the
    final [asked] and [deleted]. *)
Fixpoint confirmation_guards (name : string) (asked deleted : bool)
         (events : list Event) : option (bool * bool) :=
  match events with
  | [] => Some (asked, deleted)
  | Sleep _ :: rest => confirmation_guards name asked deleted rest
  | Input _ :: rest => confirmation_guards name true deleted rest
  | Call request reply :: rest =>
      if (deletes name request && negb (failed reply))%bool
      then confirmation_guards name asked true rest
      else
        match method request with
        | POST =>
            if (asked && negb deleted)%bool then None
            else confirmation_guards name asked deleted rest
        | _ => confirmation_guards name asked deleted rest
        end
  end.

(** from [a] to [b] the trace has grown by events that pass
    [confirmation_guards] *)
Definition confirmed {S : Type} (name : string) (asked deleted : bool)
           (a b : State S) (asked' deleted' : bool) : Prop :=
  exists new,
    trace b = (trace a ++ new)%list
    /\ confirmation_guards name asked deleted new = Some (asked', deleted').

(** steps that neither prompt, nor delete, nor create *)
Definition neutral {S : Type} (name : string) (a b : State S) : Prop :=
  forall asked deleted, confirmed name asked deleted a b asked deleted.

(** no creation among [events] went through *)
Definition refused (events : list Event) : Prop :=
  forall request reply,
    In (Call request reply) events -> method request = POST -> failed reply = true.

(** [events] hold a deletion of the branch [name] that succeeded, and no
    creation went through before it *)
Definition deleted_first (name : string) (events : list Event) : Prop :=
  exists before deletion answer after,
    events = (before ++ Call deletion answer :: after)%list
    /\ deletes name deletion = true
    /\ failed answer = false
    /\ refused before.

(** On the way from [a] to [b], a branch [name] that was on the host is
    still there and no creation has gone through, or it has been deleted
    first. *)
Definition kept_or_deleted (name : string) (a b : State Host.State) : Prop :=
  exists new,
    trace b = (trace a ++ new)%list
    /\ (Host.commit_of name (Host.branches (server a)) <> None ->
        (Host.commit_of name (Host.branches (server b)) <> None /\ refused new)
        \/ deleted_first name new).

(** steps that send no deletion and leave nothing blocked *)
Definition quiet {S : Type} (a b : State S) : Prop := guarded false a b false.

(** a default branch, once memoised, stays *)
Definition sticky {S : Type} (a b : State S) : Prop :=
  _default_branch a <> JNull -> _default_branch b = _default_branch a.

(** on the host, only the branch [branch_name] may differ between the states *)
Definition only_changes (branch_name : string) (a b : State Host.State) : Prop :=
  forall other,
    other <> branch_name ->
    Host.commit_of other (Host.branches (server b))
    = Host.commit_of other (Host.branches (server a)).

(** the clock never runs backwards *)
Definition monotone (clock : nat -> Q) : Prop :=
  forall i j, (i <= j)%nat -> (clock i <= clock j)%Q.

(** The host cannot be reached, or turns every request down: whatever is
    asked, [_make_request] raises. *)
Definition unreachable {S : Type} (serve : S -> Request -> S * Reply) : Prop :=
  forall s request, failed (snd (serve s request)) = true.

(** a text in which no placeholder can start: it has no opening brace *)
Definition plain (text : string) : Prop :=
  forall c, In c (list_ascii_of_string text) -> c <> "{"%char.

(** a name without underscore, as the names of the detected languages and
    types are *)
Definition simple_name (text : string) : Prop :=
  forall c, In c (list_ascii_of_string text) -> c <> "_"%char.

(** nothing is memoised yet, or the default branch memoised is a name *)
Definition default_settled {S : Type} (st : State S) : Prop :=
  (_project_info st = JNull /\ _default_branch st = JNull)
  \/ exists default_branch, _default_branch st = JStr default_branch.

(** the state after one [GET] of [url] sent without the retry wrapper *)
Definition asked {S : Type} (serve : S -> Request -> S * Reply) (url : Url)
           (st : State S) : State S :=
  let request := mkRequest GET url [] JNull in
  record (Call request (snd (serve (server st) request)))
         (set_server (fst (serve (server st) request)) st).

(** the descriptor [analyze] starts from *)
Definition blank_descriptor (project_name : string) : Analyzer.ProjectData :=
  Analyzer.mkProjectData project_name "unknown" "unknown" false []
                         (JStr "main") [] (JStr "main").

(** the host answers while no outage is planned *)
Definition reachable (h : Host.State) : Prop := Host.outages h = [].

End Spec.

(** * Properties *)

(** ** Facts about strings and Python values *)

Module PyFacts.
Import Py.

Lemma contains_In (x : string) (xs : list string) :
  PyStr.contains x xs = true <-> In x xs.
Proof.
  induction xs as [|y r IH]; simpl.
  - split; [discriminate | tauto].
  - rewrite orb_true_iff, IH, String.eqb_eq. tauto.
Qed.

(** Only the string itself is [==] to a string. *)
Lemma py_eqb_str_r (v : json) (s : string) :
  py_eqb v (JStr s) = true <-> v = JStr s.
Proof.
  destruct v; simpl; try (split; [discriminate | intros H; discriminate H]).
  rewrite String.eqb_eq. split; [intros -> | intros [= ->]]; reflexivity.
Qed.

Lemma py_eqb_str_refl (s : string) : py_eqb (JStr s) (JStr s) = true.
Proof. apply py_eqb_str_r. reflexivity. Qed.

Lemma py_in_strs (v : json) (names : list string) :
  py_in v (map JStr names) = true <-> exists s, v = JStr s /\ In s names.
Proof.
  unfold py_in. rewrite existsb_exists. split.
  - intros [x [Hin Heq]]. apply in_map_iff in Hin. destruct Hin as [s [<- Hs]].
    apply py_eqb_str_r in Heq. eauto.
  - intros [s [-> Hs]]. exists (JStr s). split.
    + apply in_map. exact Hs.
    + apply py_eqb_str_refl.
Qed.

End PyFacts.

(** ** Language detection *)

Module ProjectAnalyzerFacts.
Import ProjectAnalyzer.

Lemma detect_language_cases (files : list string) :
  let p := python_count files in
  let n := nodejs_count files in
  (_detect_language files = "python" /\ (n < p \/ (n = p /\ 0 < p)))%nat
  \/ (_detect_language files = "javascript" /\ (p < n))%nat
  \/ (_detect_language files = "unknown" /\ p = 0 /\ n = 0)%nat.
Proof.
  cbv zeta. unfold _detect_language.
  destruct (Nat.ltb_spec (nodejs_count files) (python_count files)).
  - left. split; [reflexivity | lia].
  - destruct (Nat.ltb_spec (python_count files) (nodejs_count files)).
    + right. left. split; [reflexivity | lia].
    + destruct (Nat.ltb_spec 0 (python_count files)).
      * left. split; [reflexivity | lia].
      * right. right. split; [reflexivity | lia].
Qed.

(** C9. When the two scores are equal and not zero the answer is the
    first-registered ecosystem, Python; the answer is "unknown" exactly
    when both scores are zero; and a listing made of one marker file of
    each ecosystem, neither of them matching an extension, is such a tie. *)
Theorem detect_language_tie_goes_to_python :
  (forall files,
      python_count files = nodejs_count files ->
      (0 < python_count files)%nat ->
      _detect_language files = "python")
  /\ (forall files,
         _detect_language files = "unknown"
         <-> python_count files = 0%nat /\ nodejs_count files = 0%nat)
  /\ (forall python_marker nodejs_marker,
         In python_marker ["requirements.txt"; "pyproject.toml"] ->
         In nodejs_marker ["package.json"; "yarn.lock"; "package-lock.json"] ->
         python_count [python_marker; nodejs_marker] = 1%nat
         /\ nodejs_count [python_marker; nodejs_marker] = 1%nat
         /\ _detect_language [python_marker; nodejs_marker] = "python"
         /\ _detect_language [nodejs_marker; python_marker] = "python").
Proof.
  split; [| split].
  - intros files Heq Hpos.
    destruct (detect_language_cases files) as [[H _] | [[_ H] | [_ [H _]]]];
      [exact H | lia | lia].
  - intros files. split.
    + intros H.
      destruct (detect_language_cases files) as [[H' _] | [[H' _] | [_ Hz]]];
        [rewrite H' in H; discriminate | rewrite H' in H; discriminate | exact Hz].
    + intros [Hp Hn]. unfold _detect_language. rewrite Hp, Hn. reflexivity.
  - intros python_marker nodejs_marker Hp Hn. simpl in Hp, Hn.
    destruct Hp as [<- | [<- | []]]; destruct Hn as [<- | [<- | [<- | []]]];
      repeat split; reflexivity.
Qed.

Lemma detect_language_tie_goes_to_python_witness :
  python_count ["requirements.txt"; "package.json"]
  = nodejs_count ["requirements.txt"; "package.json"]
  /\ (0 < python_count ["requirements.txt"; "package.json"])%nat
  /\ _detect_language ["requirements.txt"; "package.json"] = "python".
Proof.
  split; [reflexivity |]. split; [vm_compute; lia |].
  apply (proj1 detect_language_tie_goes_to_python); [reflexivity | vm_compute; lia].
Defined.

End ProjectAnalyzerFacts.

(** ** Reasoning about runs *)

Module Run.
Import Py.

Section Steps.
Context {S A B : Type}.

Lemma bind_ok (m : M S A) (f : A -> M S B) st st' a :
  m st = (st', Ok a) -> bind m f st = f a st'.
Proof. intros H. unfold bind. rewrite H. reflexivity. Qed.

Lemma bind_raise (m : M S A) (f : A -> M S B) st st' e :
  m st = (st', Raise e) -> bind m f st = (st', Raise e).
Proof. intros H. unfold bind. rewrite H. reflexivity. Qed.

Lemma try_ok (m : M S A) (h : exn -> M S A) st st' a :
  m st = (st', Ok a) -> try_except m h st = (st', Ok a).
Proof. intros H. unfold try_except. rewrite H. reflexivity. Qed.

Lemma try_raise (m : M S A) (h : exn -> M S A) st st' e :
  m st = (st', Raise e) -> try_except m h st = h e st'.
Proof. intros H. unfold try_except. rewrite H. reflexivity. Qed.

End Steps.
End Run.

(** *** Relations every step of a method keeps *)

Module Frame.
Import Py Spec.
Local Open Scope py_scope.

Section Keeps.
Context {S : Type}.
Variable R : State S -> State S -> Prop.
Hypothesis R_refl : forall st, R st st.
Hypothesis R_trans : forall a b c, R a b -> R b c -> R a c.

Lemma keeps_ret {A} (a : A) : keeps R (ret a).
Proof. intros st st' r [= <- _]. apply R_refl. Qed.

Lemma keeps_raise {A} (e : exn) : keeps R (@raise S A e).
Proof. intros st st' r [= <- _]. apply R_refl. Qed.

Lemma keeps_lift {A} (x : Result A) : keeps R (@lift S A x).
Proof. intros st st' r [= <- _]. apply R_refl. Qed.

Lemma keeps_bind {A B} (m : M S A) (f : A -> M S B) :
  keeps R m -> (forall a, keeps R (f a)) -> keeps R (bind m f).
Proof.
  intros Hm Hf st st' r. unfold bind.
  destruct (m st) as [st1 [a | e]] eqn:E; intros H.
  - eapply R_trans; [eapply Hm; exact E | eapply Hf; exact H].
  - injection H as <- _. eapply Hm; exact E.
Qed.

Lemma keeps_try_except {A} (m : M S A) (h : exn -> M S A) :
  keeps R m -> (forall e, keeps R (h e)) -> keeps R (try_except m h).
Proof.
  intros Hm Hh st st' r. unfold try_except.
  destruct (m st) as [st1 [a | e]] eqn:E; intros H.
  - injection H as <- _. eapply Hm; exact E.
  - eapply R_trans; [eapply Hm; exact E | eapply Hh; exact H].
Qed.

Lemma keeps_get_project_info : keeps R get_project_info.
Proof. intros st st' r [= <- _]. apply R_refl. Qed.

Lemma keeps_get_default_branch_field : keeps R get_default_branch_field.
Proof. intros st st' r [= <- _]. apply R_refl. Qed.

End Keeps.

(** One step of a proof that a method keeps a relation. *)
Ltac keeps_step :=
  match goal with
  | |- keeps _ (ret _) => apply keeps_ret; assumption
  | |- keeps _ (raise _) => apply keeps_raise; assumption
  | |- keeps _ (lift _) => apply keeps_lift; assumption
  | |- keeps _ get_project_info => apply keeps_get_project_info; assumption
  | |- keeps _ get_default_branch_field =>
      apply keeps_get_default_branch_field; assumption
  | |- keeps _ (bind _ _) => apply keeps_bind; [assumption | | intros ?]
  | |- keeps _ (try_except _ _) => apply keeps_try_except; [assumption | | intros ?]
  | |- keeps _ (if ?b then _ else _) => destruct b
  | |- keeps _ (match ?x with _ => _ end) => destruct x
  | |- forall _, _ => intros ?
  | H : _ |- _ => solve [apply H]
  end.

Ltac keeps_auto := repeat keeps_step.

(** What a method keeps follows from what the calls it makes keep. *)
Section Caches.
Context {S : Type}.
Variable serve : S -> Request -> S * Reply.
Variable max_retries : Z.
Variable R : State S -> State S -> Prop.
Hypothesis R_refl : forall st, R st st.
Hypothesis R_trans : forall a b c, R a b -> R b c -> R a c.
Hypothesis R_sleep : forall seconds, keeps R (sleep seconds).

Lemma keeps_retry_loop {A} (func : M S A) :
  keeps R func ->
  forall remaining attempt last_error,
    keeps R (GitLabHandler.retry_loop max_retries func remaining attempt last_error).
Proof.
  intros Hf. induction remaining as [|n IH]; intros attempt last_error; simpl.
  - destruct last_error; keeps_auto.
  - keeps_auto.
Qed.

Lemma keeps_simple_retry {A} (func : M S A) :
  keeps R func -> keeps R (GitLabHandler._simple_retry max_retries func).
Proof. intros Hf. apply keeps_retry_loop. exact Hf. Qed.

Hypothesis R_set_project_info : forall v, keeps R (set_project_info v).
Hypothesis R_set_default_branch : forall v, keeps R (set_default_branch v).
Hypothesis R_call_project :
  keeps R (GitLabHandler._simple_retry max_retries
             (GitLabHandler._make_request serve GET api_url [] JNull)).

Lemma keeps_get_project : keeps R (GitLabHandler.get_project serve max_retries).
Proof. unfold GitLabHandler.get_project. keeps_auto. Qed.

Lemma keeps_get_default_branch :
  keeps R (GitLabHandler.get_default_branch serve max_retries).
Proof.
  pose proof keeps_get_project as Hp.
  unfold GitLabHandler.get_default_branch. keeps_auto.
Qed.

End Caches.

Section Client.
Context {S : Type}.
Variable serve : S -> Request -> S * Reply.
Variable max_retries : Z.
Variable R : State S -> State S -> Prop.
Hypothesis R_refl : forall st, R st st.
Hypothesis R_trans : forall a b c, R a b -> R b c -> R a c.
Hypothesis R_input : keeps R input.
Hypothesis R_default : keeps R (GitLabHandler.get_default_branch serve max_retries).

Hypothesis R_call_branches : keeps R (GitLabHandler._simple_retry max_retries
             (GitLabHandler._make_request serve GET branches_url [] JNull)).

Lemma keeps_get_available_branches :
  keeps R (GitLabHandler.get_available_branches serve max_retries).
Proof. unfold GitLabHandler.get_available_branches. keeps_auto. Qed.

Hypothesis R_call_tree :
  forall ref, keeps R (GitLabHandler._simple_retry max_retries
             (GitLabHandler._make_request serve GET tree_url
                (GitLabHandler.tree_params ref) JNull)).

Lemma keeps_fetch_tree ref :
  keeps R (GitLabHandler.fetch_tree serve max_retries ref).
Proof. unfold GitLabHandler.fetch_tree. keeps_auto. Qed.

Lemma keeps_probe_common_branches branches available ref :
  keeps R (GitLabHandler.probe_common_branches serve max_retries
             branches available ref).
Proof.
  pose proof keeps_fetch_tree as Hf.
  induction branches as [|b rest IH]; simpl; keeps_auto.
Qed.

Lemma keeps_get_file_list_depth depth :
  forall ref, keeps R (GitLabHandler.get_file_list_depth serve max_retries depth ref).
Proof.
  pose proof keeps_fetch_tree as Hf.
  pose proof keeps_get_available_branches as Ha.
  pose proof keeps_probe_common_branches as Hp.
  induction depth as [|n IH]; intros ref; simpl; keeps_auto.
Qed.

Lemma keeps_get_file_list ref :
  keeps R (GitLabHandler.get_file_list serve max_retries ref).
Proof. apply keeps_get_file_list_depth. Qed.

Variable branch_name : string.
Hypothesis R_call_branch : keeps R (GitLabHandler._simple_retry max_retries
             (GitLabHandler._make_request serve GET (branch_url branch_name) [] JNull)).
Hypothesis R_call_delete : keeps R (GitLabHandler._simple_retry max_retries
             (GitLabHandler._make_request serve DELETE (branch_url branch_name) [] JNull)).
Hypothesis R_call_create :
  forall ref,
    keeps R (GitLabHandler._simple_retry max_retries
             (GitLabHandler._make_request serve POST branches_url []
                (GitLabHandler.branch_payload branch_name ref))).

Lemma keeps_branch_exists :
  keeps R (GitLabHandler.branch_exists serve max_retries branch_name).
Proof. unfold GitLabHandler.branch_exists. keeps_auto. Qed.

Lemma keeps_delete_branch :
  keeps R (GitLabHandler.delete_branch serve max_retries branch_name).
Proof. unfold GitLabHandler.delete_branch. keeps_auto. Qed.

Lemma keeps_get_branch_info :
  keeps R (GitLabHandler.get_branch_info serve max_retries branch_name).
Proof. unfold GitLabHandler.get_branch_info. keeps_auto. Qed.

Lemma keeps_choice_loop lines :
  keeps R (GitLabHandler.choice_loop serve max_retries lines branch_name).
Proof.
  pose proof keeps_delete_branch as Hd.
  induction lines as [|l rest IH]; simpl; keeps_auto.
Qed.

Lemma keeps_confirm_replace :
  keeps R (GitLabHandler.confirm_replace serve max_retries branch_name).
Proof.
  pose proof keeps_delete_branch as Hd.
  pose proof keeps_get_branch_info as Hi.
  pose proof keeps_choice_loop as Hl.
  unfold GitLabHandler.confirm_replace. keeps_auto.
  intros st st' r E. eapply Hl; exact E.
Qed.

Lemma keeps_create_branch_depth depth :
  forall ref,
    keeps R (GitLabHandler.create_branch_depth serve max_retries depth
               branch_name ref).
Proof.
  pose proof keeps_branch_exists as He.
  pose proof keeps_confirm_replace as Hr.
  induction depth as [|n IH]; intros ref; simpl; keeps_auto.
Qed.

Hypothesis R_call_any :
  forall method url params payload, keeps R (GitLabHandler._simple_retry max_retries
             (GitLabHandler._make_request serve method url params payload)).

Lemma keeps_commit_files branch message actions :
  keeps R (GitLabHandler.commit_files serve max_retries branch message actions).
Proof. unfold GitLabHandler.commit_files. keeps_auto. Qed.

Lemma keeps_find_existing_mr source :
  keeps R (GitLabHandler._find_existing_mr serve max_retries source).
Proof. unfold GitLabHandler._find_existing_mr. keeps_auto. Qed.

Lemma keeps_create_merge_request title source target description :
  keeps R (GitLabHandler.create_merge_request serve max_retries
             title source target description).
Proof.
  pose proof keeps_get_available_branches as Ha.
  pose proof keeps_find_existing_mr as Hf.
  unfold GitLabHandler.create_merge_request, GitLabHandler.select_target.
  keeps_auto.
Qed.

Lemma keeps_get_pipeline_by_id id :
  keeps R (GitLabHandler.get_pipeline_by_id serve max_retries id).
Proof. unfold GitLabHandler.get_pipeline_by_id. keeps_auto. Qed.

Lemma keeps_get_pipeline_jobs id :
  keeps R (GitLabHandler.get_pipeline_jobs serve max_retries id).
Proof. unfold GitLabHandler.get_pipeline_jobs. keeps_auto. Qed.

End Client.

End Frame.

(** ** What a call through the retry wrapper can return *)

Module Calls.
Import Py Spec.
Local Open Scope py_scope.

Section Client.
Context {S : Type}.
Variable serve : S -> Request -> S * Reply.
Variable max_retries : Z.

Lemma make_request_ok method url params payload st st' response :
  GitLabHandler._make_request serve method url params payload st = (st', Ok response) ->
  served serve (mkRequest method url params payload)
         (status_code response) (body response).
Proof.
  unfold GitLabHandler._make_request.
  destruct (serve (server st) _) as [s' reply] eqn:E.
  destruct reply as [e | code b]; [discriminate |].
  assert (Hs : snd (serve (server st) (mkRequest method url params payload))
               = Answers code b) by (rewrite E; reflexivity).
  destruct (400 <=? code).
  - destruct (GitLabHandler.raise_for_status code); [| discriminate].
    intros [= _ <-]. exists (server st). exact Hs.
  - intros [= _ <-]. exists (server st). exact Hs.
Qed.

Lemma retry_loop_ok {A} (func : M S A) (P : A -> Prop) :
  (forall st st' a, func st = (st', Ok a) -> P a) ->
  forall remaining attempt last_error st st' a,
    GitLabHandler.retry_loop max_retries func remaining attempt last_error st
    = (st', Ok a) -> P a.
Proof.
  intros Hf. induction remaining as [|n IH]; intros attempt last_error st st' a; simpl.
  - destruct last_error; discriminate.
  - unfold try_except. destruct (func st) as [st1 [x | e]] eqn:E.
    + intros [= _ <-]. eapply Hf; exact E.
    + unfold bind.
      destruct ((if attempt <? max_retries - 1
                 then sleep ((attempt + 1) * 2) else ret tt) st1)
        as [st2 [[] | e2]]; [| discriminate].
      apply IH.
Qed.

Lemma call_ok method url params payload st st' response :
  GitLabHandler._simple_retry max_retries
    (GitLabHandler._make_request serve method url params payload) st
  = (st', Ok response) ->
  served serve (mkRequest method url params payload)
         (status_code response) (body response).
Proof.
  intros H.
  eapply (retry_loop_ok _ (fun r => served serve (mkRequest method url params payload)
                                           (status_code r) (body r)));
    [| exact H].
  intros st0 st1 a. apply make_request_ok.
Qed.

Lemma get_pipeline_by_id_returns pipeline_id st :
  exists st' info,
    GitLabHandler.get_pipeline_by_id serve max_retries pipeline_id st = (st', Ok info)
    /\ (info = JNull
        \/ exists status_code,
            served serve (mkRequest GET (pipeline_url pipeline_id) [] JNull)
                   status_code (Some info)).
Proof.
  unfold GitLabHandler.get_pipeline_by_id, try_except, bind.
  destruct (GitLabHandler._simple_retry _ _ st) as [st1 [response | e]] eqn:E.
  - apply call_ok in E. unfold lift, response_json.
    destruct response as [code [j |]]; simpl in *.
    + exists st1, j. split; [reflexivity |]. right. exists code. exact E.
    + exists st1, JNull. split; [reflexivity |]. left. reflexivity.
  - exists st1, JNull. split; [reflexivity |]. left. reflexivity.
Qed.

End Client.
End Calls.

(** ** The polling loop *)

Module PipelineMonitorFacts.
Import Py Spec PyFacts Frame Calls.
Import PipelineMonitor.
Local Open Scope py_scope.

Section Monitor.
Context {S : Type}.
Variable serve : S -> Request -> S * Reply.
Variable max_retries : Z.
Variable clock : nat -> Q.
Variable check_interval : Z.

Lemma same_ticks_request method url params payload :
  keeps (@same_ticks S) (GitLabHandler._make_request serve method url params payload).
Proof.
  intros st st' r. unfold GitLabHandler._make_request.
  destruct (serve (server st) _) as [s' reply].
  destruct reply as [e | code b].
  - intros [= <- _]. reflexivity.
  - destruct (400 <=? code); [destruct (GitLabHandler.raise_for_status code) |];
      intros [= <- _]; reflexivity.
Qed.

Lemma same_ticks_sleep seconds : keeps (@same_ticks S) (@sleep S seconds).
Proof.
  intros st st' r. unfold sleep. destruct (seconds <? 0); intros [= <- _]; reflexivity.
Qed.

Lemma same_ticks_trans (a b c : State S) :
  same_ticks a b -> same_ticks b c -> same_ticks a c.
Proof. unfold same_ticks. congruence. Qed.

Lemma same_ticks_call method url params payload :
  keeps (@same_ticks S)
        (GitLabHandler._simple_retry max_retries
           (GitLabHandler._make_request serve method url params payload)).
Proof.
  apply keeps_simple_retry.
  - intros st. reflexivity.
  - exact same_ticks_trans.
  - exact same_ticks_sleep.
  - apply same_ticks_request.
Qed.

Lemma same_ticks_get_pipeline_by_id pipeline_id :
  keeps (@same_ticks S)
        (GitLabHandler.get_pipeline_by_id serve max_retries pipeline_id).
Proof.
  apply keeps_get_pipeline_by_id.
  - intros st. reflexivity.
  - exact same_ticks_trans.
  - exact same_ticks_call.
Qed.

Lemma analyze_failure_returns pipeline_id st :
  exists st' analysis,
    _analyze_failure serve max_retries pipeline_id st = (st', Ok analysis).
Proof.
  unfold _analyze_failure, try_except.
  match goal with |- context [match ?b st with _ => _ end] =>
    destruct (b st) as [st1 [a | e]] end.
  - exists st1, a. reflexivity.
  - eexists _, _. reflexivity.
Qed.

(** When the condition of the [while] fails the round returns the
    timeout record and touches nothing but the clock. *)
Lemma monitor_round_timeout pipeline_id max_wait_time start_time checks st :
  (inject_Z max_wait_time <= clock (ticks st) - start_time)%Q ->
  monitor_round serve max_retries clock check_interval
                pipeline_id max_wait_time start_time checks st
  = (tick st, Ok (inr (JDict [("status", JStr "timeout");
                              ("pipeline_id", JNum pipeline_id);
                              ("duration", JNum max_wait_time);
                              ("checks", JNum checks)]))).
Proof.
  intros H. unfold monitor_round, bind, time_time.
  assert (E : Qltb (clock (ticks st) - start_time) (inject_Z max_wait_time) = false).
  { unfold Qltb. apply negb_false_iff. apply Qle_bool_iff. exact H. }
  rewrite E. reflexivity.
Qed.

(** Every record a round returns carries one of the six statuses. *)
Lemma monitor_round_status pipeline_id max_wait_time start_time checks st st' result :
  monitor_round serve max_retries clock check_interval
                pipeline_id max_wait_time start_time checks st
  = (st', Ok (inr result)) ->
  status_in returned_statuses result.
Proof.
  unfold monitor_round, bind, time_time.
  destruct (Qltb _ _).
  - destruct (GitLabHandler.get_pipeline_by_id _ _ _ _) as [st1 [info | e]];
      [| discriminate].
    destruct (truthy info); cbn [negb].
    + unfold lift. destruct (get info "status" (JStr "unknown")) as [status | e];
        [| discriminate].
      destruct (py_in status terminal_statuses) eqn:Hin.
      * change terminal_statuses
          with (map JStr ["success"; "failed"; "canceled"; "skipped"]) in Hin.
        apply py_in_strs in Hin. destruct Hin as [s [-> Hs]].
        assert (Hret : In s returned_statuses).
        { simpl in Hs. simpl. tauto. }
        destruct (py_eqb (JStr s) (JStr "failed")).
        -- match goal with |- context [match ?m with _ => _ end] =>
             destruct m as [st2 [analysis | e]] end; [| discriminate].
           intros [= _ <-]. eexists _, s. split; [reflexivity |].
           split; [reflexivity | exact Hret].
        -- intros [= _ <-]. eexists _, s. split; [reflexivity |].
           split; [reflexivity | exact Hret].
      * unfold sleep. destruct (check_interval <? 0); discriminate.
    + intros [= _ <-]. eexists _, "error". split; [reflexivity |].
      split; [reflexivity | simpl; tauto].
  - intros [= _ <-]. eexists _, "timeout". split; [reflexivity |].
    split; [reflexivity | simpl; tauto].
Qed.

Lemma monitor_loop_status fuel pipeline_id max_wait_time start_time :
  forall checks st st' result,
    monitor_loop serve max_retries clock check_interval
                 fuel pipeline_id max_wait_time start_time checks st
    = Some (st', Ok result) ->
    status_in returned_statuses result.
Proof.
  induction fuel as [|n IH]; intros checks st st' result; simpl; [discriminate |].
  destruct (monitor_round _ _ _ _ _ _ _ _ st) as [st1 [[checks' | r] | e]] eqn:E.
  - apply IH.
  - intros [= _ <-]. eapply monitor_round_status; exact E.
  - discriminate.
Qed.

(** A round on a well-behaved host either returns a record or asks for
    another round after exactly two readings of the clock. *)
Lemma monitor_round_progress pipeline_id max_wait_time start_time checks st :
  0 <= check_interval ->
  pipeline_records_are_objects serve pipeline_id ->
  exists st' outcome,
    monitor_round serve max_retries clock check_interval
                  pipeline_id max_wait_time start_time checks st
    = (st', Ok outcome)
    /\ (forall checks', outcome = inl checks' ->
          ticks st' = Datatypes.S (Datatypes.S (ticks st))).
Proof.
  intros Hint Hobj. unfold monitor_round, bind, time_time.
  destruct (Qltb _ _).
  - destruct (get_pipeline_by_id_returns serve max_retries pipeline_id (tick st))
      as [st1 [info [E Hinfo]]].
    pose proof (same_ticks_get_pipeline_by_id pipeline_id _ _ _ E) as Ht.
    unfold same_ticks in Ht. simpl in Ht.
    rewrite E. destruct (truthy info) eqn:Htruthy; cbn [negb].
    + assert (Hdict : is_dict info = true).
      { destruct Hinfo as [-> | [code Hs]]; [discriminate |].
        eapply Hobj; eassumption. }
      destruct info; try discriminate. unfold lift, get.
      match goal with |- context [py_in ?x terminal_statuses] =>
        destruct (py_in x terminal_statuses); [destruct (py_eqb x (JStr "failed")) |]
      end.
      * match goal with |- context [_analyze_failure _ _ _ ?s] =>
          destruct (analyze_failure_returns pipeline_id s) as [st2 [an Ean]]
        end.
        rewrite Ean. eexists _, _. split; [reflexivity | discriminate].
      * eexists _, _. split; [reflexivity | discriminate].
      * unfold sleep. destruct (Z.ltb_spec check_interval 0); [lia |].
        eexists _, _. split; [reflexivity |].
        intros _ _. simpl. rewrite <- Ht. reflexivity.
    + eexists _, _. split; [reflexivity | discriminate].
  - eexists _, _. split; [reflexivity | discriminate].
Qed.

Lemma monitor_loop_returns pipeline_id max_wait_time start_time deadline :
  0 <= check_interval ->
  pipeline_records_are_objects serve pipeline_id ->
  (forall i, (deadline <= i)%nat ->
             (inject_Z max_wait_time <= clock i - start_time)%Q) ->
  forall fuel checks st,
    (deadline <= ticks st + 2 * fuel)%nat ->
    exists st' result,
      monitor_loop serve max_retries clock check_interval
                   (Datatypes.S fuel) pipeline_id max_wait_time start_time checks st
      = Some (st', Ok result).
Proof.
  intros Hint Hobj Hdead. induction fuel as [|n IH]; intros checks st Hfuel.
  - simpl. rewrite monitor_round_timeout by (apply Hdead; lia).
    eexists _, _. reflexivity.
  - destruct (monitor_round_progress pipeline_id max_wait_time start_time checks st
                Hint Hobj) as [st1 [outcome [E Hticks]]].
    change (monitor_loop serve max_retries clock check_interval
              (Datatypes.S (Datatypes.S n)) pipeline_id max_wait_time
              start_time checks st)
      with (match monitor_round serve max_retries clock check_interval
                    pipeline_id max_wait_time start_time checks st with
            | (st', Ok (inl checks')) =>
                monitor_loop serve max_retries clock check_interval
                  (Datatypes.S n) pipeline_id max_wait_time start_time checks' st'
            | (st', Ok (inr result)) => Some (st', Ok result)
            | (st', Raise e) => Some (st', Raise e)
            end).
    rewrite E. destruct outcome as [checks' | result].
    + apply IH. rewrite (Hticks checks' eq_refl). lia.
    + eexists _, _. reflexivity.
Qed.

(** C1, as the code has it.  Whatever record [monitor_pipeline] returns
    has one of the statuses success, failed, canceled, skipped, timeout
    or error; and on a host whose pipeline records are JSON objects, with
    a poll interval that is not negative and a clock that does not run
    backwards and reaches the bound [max_wait_time] after [n] readings,
    [n + 1] rounds of the loop are enough for it to return such a record. *)
Theorem monitor_pipeline_status pipeline_id max_wait_time (st : State S) :
  (forall fuel st' result,
      monitor_pipeline serve max_retries clock check_interval
                       fuel pipeline_id max_wait_time st
      = Some (st', Ok result) ->
      status_in returned_statuses result)
  /\ (forall n,
         0 <= check_interval ->
         pipeline_records_are_objects serve pipeline_id ->
         monotone clock ->
         (inject_Z max_wait_time <= clock (ticks st + n)%nat - clock (ticks st))%Q ->
         exists st' result,
           monitor_pipeline serve max_retries clock check_interval
                            (Datatypes.S n) pipeline_id max_wait_time st
           = Some (st', Ok result)
           /\ status_in returned_statuses result).
Proof.
  split.
  - intros fuel st' result. unfold monitor_pipeline, time_time.
    apply monitor_loop_status.
  - intros n Hint Hobj Hmono Hreach.
    assert (Hdead : forall i, (ticks st + n <= i)%nat ->
               (inject_Z max_wait_time <= clock i - clock (ticks st))%Q).
    { intros i Hi. pose proof (Hmono _ _ Hi). lra. }
    unfold monitor_pipeline, time_time.
    destruct (monitor_loop_returns pipeline_id max_wait_time (clock (ticks st))
                (ticks st + n)%nat Hint Hobj Hdead n 0 (tick st))
      as [st' [result E]].
    { simpl. lia. }
    exists st', result. split; [exact E |].
    eapply monitor_loop_status; exact E.
Qed.

(** C10. With [max_wait_time <= 0] and a clock that has not gone back
    between the two first readings, [monitor_pipeline] returns the
    timeout record with zero checks; the host and the trace are as they
    were, so no pipeline status was fetched. *)
Theorem monitor_pipeline_no_wait fuel pipeline_id max_wait_time (st : State S) :
  max_wait_time <= 0 ->
  (clock (ticks st) <= clock (Datatypes.S (ticks st)))%Q ->
  monitor_pipeline serve max_retries clock check_interval
                   (Datatypes.S fuel) pipeline_id max_wait_time st
  = Some (mkState (server st) (trace st) (Datatypes.S (Datatypes.S (ticks st)))
                  (stdin st) (_project_info st) (_default_branch st),
          Ok (JDict [("status", JStr "timeout");
                     ("pipeline_id", JNum pipeline_id);
                     ("duration", JNum max_wait_time);
                     ("checks", JNum 0)])).
Proof.
  intros Hwait Hclock. unfold monitor_pipeline, time_time.
  simpl monitor_loop. rewrite monitor_round_timeout.
  - reflexivity.
  - simpl. assert (inject_Z max_wait_time <= 0)%Q.
    { change 0%Q with (inject_Z 0). rewrite <- Zle_Qle. exact Hwait. }
    lra.
Qed.

End Monitor.
End PipelineMonitorFacts.

Module PipelineMonitorExamples.
Import Py Spec PipelineMonitor PipelineMonitorFacts.

Lemma monitor_pipeline_status_witness :
  exists st' result,
    monitor_pipeline (Steady.serve running) 3 one_second_per_reading 30
                     6 7 5 (Steady.start [])
    = Some (st', Ok result)
    /\ status_in returned_statuses result.
Proof.
  apply (proj2 (monitor_pipeline_status (Steady.serve running) 3
                  one_second_per_reading 30 7 5 (Steady.start [])) 5%nat).
  - lia.
  - intros code info [s Hs] _. simpl in Hs. injection Hs as _ <-. reflexivity.
  - intros i j Hij. unfold one_second_per_reading.
    rewrite <- Zle_Qle. lia.
  - vm_compute. discriminate.
Defined.

Lemma monitor_pipeline_no_wait_witness :
  monitor_pipeline Script.serve 3 one_second_per_reading 30 1 7 0 (Script.start [] [])
  = Some (mkState [] [] 2 [] JNull JNull,
          Ok (JDict [("status", JStr "timeout");
                     ("pipeline_id", JNum 7);
                     ("duration", JNum 0);
                     ("checks", JNum 0)])).
Proof.
  apply (monitor_pipeline_no_wait Script.serve 3 one_second_per_reading 30
                                  0 7 0 (Script.start [] [])).
  - lia.
  - vm_compute. discriminate.
Defined.

(** C1 as stated fails: when the host cannot be reached, the first poll
    yields no pipeline record and the status returned is "error", which is
    none of success, failed, canceled, skipped and timeout. *)
Lemma monitor_pipeline_status_counterexample :
  exists st' result,
    monitor_pipeline Script.serve 3 one_second_per_reading 30
                     1 7 1800 (Script.start [] [])
    = Some (st', Ok result)
    /\ status_in ["error"] result
    /\ ~ status_in claimed_statuses result.
Proof.
  eexists _, _. split; [vm_compute; reflexivity |]. split.
  - eexists _, "error". split; [reflexivity |]. split; [reflexivity | simpl; tauto].
  - intros [fields [status [Hd [Hl Hin]]]].
    injection Hd as <-. simpl in Hl. injection Hl as <-.
    simpl in Hin. intuition discriminate.
Qed.

End PipelineMonitorExamples.

(** ** The retry wrapper *)

Module RetryFacts.
Import Py Spec.
Local Open Scope py_scope.

Section Client.
Context {S : Type}.
Variable serve : S -> Request -> S * Reply.
Variable max_retries : Z.

Lemma last_cons_default {A} (l : list A) :
  forall x d d', last (x :: l) d = last (x :: l) d'.
Proof.
  induction l as [|y l IH]; intros x d d'; [reflexivity |].
  change (last (y :: l) d = last (y :: l) d'). apply IH.
Qed.

(** One call of [_make_request]: the host is asked once, the exchange is
    recorded, and the reply decides the result. *)
Lemma make_request_run method url params payload (st : State S) :
  let request := mkRequest method url params payload in
  GitLabHandler._make_request serve method url params payload st
  = (record (Call request (snd (serve (server st) request)))
            (set_server (fst (serve (server st) request)) st),
     reply_result (snd (serve (server st) request))).
Proof.
  cbv zeta. unfold GitLabHandler._make_request, reply_result,
    GitLabHandler.raise_for_status.
  destruct (serve (server st) _) as [s' reply]. cbn [fst snd].
  destruct reply as [e | code b]; [reflexivity |].
  destruct (Z.leb_spec 400 code); cbn [andb].
  - destruct (code <? 600); reflexivity.
  - reflexivity.
Qed.

Lemma retry_loop_run method url params payload :
  let request := mkRequest method url params payload in
  forall remaining attempt last_error (st st' : State S) result,
    0 <= attempt ->
    attempt + Z.of_nat (Datatypes.S remaining) = max_retries ->
    GitLabHandler.retry_loop max_retries
      (GitLabHandler._make_request serve method url params payload)
      (Datatypes.S remaining) attempt last_error st = (st', result) ->
    exists first more,
      (List.length (first :: more) <= Datatypes.S remaining)%nat
      /\ trace st' = (trace st ++ retry_trace request (attempt + 1) (first :: more))%list
      /\ (forall reply, In reply (removelast (first :: more)) ->
                        exists e, reply_result reply = Raise e)
      /\ result = reply_result (last (first :: more) first)
      /\ (forall e, result = Raise e ->
                    List.length (first :: more) = Datatypes.S remaining).
Proof.
  intros request. induction remaining as [|n IH];
    intros attempt last_error st st' result Hatt Hsum.
  - cbn [GitLabHandler.retry_loop]. unfold try_except.
    rewrite make_request_run. fold request.
    set (reply := snd (serve (server st) request)).
    destruct (reply_result reply) as [response | e] eqn:E.
    + intros [= <- <-]. exists reply, [].
      split; [cbn; lia |]. split; [reflexivity |].
      split; [intros r [] |]. split; [symmetry; exact E | reflexivity].
    + unfold bind.
      destruct (Z.ltb_spec attempt (max_retries - 1)); [lia |].
      unfold ret, raise. intros [= <- <-].
      exists reply, [].
      split; [cbn; lia |]. split; [reflexivity |].
      split; [intros r [] |]. split; [symmetry; exact E | reflexivity].
  - change (GitLabHandler.retry_loop max_retries ?f (Datatypes.S (Datatypes.S n))
              attempt last_error)
      with (try_except f
              (fun e =>
                 (if attempt <? max_retries - 1
                  then sleep ((attempt + 1) * 2) else ret tt) ;;;
                 GitLabHandler.retry_loop max_retries f (Datatypes.S n)
                   (attempt + 1) (Some e))).
    unfold try_except. rewrite make_request_run. fold request.
    set (reply := snd (serve (server st) request)).
    set (st1 := record (Call request reply) _).
    destruct (reply_result reply) as [response | e] eqn:E.
    + intros [= <- <-]. exists reply, [].
      split; [cbn; lia |]. split; [reflexivity |].
      split; [intros r [] |]. split; [symmetry; exact E |].
      intros e He. discriminate He.
    + unfold bind.
      destruct (Z.ltb_spec attempt (max_retries - 1)); [| lia].
      unfold sleep.
      destruct (Z.ltb_spec ((attempt + 1) * 2) 0); [lia |].
      intros Hrun.
      apply IH in Hrun; [| lia | lia].
      destruct Hrun as [first [more [Hlen [Htrace [Hfail [Hres Hall]]]]]].
      exists reply, (first :: more). split; [| split; [| split; [| split]]].
      * cbn [List.length] in *. lia.
      * rewrite Htrace. unfold st1. cbn [trace record set_server].
        rewrite <- !app_assoc. cbn [app retry_trace].
        reflexivity.
      * intros r Hr. change (removelast (reply :: first :: more))
          with (reply :: removelast (first :: more)) in Hr.
        destruct Hr as [<- | Hr]; [exists e; exact E | apply Hfail; exact Hr].
      * rewrite Hres. f_equal.
        change (last (first :: more) first = last (first :: more) reply).
        apply last_cons_default.
      * intros e' He'. specialize (Hall e' He'). cbn [List.length] in *. lia.
Qed.

(** C8. A call routed through the retry wrapper is attempted at least
    once and at most [max_retries] times; between two consecutive
    attempts, and only there, the wrapper sleeps twice the number of the
    attempt that just failed (2, 4, 6, ... seconds); every attempt but the
    last has failed; the result is that of the last attempt, so that when
    all attempts fail the error of the failing call itself is raised, and
    only after [max_retries] attempts. *)
Theorem simple_retry_bounded_linear_backoff
        method url params payload (st : State S) :
  1 <= max_retries ->
  let request := mkRequest method url params payload in
  let run := GitLabHandler._simple_retry max_retries
               (GitLabHandler._make_request serve method url params payload) st in
  exists attempts,
    (1 <= List.length attempts)%nat
    /\ Z.of_nat (List.length attempts) <= max_retries
    /\ trace (fst run) = (trace st ++ retry_trace request 1 attempts)%list
    /\ (forall reply, In reply (removelast attempts) ->
                      exists e, reply_result reply = Raise e)
    /\ snd run = reply_result (last attempts (Fails TypeError))
    /\ (forall e, snd run = Raise e ->
                  Z.of_nat (List.length attempts) = max_retries).
Proof.
  intros Hmax request run.
  destruct run as [st' result] eqn:Hrun. unfold run in Hrun.
  unfold GitLabHandler._simple_retry in Hrun.
  destruct (Z.to_nat max_retries) as [|remaining] eqn:Hn; [lia |].
  apply retry_loop_run in Hrun; [| lia | lia].
  destruct Hrun as [first [more [Hlen [Htrace [Hfail [Hres Hall]]]]]].
  exists (first :: more). cbn [fst snd].
  split; [cbn [List.length]; lia |].
  split; [lia |].
  split; [exact Htrace |].
  split; [exact Hfail |].
  split.
  - rewrite Hres. f_equal. apply last_cons_default.
  - intros e He. specialize (Hall e He). lia.
Qed.

End Client.

Lemma simple_retry_bounded_linear_backoff_witness :
  let run := GitLabHandler._simple_retry 3
               (GitLabHandler._make_request Script.serve GET branches_url [] JNull)
               (Script.start [Answers 500 None; Answers 503 None] []) in
  trace (fst run)
  = [Call (mkRequest GET branches_url [] JNull) (Answers 500 None);
     Sleep 2;
     Call (mkRequest GET branches_url [] JNull) (Answers 503 None);
     Sleep 4;
     Call (mkRequest GET branches_url [] JNull)
          (Fails (RequestException "ConnectionError"))]
  /\ snd run = Raise (RequestException "ConnectionError")
  /\ exists attempts,
      (1 <= List.length attempts)%nat
      /\ Z.of_nat (List.length attempts) <= 3
      /\ trace (fst run) = retry_trace (mkRequest GET branches_url [] JNull) 1 attempts
      /\ (forall reply, In reply (removelast attempts) ->
                        exists e, reply_result reply = Raise e)
      /\ snd run = reply_result (last attempts (Fails TypeError))
      /\ (forall e, snd run = Raise e -> Z.of_nat (List.length attempts) = 3).
Proof.
  cbv zeta. split; [reflexivity |]. split; [reflexivity |].
  apply (simple_retry_bounded_linear_backoff Script.serve 3 GET branches_url [] JNull
           (Script.start [Answers 500 None; Answers 503 None] [])).
  lia.
Defined.

End RetryFacts.

(** ** Listing the branches *)

Module BranchListFacts.
Import Py Spec Frame RetryFacts.
Local Open Scope py_scope.

Section Client.
Context {S : Type}.
Variable serve : S -> Request -> S * Reply.
Variable max_retries : Z.

Lemma trace_grows_refl (st : State S) : trace_grows st st.
Proof. exists []. symmetry. apply app_nil_r. Qed.

Lemma trace_grows_trans (a b c : State S) :
  trace_grows a b -> trace_grows b c -> trace_grows a c.
Proof.
  intros [l1 H1] [l2 H2]. exists (l1 ++ l2)%list.
  rewrite H2, H1. symmetry. apply app_assoc.
Qed.

Lemma trace_grows_sleep seconds : keeps (@trace_grows S) (sleep seconds).
Proof.
  intros st st' r. unfold sleep. destruct (seconds <? 0); intros [= <- _].
  - apply trace_grows_refl.
  - eexists. reflexivity.
Qed.

Lemma trace_grows_set_project_info v : keeps (@trace_grows S) (set_project_info v).
Proof. intros st st' r [= <- _]. exists []. symmetry. apply app_nil_r. Qed.

Lemma trace_grows_set_default_branch v :
  keeps (@trace_grows S) (set_default_branch v).
Proof. intros st st' r [= <- _]. exists []. symmetry. apply app_nil_r. Qed.

Lemma trace_grows_request method url params payload :
  keeps (@trace_grows S) (GitLabHandler._make_request serve method url params payload).
Proof.
  intros st st' r. rewrite make_request_run. intros [= <- _].
  eexists. reflexivity.
Qed.

Lemma trace_grows_call method url params payload :
  keeps (@trace_grows S)
        (GitLabHandler._simple_retry max_retries
           (GitLabHandler._make_request serve method url params payload)).
Proof.
  apply keeps_simple_retry.
  - exact trace_grows_refl.
  - exact trace_grows_trans.
  - exact trace_grows_sleep.
  - apply trace_grows_request.
Qed.

Lemma trace_grows_get_default_branch :
  keeps (@trace_grows S) (GitLabHandler.get_default_branch serve max_retries).
Proof.
  apply keeps_get_default_branch.
  - exact trace_grows_refl.
  - exact trace_grows_trans.
  - exact trace_grows_set_project_info.
  - exact trace_grows_set_default_branch.
  - apply trace_grows_call.
Qed.

(** C2, as the code has it.  When the branch-list call fails, whatever
    the error, [get_available_branches] answers with the one-element list
    holding the default branch (what [get_default_branch] gives next);
    and nothing is memoised: in every state, also after earlier calls,
    its first step is to ask the host for the branch list again. *)
Theorem get_available_branches_on_error (st : State S) :
  (forall st1 e,
      GitLabHandler._simple_retry max_retries
        (GitLabHandler._make_request serve GET branches_url [] JNull) st
      = (st1, Raise e) ->
      GitLabHandler.get_available_branches serve max_retries st
      = (fst (GitLabHandler.get_default_branch serve max_retries st1),
         match snd (GitLabHandler.get_default_branch serve max_retries st1) with
         | Ok default_branch => Ok [default_branch]
         | Raise e' => Raise e'
         end))
  /\ (1 <= max_retries ->
      let request := mkRequest GET branches_url [] JNull in
      exists more,
        trace (fst (GitLabHandler.get_available_branches serve max_retries st))
        = (trace st ++ Call request (snd (serve (server st) request)) :: more)%list).
Proof.
  split.
  - intros st1 e Hcall. unfold GitLabHandler.get_available_branches.
    unfold try_except at 1. unfold bind at 1. rewrite Hcall.
    unfold bind.
    destruct (GitLabHandler.get_default_branch serve max_retries st1)
      as [st2 [d | e']]; reflexivity.
  - intros Hmax request.
    assert (Hgrow : forall (m : M S (list json)) st1,
               keeps (@trace_grows S) m ->
               trace st1 = (trace st ++ [Call request (snd (serve (server st) request))])%list ->
               exists more,
                 trace (fst (m st1))
                 = (trace st ++ Call request (snd (serve (server st) request)) :: more)%list).
    { intros m st1 Hm Hst1. destruct (m st1) as [st2 r] eqn:E.
      destruct (Hm _ _ _ E) as [more Hmore]. exists more. cbn [fst].
      rewrite Hmore, Hst1, <- app_assoc. reflexivity. }
    unfold GitLabHandler.get_available_branches, GitLabHandler._simple_retry.
    destruct (Z.to_nat max_retries) as [|n] eqn:Hn; [lia |].
    cbn [GitLabHandler.retry_loop].
    unfold try_except at 1. unfold bind at 1. unfold try_except at 1.
    rewrite make_request_run. fold request.
    set (st1 := record _ _).
    assert (Hst1 : trace st1
                   = (trace st ++ [Call request (snd (serve (server st) request))])%list)
      by reflexivity.
    assert (Hrefl := @trace_grows_refl). assert (Htrans := @trace_grows_trans).
    assert (Hsleep := @trace_grows_sleep).
    assert (Hreq := @trace_grows_request).
    assert (Hdef := @trace_grows_get_default_branch).
    assert (Hloop : forall attempt last_error,
               keeps (@trace_grows S)
                 (GitLabHandler.retry_loop max_retries
                    (GitLabHandler._make_request serve GET branches_url [] JNull)
                    n attempt last_error)).
    { intros attempt last_error. apply keeps_retry_loop;
        first [ exact trace_grows_refl | exact trace_grows_trans
              | exact trace_grows_sleep | apply trace_grows_request ]. }
    destruct (reply_result (snd (serve (server st) request))) as [response | e].
    + match goal with |- context [fst (match ?k st1 with _ => _ end)] =>
        pose (m := k) end.
      destruct (Hgrow (try_except m (fun _ => default_branch <-
                         GitLabHandler.get_default_branch serve max_retries ;;
                         ret [default_branch])) st1) as [more Hmore];
        [| exact Hst1 |].
      * subst m. keeps_auto.
      * exists more. exact Hmore.
    + match goal with
      | |- context [fst (match (let (st', r) := ?k st1 in _) with _ => _ end)] =>
          pose (m := k)
      end.
      destruct (Hgrow
                  (try_except
                     (response <- m ;;
                      branches_data <- lift (response_json response) ;;
                      items <- lift (iterate branches_data) ;;
                      branches <- lift (map_result
                                          (fun branch => getitem branch "name") items) ;;
                      lift (GitLabHandler.join_first_five branches) ;;;
                      ret branches)
                     (fun _ => default_branch <-
                         GitLabHandler.get_default_branch serve max_retries ;;
                         ret [default_branch])) st1) as [more Hmore];
        [| exact Hst1 |].
      * subst m. keeps_auto.
      * exists more. exact Hmore.
Qed.

End Client.

Lemma get_available_branches_on_error_witness :
  snd (GitLabHandler.get_available_branches Script.serve 3
         (Script.start [Fails (RequestException "Timeout"); Answers 502 None;
                        Answers 500 None;
                        Answers 200 (Some (JDict [("default_branch", JStr "trunk")]))]
                       []))
  = Ok [JStr "trunk"].
Proof.
  rewrite (proj1 (get_available_branches_on_error Script.serve 3
                    (Script.start [Fails (RequestException "Timeout");
                                   Answers 502 None; Answers 500 None;
                                   Answers 200 (Some (JDict [("default_branch",
                                                              JStr "trunk")]))] []))
                 (mkState
                    [Answers 200 (Some (JDict [("default_branch", JStr "trunk")]))]
                    [Call (mkRequest GET branches_url [] JNull)
                          (Fails (RequestException "Timeout"));
                     Sleep 2;
                     Call (mkRequest GET branches_url [] JNull) (Answers 502 None);
                     Sleep 4;
                     Call (mkRequest GET branches_url [] JNull) (Answers 500 None)]
                    0 [] JNull JNull)
                 (HTTPError 500) eq_refl).
  reflexivity.
Defined.

(** C2 as stated fails: with the host out of reach the branch-list call
    raises, and the list returned is not empty: it holds the default
    branch, here the fallback "main". *)
Lemma get_available_branches_on_error_counterexample :
  (exists st1 e,
      GitLabHandler._simple_retry 3
        (GitLabHandler._make_request Script.serve GET branches_url [] JNull)
        (Script.start [] [])
      = (st1, Raise e))
  /\ snd (GitLabHandler.get_available_branches Script.serve 3 (Script.start [] []))
     = Ok [JStr "main"]
  /\ snd (GitLabHandler.get_available_branches Script.serve 3 (Script.start [] []))
     <> Ok [].
Proof.
  split; [eexists _, _; reflexivity |].
  split; [reflexivity | discriminate].
Qed.

End BranchListFacts.

(** ** Listing the files of a branch *)

Module FileListFacts.
Import Py Spec Run Frame RetryFacts.
Local Open Scope py_scope.

Section Client.
Context {S : Type}.
Variable serve : S -> Request -> S * Reply.
Variable max_retries : Z.

Lemma same_caches_refl (st : State S) : same_caches st st.
Proof. split; reflexivity. Qed.

Lemma same_caches_trans (a b c : State S) :
  same_caches a b -> same_caches b c -> same_caches a c.
Proof. intros [H1 H2] [H3 H4]. split; congruence. Qed.

Lemma same_caches_sleep seconds : keeps (@same_caches S) (sleep seconds).
Proof.
  intros st st' r. unfold sleep. destruct (seconds <? 0); intros [= <- _];
    split; reflexivity.
Qed.

Lemma same_caches_request method url params payload :
  keeps (@same_caches S) (GitLabHandler._make_request serve method url params payload).
Proof.
  intros st st' r. rewrite make_request_run. intros [= <- _]. split; reflexivity.
Qed.

Lemma same_caches_call method url params payload :
  keeps (@same_caches S)
        (GitLabHandler._simple_retry max_retries
           (GitLabHandler._make_request serve method url params payload)).
Proof.
  apply keeps_simple_retry.
  - exact same_caches_refl.
  - exact same_caches_trans.
  - exact same_caches_sleep.
  - apply same_caches_request.
Qed.

Lemma same_caches_fetch_tree ref :
  keeps (@same_caches S) (GitLabHandler.fetch_tree serve max_retries ref).
Proof.
  apply keeps_fetch_tree.
  - exact same_caches_refl.
  - exact same_caches_trans.
  - intros r. apply same_caches_call.
Qed.

(** [get_project] returns what it leaves in [_project_info]. *)
Lemma get_project_post (st st' : State S) r :
  GitLabHandler.get_project serve max_retries st = (st', r) ->
  r = Ok (_project_info st') /\ _default_branch st' = _default_branch st.
Proof.
  unfold GitLabHandler.get_project, bind, get_project_info.
  destruct (is_none (_project_info st)) eqn:Hnone.
  - unfold try_except, bind.
    destruct (GitLabHandler._simple_retry _ _ st) as [st1 [response | e]] eqn:E;
      apply same_caches_call in E; destruct E as [E1 E2].
    + unfold lift. destruct (response_json response) as [j | e].
      * unfold set_project_info, ret. intros [= <- <-]. cbn. auto.
      * unfold ret. intros [= <- <-]. rewrite <- E1.
        destruct (_project_info st); try discriminate. auto.
    + unfold ret. intros [= <- <-]. rewrite <- E1.
      destruct (_project_info st); try discriminate. auto.
  - unfold ret. intros [= <- <-]. auto.
Qed.

(** Once [get_default_branch] has answered, it gives the same answer, and
    asks the host nothing, in every state with the same memoised fields. *)
Lemma default_branch_stable (st1 st2 : State S) default_branch :
  GitLabHandler.get_default_branch serve max_retries st1 = (st2, Ok default_branch) ->
  forall st3, same_caches st2 st3 ->
    GitLabHandler.get_default_branch serve max_retries st3 = (st3, Ok default_branch).
Proof.
  unfold GitLabHandler.get_default_branch at 1.
  unfold bind at 1. unfold get_default_branch_field at 1.
  destruct (is_none (_default_branch st1)) eqn:Hnone.
  - unfold bind at 1.
    destruct (GitLabHandler.get_project serve max_retries st1) as [sta r] eqn:Ep.
    apply get_project_post in Ep. destruct Ep as [-> Hdb].
    unfold bind at 1.
    destruct (truthy (_project_info sta)) eqn:Htruthy.
    + unfold bind, lift.
      destruct (get (_project_info sta) "default_branch" (JStr "main"))
        as [v | e] eqn:Hget; [| discriminate].
      unfold set_default_branch, get_default_branch_field. cbn.
      intros [= <- <-] st3 [Hpi Hd]. cbn in Hpi, Hd.
      unfold GitLabHandler.get_default_branch, bind, get_default_branch_field.
      rewrite <- Hd. destruct (is_none v) eqn:Hv.
      * unfold GitLabHandler.get_project, bind, get_project_info.
        rewrite <- Hpi.
        assert (Hnn : is_none (_project_info sta) = false)
          by (destruct (_project_info sta); try reflexivity; discriminate).
        rewrite Hnn. unfold ret. rewrite Htruthy. unfold lift. rewrite Hget.
        unfold set_default_branch. cbn.
        destruct st3 as [s3 t3 k3 i3 p3 d3]. cbn in *. subst. reflexivity.
      * reflexivity.
    + unfold set_default_branch, get_default_branch_field. cbn.
      intros [= <- <-] st3 [Hpi Hd]. cbn in Hpi, Hd.
      unfold GitLabHandler.get_default_branch, bind, get_default_branch_field.
      rewrite <- Hd. reflexivity.
  - unfold ret. intros [= <- <-] st3 [Hpi Hd].
    unfold GitLabHandler.get_default_branch, bind, get_default_branch_field.
    rewrite <- Hd, Hnone. reflexivity.
Qed.

Lemma get_file_list_depth_S depth ref :
  GitLabHandler.get_file_list_depth serve max_retries (Datatypes.S depth) ref
  = (ref <- (if is_none ref then GitLabHandler.get_default_branch serve max_retries
             else ret ref) ;;
     try_except (GitLabHandler.fetch_tree serve max_retries ref)
       (fun e =>
          match e with
          | HTTPError status_code =>
              if status_code =? 404 then
                default_branch <- GitLabHandler.get_default_branch serve max_retries ;;
                if negb (py_eqb ref default_branch)
                then GitLabHandler.get_file_list_depth serve max_retries
                       depth default_branch
                else
                  available_branches <-
                    GitLabHandler.get_available_branches serve max_retries ;;
                  GitLabHandler.probe_common_branches serve max_retries
                    GitLabHandler.common_branches available_branches ref
              else ret []
          | _ => ret []
          end)).
Proof. reflexivity. Qed.

(** Listing the default branch itself never recurses: the depth left
    does not matter. *)
Lemma get_file_list_default_any_depth default_branch (st : State S) n m :
  py_eqb default_branch default_branch = true ->
  (forall st', same_caches st st' ->
     GitLabHandler.get_default_branch serve max_retries st' = (st', Ok default_branch)) ->
  GitLabHandler.get_file_list_depth serve max_retries (Datatypes.S n) default_branch st
  = GitLabHandler.get_file_list_depth serve max_retries (Datatypes.S m) default_branch st.
Proof.
  intros Hrefl Hstable. rewrite !get_file_list_depth_S.
  assert (Href : (if is_none default_branch
                  then GitLabHandler.get_default_branch serve max_retries
                  else ret default_branch) st = (st, Ok default_branch)).
  { destruct (is_none default_branch); [| reflexivity].
    apply Hstable. apply same_caches_refl. }
  rewrite !(bind_ok _ _ _ _ _ Href).
  destruct (GitLabHandler.fetch_tree serve max_retries default_branch st)
    as [st3 [files | e]] eqn:E.
  - rewrite !(try_ok _ _ _ _ _ E). reflexivity.
  - rewrite !(try_raise _ _ _ _ _ E).
    apply same_caches_fetch_tree in E.
    destruct e as [code | | | | | | | | |]; try reflexivity.
    destruct (code =? 404); [| reflexivity].
    rewrite !(bind_ok _ _ _ _ _ (Hstable st3 E)). rewrite Hrefl. reflexivity.
Qed.

(** C5. For a ref that is not the default branch, when the host answers
    the listing of that ref with 404, [get_file_list] returns what
    listing the default branch returns. *)
Theorem get_file_list_falls_back_to_default
        ref default_branch (st st1 st2 : State S) :
  is_none ref = false ->
  GitLabHandler._simple_retry max_retries
    (GitLabHandler._make_request serve GET tree_url
       (GitLabHandler.tree_params ref) JNull) st
  = (st1, Raise (HTTPError 404)) ->
  GitLabHandler.get_default_branch serve max_retries st1 = (st2, Ok default_branch) ->
  py_eqb ref default_branch = false ->
  py_eqb default_branch default_branch = true ->
  GitLabHandler.get_file_list serve max_retries ref st
  = GitLabHandler.get_file_list serve max_retries default_branch st2.
Proof.
  intros Hnone Hcall Hdefault Hneq Hrefl.
  unfold GitLabHandler.get_file_list, recursion_limit.
  rewrite get_file_list_depth_S. rewrite Hnone.
  rewrite (bind_ok _ _ st st ref eq_refl).
  assert (Hfetch : GitLabHandler.fetch_tree serve max_retries ref st
                   = (st1, Raise (HTTPError 404))).
  { unfold GitLabHandler.fetch_tree. apply bind_raise. exact Hcall. }
  rewrite (try_raise _ _ _ _ _ Hfetch). rewrite Z.eqb_refl.
  rewrite (bind_ok _ _ _ _ _ Hdefault). rewrite Hneq. cbn [negb].
  apply get_file_list_default_any_depth; [exact Hrefl |].
  intros st' Hst'. eapply default_branch_stable; eassumption.
Qed.

End Client.
End FileListFacts.

(** ** File actions *)

Module FileActionFacts.
Import Py Spec Run RetryFacts FileListFacts.
Import PipelineGenerator.
Local Open Scope py_scope.

Section Generator.
Context {S : Type}.
Variable serve : S -> Request -> S * Reply.
Variable file_system : string -> option (Result string).
Variable creation_date : string.
Variable creation_year : Z.
Variable Inv : S -> Prop.
Variable source_branch : string.
Variable listing : list json.
Hypothesis Hsteady : lists_steadily serve Inv source_branch listing.






End Generator.
End FileActionFacts.

(** ** Merge requests *)

Module MergeRequestFacts.
Import Py Spec Run.
Local Open Scope py_scope.

Section Client.
Context {S : Type}.
Variable serve : S -> Request -> S * Reply.
Variable max_retries : Z.

Lemma find_existing_mr_one_open source_branch (st1 st2 : State S) response fields :
  GitLabHandler._simple_retry max_retries
    (GitLabHandler._make_request serve GET merge_requests_url
       [("source_branch", JStr source_branch);
        ("state", JStr "opened");
        ("per_page", JNum 1)] JNull) st1
  = (st2, Ok response) ->
  body response = Some (JList [JDict fields]) ->
  GitLabHandler._find_existing_mr serve max_retries source_branch st1
  = (st2, Ok (JDict fields)).
Proof.
  intros Hcall Hbody. unfold GitLabHandler._find_existing_mr.
  apply try_ok. rewrite (bind_ok _ _ _ _ _ Hcall).
  unfold lift, bind, response_json. rewrite Hbody. reflexivity.
Qed.

(** C4. When the creation call ends in a conflict (409) and the host
    lists exactly one open merge request for the source branch,
    [create_merge_request] returns the record of that merge request. *)
Theorem create_merge_request_returns_existing_on_conflict
        title source_branch target_branch description
        (st0 st st1 st2 : State S) target response fields :
  (if is_none target_branch
   then GitLabHandler.select_target serve max_retries
   else ret target_branch) st0 = (st, Ok target) ->
  GitLabHandler._simple_retry max_retries
    (GitLabHandler._make_request serve POST merge_requests_url []
       (GitLabHandler.mr_payload title source_branch target description)) st
  = (st1, Raise (HTTPError 409)) ->
  GitLabHandler._simple_retry max_retries
    (GitLabHandler._make_request serve GET merge_requests_url
       [("source_branch", JStr source_branch);
        ("state", JStr "opened");
        ("per_page", JNum 1)] JNull) st1
  = (st2, Ok response) ->
  body response = Some (JList [JDict fields]) ->
  fields <> [] ->
  GitLabHandler.create_merge_request serve max_retries
    title source_branch target_branch description st0
  = (st2, Ok (JDict fields)).
Proof.
  intros Htarget Hpost Hget Hbody Hfields.
  unfold GitLabHandler.create_merge_request.
  rewrite (bind_ok _ _ _ _ _ Htarget).
  erewrite try_raise by (apply bind_raise; exact Hpost).
  cbv beta iota. rewrite Z.eqb_refl.
  rewrite (bind_ok _ _ _ _ _
             (find_existing_mr_one_open source_branch st1 st2 response fields
                Hget Hbody)).
  destruct fields as [|field rest]; [contradiction Hfields; reflexivity |].
  reflexivity.
Qed.

End Client.

Lemma create_merge_request_returns_existing_on_conflict_witness :
  snd (GitLabHandler.create_merge_request Script.serve 3
         "PipeOps: Add pipeline for python_service" "feature/pipeops"
         (JStr "develop") JNull
         (Script.start
            [Answers 409 None; Answers 409 None; Answers 409 None;
             Answers 200 (Some (JList [JDict [("iid", JNum 12);
                                              ("web_url", JStr "https://host/mr/12")]]))]
            []))
  = Ok (JDict [("iid", JNum 12); ("web_url", JStr "https://host/mr/12")]).
Proof.
  erewrite (create_merge_request_returns_existing_on_conflict Script.serve 3
              "PipeOps: Add pipeline for python_service" "feature/pipeops"
              (JStr "develop") JNull);
    [reflexivity | reflexivity | reflexivity | reflexivity | reflexivity | discriminate].
Defined.

End MergeRequestFacts.

(** ** The generation workflow *)

Module GenerateFacts.
Import Py Spec Run.
Import PipelineGenerator.
Local Open Scope py_scope.

Section Generator.
Context {S : Type}.
Variable serve : S -> Request -> S * Reply.
Variable file_system : string -> option (Result string).
Variable creation_date : string.
Variable creation_year : Z.

(** The steps whose failure does abort the operation: a branch that is
    not created, and file actions that cannot be built. *)
Lemma generate_and_commit_aborts_early project_data config (st st1 : State S) :
  let new_branch := get_or "feature" (_get_branch_names config) "" in
  let source_branch := _get_best_source_branch project_data config in
  (GitLabHandler.create_branch serve max_retries new_branch (JStr source_branch) st
   = (st1, Ok false) ->
   generate_and_commit serve file_system creation_date creation_year
                       project_data config st
   = (st1, Ok JNull))
  /\ (forall st2 e,
         GitLabHandler.create_branch serve max_retries new_branch
                                     (JStr source_branch) st
         = (st1, Ok true) ->
         _create_pipeline_files serve file_system creation_date creation_year
                                project_data config source_branch st1
         = (st2, Raise e) ->
         generate_and_commit serve file_system creation_date creation_year
                             project_data config st
         = (st2, Ok JNull)).
Proof.
  cbv zeta. split.
  - intros Hbranch. unfold generate_and_commit. cbv zeta.
    erewrite try_ok; [reflexivity |].
    rewrite (bind_ok _ _ _ _ _ Hbranch). reflexivity.
  - intros st2 e Hbranch Hfiles. unfold generate_and_commit. cbv zeta.
    erewrite try_raise; [reflexivity |].
    rewrite (bind_ok _ _ _ _ _ Hbranch). cbn [negb].
    apply bind_raise. exact Hfiles.
Qed.

(** After the branch and the file actions: a commit that fails aborts
    the operation, and so does a merge-request creation that raises; a
    merge-request creation that returns, be it [None], does not. *)
Lemma generate_and_commit_after_actions project_data config
      (st st1 st2 st3 : State S) action first_action commit_result description :
  let new_branch := get_or "feature" (_get_branch_names config) "" in
  let source_branch := _get_best_source_branch project_data config in
  let target_branch := _get_best_target_branch project_data in
  let actions := first_action :: action in
  let action_word := if has_pipeline project_data then "Update" else "Add" in
  let commit_message :=
    action_word ++ " pipeline configuration for " ++ type project_data
    ++ newline ++ newline ++ "Generated by PipeOps CLI" ++ newline
    ++ "Based on: " ++ source_branch in
  let mr_title := "PipeOps: " ++ action_word ++ " pipeline for " ++ type project_data in
  GitLabHandler.create_branch serve max_retries new_branch (JStr source_branch) st
  = (st1, Ok true) ->
  _create_pipeline_files serve file_system creation_date creation_year
                         project_data config source_branch st1
  = (st2, Ok actions) ->
  GitLabHandler.commit_files serve max_retries new_branch commit_message
                             (JList actions) st2
  = (st3, Ok commit_result) ->
  (truthy commit_result = false ->
   generate_and_commit serve file_system creation_date creation_year
                       project_data config st
   = (st3, Ok JNull))
  /\ (truthy commit_result = true ->
      _create_mr_description creation_date project_data config actions source_branch
      = Ok description ->
      forall st4 r,
        GitLabHandler.create_merge_request serve max_retries mr_title new_branch
          (JStr target_branch) (JStr description) st3 = (st4, r) ->
        generate_and_commit serve file_system creation_date creation_year
                            project_data config st
        = (st4,
           match r with
           | Raise _ => Ok JNull
           | Ok mr_result =>
               Ok (JDict [("success", JBool true);
                          ("branch_name", JStr new_branch);
                          ("source_branch", JStr source_branch);
                          ("target_branch", JStr target_branch);
                          ("commit", commit_result);
                          ("merge_request", mr_result);
                          ("files_created", JNum (Z.of_nat (List.length actions)));
                          ("pipeline_type", JStr (type project_data));
                          ("pipeline_triggered", JBool false)])
           end)).
Proof.
  cbv zeta. intros Hbranch Hfiles Hcommit. split.
  - intros Hfalsy. unfold generate_and_commit. cbv zeta.
    erewrite try_ok; [reflexivity |].
    rewrite (bind_ok _ _ _ _ _ Hbranch). cbn [negb].
    rewrite (bind_ok _ _ _ _ _ Hfiles). cbn [truthy negb].
    rewrite (bind_ok _ _ _ _ _ Hcommit). rewrite Hfalsy. reflexivity.
  - intros Htruthy Hdescription st4 r Hmr. unfold generate_and_commit. cbv zeta.
    destruct r as [mr_result | e].
    + erewrite try_ok; [reflexivity |].
      rewrite (bind_ok _ _ _ _ _ Hbranch). cbn [negb].
      rewrite (bind_ok _ _ _ _ _ Hfiles). cbn [truthy negb].
      rewrite (bind_ok _ _ _ _ _ Hcommit). rewrite Htruthy. cbn [negb].
      rewrite Hdescription. unfold lift at 1.
      rewrite (bind_ok _ _ st3 st3 description eq_refl).
      rewrite (bind_ok _ _ _ _ _ Hmr). reflexivity.
    + erewrite try_raise; [reflexivity |].
      rewrite (bind_ok _ _ _ _ _ Hbranch). cbn [negb].
      rewrite (bind_ok _ _ _ _ _ Hfiles). cbn [truthy negb].
      rewrite (bind_ok _ _ _ _ _ Hcommit). rewrite Htruthy. cbn [negb].
      rewrite Hdescription. unfold lift at 1.
      rewrite (bind_ok _ _ st3 st3 description eq_refl).
      apply bind_raise. exact Hmr.
Qed.

End Generator.

(** C3 fails on the code.  The feature branch and the commit are made, the
    host then stops answering, and the three attempts at opening the merge
    request fail.  [generate_and_commit] does not return the absent
    outcome: it returns a record marked as a success whose merge request
    is [None]. *)
Theorem generate_and_commit_reports_success_without_merge_request :
  let run :=
    generate_and_commit Script.serve Sample.file_system "2024-05-01" 2024
                        Sample.project_data Sample.config
                        (Script.start Sample.unreachable_for_merge_request []) in
  (exists before payload,
      trace (fst run)
      = (before
         ++ retry_trace (mkRequest POST merge_requests_url [] payload) 1
              [Fails (RequestException "ConnectionError");
               Fails (RequestException "ConnectionError");
               Fails (RequestException "ConnectionError")])%list)
  /\ (exists fields,
         snd run = Ok (JDict fields)
         /\ lookup "success" fields = Some (JBool true)
         /\ lookup "commit" fields = Some (JDict [("id", JStr "4f2a9c")])
         /\ lookup "merge_request" fields = Some JNull)
  /\ snd run <> Ok JNull.
Proof.
  cbv zeta. split; [| split].
  - match goal with |- context [trace (fst ?r)] =>
      exists (firstn 9 (trace (fst r))),
             (match nth 9 (trace (fst r)) (Sleep 0) with
              | Call request _ => payload request
              | _ => JNull
              end)
    end.
    vm_compute. reflexivity.
  - eexists. vm_compute. repeat split; reflexivity.
  - vm_compute. discriminate.
Qed.

End GenerateFacts.

Module FileListExamples.
Import Py Spec FileListFacts.

Lemma get_file_list_falls_back_to_default_witness :
  GitLabHandler.get_file_list Script.serve 3 (JStr "feature/gone")
                              (Script.start Sample.branch_gone [])
  = GitLabHandler.get_file_list Script.serve 3 (JStr "main")
      (fst (GitLabHandler.get_default_branch Script.serve 3
              (fst (GitLabHandler._simple_retry 3
                      (GitLabHandler._make_request Script.serve GET tree_url
                         (GitLabHandler.tree_params (JStr "feature/gone")) JNull)
                      (Script.start Sample.branch_gone []))))).
Proof.
  apply (get_file_list_falls_back_to_default Script.serve 3
           (JStr "feature/gone") (JStr "main") (Script.start Sample.branch_gone [])
           (fst (GitLabHandler._simple_retry 3
                   (GitLabHandler._make_request Script.serve GET tree_url
                      (GitLabHandler.tree_params (JStr "feature/gone")) JNull)
                   (Script.start Sample.branch_gone [])))).
  - reflexivity.
  - vm_compute. reflexivity.
  - vm_compute. reflexivity.
  - reflexivity.
  - reflexivity.
Defined.

End FileListExamples.

Module FileActionExamples.
Import Py Spec FileActionFacts PipelineGenerator.


End FileActionExamples.

(** ** Creating a branch: what goes over the wire *)

Module CreateBranchTrace.
Import Py Spec Run Frame RetryFacts.
Local Open Scope py_scope.

Lemma deletion_guards_app events more :
  forall blocked,
    deletion_guards blocked (events ++ more)
    = match deletion_guards blocked events with
      | Some blocked' => deletion_guards blocked' more
      | None => None
      end.
Proof.
  induction events as [|ev rest IH]; intros blocked; [reflexivity |].
  destruct ev as [request reply | seconds | line]; cbn [app deletion_guards].
  - destruct (method request); try apply IH; destruct blocked; try reflexivity; apply IH.
  - apply IH.
  - destruct blocked; [reflexivity | apply IH].
Qed.

Section Client.
Context {S : Type}.
Variable serve : S -> Request -> S * Reply.
Variable max_retries : Z.
Variable branch_name : string.

Lemma guarded_refl blocked (st : State S) : guarded blocked st st blocked.
Proof. exists []. split; [symmetry; apply app_nil_r | reflexivity]. Qed.

Lemma guarded_trans b1 b2 b3 (x y z : State S) :
  guarded b1 x y b2 -> guarded b2 y z b3 -> guarded b1 x z b3.
Proof.
  intros [n1 [H1 G1]] [n2 [H2 G2]]. exists (n1 ++ n2)%list. split.
  - rewrite H2, H1. symmetry. apply app_assoc.
  - rewrite deletion_guards_app, G1. exact G2.
Qed.

Lemma quiet_refl (st : State S) : quiet st st.
Proof. apply guarded_refl. Qed.

Lemma quiet_trans (x y z : State S) : quiet x y -> quiet y z -> quiet x z.
Proof. apply guarded_trans. Qed.

Lemma quiet_sleep seconds : keeps (@quiet S) (sleep seconds).
Proof.
  intros st st' r. unfold sleep. destruct (seconds <? 0); intros [= <- _].
  - apply quiet_refl.
  - exists [Sleep seconds]. split; reflexivity.
Qed.

Lemma quiet_input : keeps (@quiet S) input.
Proof.
  intros st st' r. unfold input. destruct (stdin st) as [|line rest]; intros [= <- _].
  - apply quiet_refl.
  - exists [Input line]. split; reflexivity.
Qed.

Lemma quiet_set_project_info v : keeps (@quiet S) (set_project_info v).
Proof. intros st st' r [= <- _]. exists []. split; [symmetry; apply app_nil_r | reflexivity]. Qed.

Lemma quiet_set_default_branch v : keeps (@quiet S) (set_default_branch v).
Proof. intros st st' r [= <- _]. exists []. split; [symmetry; apply app_nil_r | reflexivity]. Qed.

Lemma quiet_call method url params payload :
  method <> DELETE ->
  keeps (@quiet S) (GitLabHandler._simple_retry max_retries
                 (GitLabHandler._make_request serve method url params payload)).
Proof.
  intros Hm. apply keeps_simple_retry.
  - exact quiet_refl.
  - exact quiet_trans.
  - exact quiet_sleep.
  - intros st st' r. rewrite make_request_run. intros [= <- _].
    eexists [_]. split; [reflexivity |].
    cbn. destruct method; [reflexivity | reflexivity | contradiction Hm; reflexivity].
Qed.

Lemma quiet_get_default_branch :
  keeps (@quiet S) (GitLabHandler.get_default_branch serve max_retries).
Proof.
  apply keeps_get_default_branch.
  - exact quiet_refl.
  - exact quiet_trans.
  - exact quiet_set_project_info.
  - exact quiet_set_default_branch.
  - apply quiet_call. discriminate.
Qed.

Lemma quiet_branch_exists :
  keeps (@quiet S) (GitLabHandler.branch_exists serve max_retries branch_name).
Proof.
  unfold GitLabHandler.branch_exists.
  pose proof quiet_refl as Hrefl. pose proof quiet_trans as Htrans.
  assert (Hc : keeps (@quiet S)
                 (GitLabHandler._simple_retry max_retries
                    (GitLabHandler._make_request serve GET (branch_url branch_name)
                       [] JNull)))
    by (apply quiet_call; discriminate).
  keeps_auto.
Qed.

Lemma quiet_get_branch_info :
  keeps (@quiet S) (GitLabHandler.get_branch_info serve max_retries branch_name).
Proof.
  unfold GitLabHandler.get_branch_info.
  pose proof quiet_refl as Hrefl. pose proof quiet_trans as Htrans.
  assert (Hc : keeps (@quiet S)
                 (GitLabHandler._simple_retry max_retries
                    (GitLabHandler._make_request serve GET (branch_url branch_name)
                       [] JNull)))
    by (apply quiet_call; discriminate).
  keeps_auto.
Qed.

(** The attempts at deleting: whatever was blocked before, the trace
    stays guarded, and it ends blocked only if the wrapper raises. *)
Lemma retry_delete_guarded remaining :
  forall attempt last_error blocked (st st' : State S) r,
    GitLabHandler.retry_loop max_retries
      (GitLabHandler._make_request serve DELETE (branch_url branch_name) [] JNull)
      remaining attempt last_error st = (st', r) ->
    exists blocked',
      guarded blocked st st' blocked'
      /\ (blocked' = true -> blocked = true \/ exists e, r = Raise e)
      /\ (blocked = true -> blocked' = true -> exists e, r = Raise e).
Proof.
  induction remaining as [|n IH]; intros attempt last_error blocked st st' r.
  - cbn [GitLabHandler.retry_loop]. destruct last_error; intros [= <- <-];
      exists blocked; (split; [apply guarded_refl |]); split; eauto.
  - cbn [GitLabHandler.retry_loop]. unfold try_except.
    rewrite make_request_run.
    set (request := mkRequest DELETE (branch_url branch_name) [] JNull).
    set (reply := snd (serve (server st) request)).
    set (st1 := record (Call request reply) _).
    assert (G1 : guarded blocked st st1 (failed reply)).
    { exists [Call request reply]. split; reflexivity. }
    destruct (reply_result reply) as [response | e] eqn:E.
    + intros [= <- <-]. exists (failed reply). split; [exact G1 |].
      unfold failed. rewrite E. split; intros; discriminate.
    + unfold bind.
      destruct ((if attempt <? max_retries - 1
                 then sleep ((attempt + 1) * 2) else ret tt) st1)
        as [st2 [[] | e2]] eqn:Es.
      * assert (G2 : guarded (failed reply) st1 st2 (failed reply)).
        { destruct (attempt <? max_retries - 1).
          - unfold sleep in Es. destruct ((attempt + 1) * 2 <? 0).
            + discriminate.
            + injection Es as <-. exists [Sleep ((attempt + 1) * 2)].
              split; reflexivity.
          - injection Es as <-. apply guarded_refl. }
        intros Hrun. apply (IH _ _ (failed reply)) in Hrun.
        destruct Hrun as [b' [G3 [Hb Hb']]].
        exists b'. split.
        -- eapply guarded_trans; [exact G1 |].
           eapply guarded_trans; [exact G2 | exact G3].
        -- assert (Hf : failed reply = true) by (unfold failed; rewrite E; reflexivity).
           split; [intros; right | intros]; apply Hb'; assumption.
      * intros [= <- <-].
        assert (G2 : guarded (failed reply) st1 st2 (failed reply)).
        { destruct (attempt <? max_retries - 1).
          - unfold sleep in Es. destruct ((attempt + 1) * 2 <? 0).
            + injection Es as <- _. apply guarded_refl.
            + discriminate.
          - discriminate. }
        exists (failed reply). split.
        -- eapply guarded_trans; [exact G1 | exact G2].
        -- split; [intros; right | intros]; eauto.
Qed.

Lemma delete_branch_guarded (st st' : State S) r :
  GitLabHandler.delete_branch serve max_retries branch_name st = (st', r) ->
  exists blocked,
    guarded false st st' blocked
    /\ (blocked = true -> r = Ok false)
    /\ exists deleted, r = Ok deleted.
Proof.
  unfold GitLabHandler.delete_branch, try_except, bind.
  unfold GitLabHandler._simple_retry.
  destruct (GitLabHandler.retry_loop _ _ _ _ _ st) as [st1 [response | e]] eqn:E;
    apply (retry_delete_guarded _ _ _ false) in E;
    destruct E as [b [G [Hb _]]]; intros [= <- <-]; exists b;
    (split; [exact G |]); split; eauto.
  intros Hbt. destruct (Hb Hbt) as [Hf | [e He]]; discriminate.
Qed.

Lemma choice_loop_guarded lines :
  forall (st st' : State S) r,
    GitLabHandler.choice_loop serve max_retries lines branch_name st = (st', r) ->
    exists blocked,
      guarded false st st' blocked /\ (blocked = true -> r = Ok false).
Proof.
  induction lines as [|l rest IH]; intros st st' r; cbn [GitLabHandler.choice_loop].
  - intros [= <- <-]. exists false. split; [apply guarded_refl | discriminate].
  - unfold bind at 1.
    destruct (input st) as [st1 [line | e]] eqn:Ei.
    + apply quiet_input in Ei.
      destruct (String.eqb (PyStr.strip line) "1" || String.eqb (PyStr.strip line) "")%bool.
      * unfold bind.
        destruct (GitLabHandler.delete_branch serve max_retries branch_name st1)
          as [st2 rd] eqn:Ed.
        apply delete_branch_guarded in Ed.
        destruct Ed as [b [G [Hb [deleted ->]]]].
        intros Hr. exists b. split.
        -- replace st' with st2 by (destruct deleted; injection Hr as <- _; reflexivity).
           eapply guarded_trans; [exact Ei | exact G].
        -- intros Hbt. specialize (Hb Hbt). injection Hb as ->.
           injection Hr as _ <-. reflexivity.
      * destruct (String.eqb (PyStr.strip line) "2").
        -- intros [= <- <-]. exists false. split; [exact Ei | discriminate].
        -- intros Hr. apply IH in Hr. destruct Hr as [b [G Hb]].
           exists b. split; [eapply guarded_trans; [exact Ei | exact G] | exact Hb].
    + apply quiet_input in Ei. intros [= <- <-].
      exists false. split; [exact Ei | discriminate].
Qed.

Lemma confirm_replace_guarded (st st' : State S) r :
  GitLabHandler.confirm_replace serve max_retries branch_name st = (st', r) ->
  exists blocked,
    guarded false st st' blocked /\ (blocked = true -> r = Ok false).
Proof.
  unfold GitLabHandler.confirm_replace. unfold bind at 1.
  destruct (GitLabHandler.get_branch_info serve max_retries branch_name st)
    as [st1 [branch_info | e]] eqn:Eg; apply quiet_get_branch_info in Eg.
  - destruct (truthy branch_info).
    + unfold bind at 1, lift.
      destruct (GitLabHandler.read_last_commit branch_info) as [[] | e].
      * intros Hr. apply choice_loop_guarded in Hr. destruct Hr as [b [G Hb]].
        exists b. split; [eapply guarded_trans; [exact Eg | exact G] | exact Hb].
      * intros [= <- <-]. exists false. split; [exact Eg | discriminate].
    + unfold bind at 1.
      destruct (input st1) as [st2 [line | e]] eqn:Ei; apply quiet_input in Ei.
      * destruct (PyStr.contains _ _).
        -- unfold bind.
           destruct (GitLabHandler.delete_branch serve max_retries branch_name st2)
             as [st3 rd] eqn:Ed.
           apply delete_branch_guarded in Ed.
           destruct Ed as [b [G [Hb [deleted ->]]]].
           intros Hr. exists b. split.
           ++ replace st' with st3 by (destruct deleted; injection Hr as <- _; reflexivity).
              eapply guarded_trans; [exact Eg |].
              eapply guarded_trans; [exact Ei | exact G].
           ++ intros Hbt. specialize (Hb Hbt). injection Hb as ->.
              injection Hr as _ <-. reflexivity.
        -- intros [= <- <-]. exists false.
           split; [eapply guarded_trans; [exact Eg | exact Ei] | discriminate].
      * intros [= <- <-]. exists false.
        split; [eapply guarded_trans; [exact Eg | exact Ei] | discriminate].
  - intros [= <- <-]. exists false. split; [exact Eg | discriminate].
Qed.

(** No request follows a failed attempt at deleting except a new attempt
    at deleting, and when the last attempt has failed the answer is
    [False]. *)
Lemma create_branch_guarded depth :
  forall ref (st st' : State S) r,
    GitLabHandler.create_branch_depth serve max_retries depth branch_name ref st
    = (st', r) ->
    exists blocked,
      guarded false st st' blocked /\ (blocked = true -> r = Ok false).
Proof.
  induction depth as [|n IH]; intros ref st st' r;
    cbn [GitLabHandler.create_branch_depth].
  - intros [= <- <-]. exists false. split; [apply guarded_refl | discriminate].
  - unfold bind at 1.
    destruct ((if is_none ref then GitLabHandler.get_default_branch serve max_retries
               else ret ref) st) as [st1 [ref1 | e]] eqn:E1.
    2:{ intros [= <- <-]. exists false. split; [| discriminate].
        destruct (is_none ref); [eapply quiet_get_default_branch; exact E1 |].
        injection E1 as <- _. apply guarded_refl. }
    assert (Q1 : quiet st st1).
    { destruct (is_none ref); [eapply quiet_get_default_branch; exact E1 |].
      injection E1 as <- _. apply guarded_refl. }
    unfold bind at 1.
    destruct (GitLabHandler.branch_exists serve max_retries branch_name st1)
      as [st2 [exists_ | e]] eqn:E2; apply quiet_branch_exists in E2.
    2:{ intros [= <- <-]. exists false.
        split; [eapply guarded_trans; [exact Q1 | exact E2] | discriminate]. }
    unfold bind at 1.
    destruct ((if exists_
               then GitLabHandler.confirm_replace serve max_retries branch_name
               else ret true) st2) as [st3 rp] eqn:E3.
    assert (G3 : exists b, guarded false st2 st3 b /\ (b = true -> rp = Ok false)).
    { destruct exists_.
      - apply confirm_replace_guarded in E3. exact E3.
      - injection E3 as <- <-. exists false. split; [apply guarded_refl | discriminate]. }
    destruct G3 as [b [G3 Hb]].
    assert (G03 : guarded false st st3 b).
    { eapply guarded_trans; [exact Q1 |]. eapply guarded_trans; [exact E2 | exact G3]. }
    destruct b.
    + rewrite (Hb eq_refl). intros [= <- <-]. exists true. split; [exact G03 | reflexivity].
    + destruct rp as [proceed | e].
      2:{ intros [= <- <-]. exists false. split; [exact G03 | discriminate]. }
      destruct proceed.
      2:{ intros [= <- <-]. exists false. split; [exact G03 | discriminate]. }
      unfold try_except, bind at 1.
      destruct (GitLabHandler._simple_retry _ _ st3) as [st4 [response | e]] eqn:E4;
        apply quiet_call in E4; try discriminate.
      * intros [= <- <-]. exists false.
        split; [eapply guarded_trans; [exact G03 | exact E4] | discriminate].
      * assert (G04 : guarded false st st4 false)
          by (eapply guarded_trans; [exact G03 | exact E4]).
        destruct e as [code | | | | | | | | |];
          try (intros [= <- <-]; exists false; split; [exact G04 | discriminate]).
        destruct (code =? 400);
          [| intros [= <- <-]; exists false; split; [exact G04 | discriminate]].
        unfold bind at 1.
        destruct (GitLabHandler.get_default_branch serve max_retries st4)
          as [st5 [default_branch | e]] eqn:E5; apply quiet_get_default_branch in E5.
        2:{ intros [= <- <-]. exists false.
            split; [eapply guarded_trans; [exact G04 | exact E5] | discriminate]. }
        destruct (negb (py_eqb ref1 default_branch)).
        -- intros Hr. apply IH in Hr. destruct Hr as [b [G Hb']].
           exists b. split; [| exact Hb'].
           eapply guarded_trans; [exact G04 |].
           eapply guarded_trans; [exact E5 | exact G].
        -- intros [= <- <-]. exists false.
           split; [eapply guarded_trans; [exact G04 | exact E5] | discriminate].
Qed.

End Client.
End CreateBranchTrace.

(** ** Creating a branch: what it leaves on the host *)

Module CreateBranchHost.
Import Py Spec Run Frame RetryFacts.
Local Open Scope py_scope.

(** *** The branch table *)

Lemma commit_of_app_absent name commit bs :
  Host.commit_of name bs = None ->
  Host.commit_of name (bs ++ [(name, commit)]) = Some commit.
Proof.
  induction bs as [|[n c] rest IH]; cbn.
  - intros _. rewrite String.eqb_refl. reflexivity.
  - destruct (String.eqb n name); [discriminate | exact IH].
Qed.

Lemma commit_of_app_other other name commit bs :
  other <> name ->
  Host.commit_of other (bs ++ [(name, commit)]) = Host.commit_of other bs.
Proof.
  intros Hne. induction bs as [|[n c] rest IH]; cbn.
  - destruct (String.eqb_spec name other); [congruence | reflexivity].
  - destruct (String.eqb n other); [reflexivity | exact IH].
Qed.

Lemma commit_of_remove_other other name bs :
  other <> name ->
  Host.commit_of other (Host.remove name bs) = Host.commit_of other bs.
Proof.
  intros Hne. induction bs as [|[n c] rest IH]; [reflexivity |].
  unfold Host.remove in *. cbn [filter fst].
  destruct (String.eqb_spec n name) as [-> | Hn]; cbn [negb Host.commit_of].
  - destruct (String.eqb_spec name other); [congruence | exact IH].
  - destruct (String.eqb n other); [reflexivity | exact IH].
Qed.

Lemma count_absent name bs :
  Host.commit_of name bs = None -> Host.count name bs = 0%nat.
Proof.
  unfold Host.count. induction bs as [|[n c] rest IH]; cbn; [reflexivity |].
  destruct (String.eqb n name); [discriminate | exact IH].
Qed.

Lemma count_app name commit bs :
  Host.count name (bs ++ [(name, commit)]) = Datatypes.S (Host.count name bs).
Proof.
  unfold Host.count. rewrite filter_app, length_app. cbn.
  rewrite String.eqb_refl. cbn. lia.
Qed.

(** *** One request *)

Lemma respond_failed bs project request :
  failed (snd (Host.respond bs project request)) = true ->
  fst (Host.respond bs project request) = bs.
Proof.
  unfold Host.respond.
  destruct (method request); destruct (url request); try reflexivity.
  - destruct (Host.commit_of branch_name bs); reflexivity.
  - destruct (Host.creation (payload request)) as [[name ref] |]; [| reflexivity].
    destruct (Host.commit_of name bs); [reflexivity |].
    destruct (Host.commit_of ref bs); [discriminate | reflexivity].
  - destruct (Host.commit_of branch_name bs); [discriminate | reflexivity].
Qed.

Lemma respond_get bs project request :
  method request = GET -> fst (Host.respond bs project request) = bs.
Proof.
  unfold Host.respond. intros ->.
  destruct (url request); try reflexivity.
  destruct (Host.commit_of branch_name bs); reflexivity.
Qed.

Lemma respond_delete bs project name params payload :
  fst (Host.respond bs project (mkRequest DELETE (branch_url name) params payload))
  = bs
  \/ fst (Host.respond bs project (mkRequest DELETE (branch_url name) params payload))
     = Host.remove name bs.
Proof.
  unfold Host.respond. cbn. destruct (Host.commit_of name bs); auto.
Qed.

Lemma respond_create bs project name ref :
  let answer := Host.respond bs project
                  (mkRequest POST branches_url []
                             (GitLabHandler.branch_payload name ref)) in
  (fst answer = bs /\ failed (snd answer) = true)
  \/ (exists r commit,
         ref = JStr r
         /\ Host.commit_of name bs = None
         /\ Host.commit_of r bs = Some commit
         /\ fst answer = (bs ++ [(name, commit)])%list).
Proof.
  cbv zeta. unfold Host.respond. cbn.
  destruct ref; try (left; split; reflexivity).
  destruct (Host.commit_of name bs) eqn:Hn; [left; split; reflexivity |].
  destruct (Host.commit_of s bs) eqn:Hr; [| left; split; reflexivity].
  right. exists s, s0. repeat split; assumption.
Qed.

(** what one request does to the host: nothing when the call fails, and
    else what [respond] says *)
Lemma serve_effect h request :
  Host.project (fst (Host.serve h request)) = Host.project h
  /\ (Host.branches (fst (Host.serve h request)) = Host.branches h
      /\ failed (snd (Host.serve h request)) = true
      \/ Host.branches (fst (Host.serve h request))
         = fst (Host.respond (Host.branches h) (Host.project h) request)
         /\ snd (Host.serve h request)
            = snd (Host.respond (Host.branches h) (Host.project h) request)).
Proof.
  unfold Host.serve.
  destruct (Host.outages h) as [|[e |] rest];
    try (destruct (Host.respond (Host.branches h) (Host.project h) request)
          as [bs reply] eqn:E; cbn; split; [reflexivity | right; split; reflexivity]).
  cbn. split; [reflexivity | left; split; reflexivity].
Qed.

Section Client.
Variable max_retries : Z.

(** *** One request through the retry wrapper *)

(** A wrapper that raises has left the branches as they were; a wrapper
    that returns a response has left what [respond] makes of them, by an
    answer that is not an error. *)
Lemma call_effect method url params payload remaining :
  forall attempt last_error (st st' : State Host.State) r,
    GitLabHandler.retry_loop max_retries
      (GitLabHandler._make_request Host.serve method url params payload)
      remaining attempt last_error st = (st', r) ->
    let answer := Host.respond (Host.branches (server st)) (Host.project (server st))
                               (mkRequest method url params payload) in
    Host.project (server st') = Host.project (server st)
    /\ match r with
       | Raise _ => Host.branches (server st') = Host.branches (server st)
       | Ok _ =>
           Host.branches (server st') = fst answer /\ failed (snd answer) = false
       end.
Proof.
  induction remaining as [|n IH]; intros attempt last_error st st' r;
    cbn [GitLabHandler.retry_loop].
  - destruct last_error; intros [= <- <-]; cbv zeta; auto.
  - unfold try_except. rewrite make_request_run.
    set (request := mkRequest method url params payload).
    destruct (serve_effect (server st) request) as [Hp Hb].
    set (st1 := record _ _).
    assert (Hs1 : server st1 = fst (Host.serve (server st) request)) by reflexivity.
    destruct (reply_result (snd (Host.serve (server st) request)))
      as [response | e] eqn:E.
    + intros [= <- <-]. cbv zeta. rewrite Hs1. split; [exact Hp |].
      destruct Hb as [[_ Hf] | [Hb Hr]].
      * unfold failed in Hf. rewrite E in Hf. discriminate.
      * split; [exact Hb |]. rewrite <- Hr. unfold failed. rewrite E. reflexivity.
    + assert (Hsame : Host.branches (server st1) = Host.branches (server st)).
      { rewrite Hs1. destruct Hb as [[Hb _] | [Hb Hr]]; [exact Hb |].
        rewrite Hb. apply respond_failed. rewrite <- Hr.
        unfold failed. rewrite E. reflexivity. }
      assert (Hproj : Host.project (server st1) = Host.project (server st))
        by (rewrite Hs1; exact Hp).
      unfold bind.
      destruct ((if attempt <? max_retries - 1
                 then sleep ((attempt + 1) * 2) else ret tt) st1)
        as [st2 [[] | e2]] eqn:Es.
      * assert (Hs2 : server st2 = server st1).
        { destruct (attempt <? max_retries - 1).
          - unfold sleep in Es. destruct ((attempt + 1) * 2 <? 0);
              [discriminate | injection Es as <-; reflexivity].
          - injection Es as <-. reflexivity. }
        intros Hrun. apply IH in Hrun. cbv zeta in Hrun.
        rewrite Hs2, Hproj, Hsame in Hrun. exact Hrun.
      * intros [= <- <-]. cbv zeta.
        assert (Hs2 : server st2 = server st1).
        { destruct (attempt <? max_retries - 1).
          - unfold sleep in Es. destruct ((attempt + 1) * 2 <? 0);
              [injection Es as <- _; reflexivity | discriminate].
          - discriminate. }
        rewrite Hs2. split; [exact Hproj | exact Hsame].
Qed.

Lemma only_changes_refl name (st : State Host.State) : only_changes name st st.
Proof. intros other _. reflexivity. Qed.

Lemma only_changes_trans name (a b c : State Host.State) :
  only_changes name a b -> only_changes name b c -> only_changes name a c.
Proof. intros H1 H2 other Hne. rewrite (H2 other Hne). apply H1. exact Hne. Qed.

Lemma only_changes_same_server name (a b : State Host.State) :
  server b = server a -> only_changes name a b.
Proof. intros H other _. rewrite H. reflexivity. Qed.

Lemma only_changes_input name : keeps (only_changes name) input.
Proof.
  intros st st' r. unfold input. destruct (stdin st); intros [= <- _];
    apply only_changes_same_server; reflexivity.
Qed.

Lemma only_changes_get name url params payload :
  keeps (only_changes name)
        (GitLabHandler._simple_retry max_retries
           (GitLabHandler._make_request Host.serve GET url params payload)).
Proof.
  intros st st' r Hrun. apply call_effect in Hrun. cbv zeta in Hrun.
  destruct Hrun as [_ Hb]. intros other _.
  destruct r as [response | e]; [destruct Hb as [Hb _] |]; rewrite Hb; [| reflexivity].
  rewrite respond_get; reflexivity.
Qed.

Lemma only_changes_delete name :
  keeps (only_changes name)
        (GitLabHandler._simple_retry max_retries
           (GitLabHandler._make_request Host.serve DELETE (branch_url name) [] JNull)).
Proof.
  intros st st' r Hrun. apply call_effect in Hrun. cbv zeta in Hrun.
  destruct Hrun as [_ Hb]. intros other Hne.
  destruct r as [response | e]; [destruct Hb as [Hb _] |]; rewrite Hb; [| reflexivity].
  destruct (respond_delete (Host.branches (server st)) (Host.project (server st))
                           name [] JNull) as [-> | ->];
    [reflexivity | apply commit_of_remove_other; exact Hne].
Qed.

Lemma only_changes_create name ref :
  keeps (only_changes name)
        (GitLabHandler._simple_retry max_retries
           (GitLabHandler._make_request Host.serve POST branches_url []
              (GitLabHandler.branch_payload name ref))).
Proof.
  intros st st' r Hrun. apply call_effect in Hrun. cbv zeta in Hrun.
  destruct Hrun as [_ Hb]. intros other Hne.
  destruct r as [response | e]; [destruct Hb as [Hb _] |]; rewrite Hb; [| reflexivity].
  destruct (respond_create (Host.branches (server st)) (Host.project (server st))
                           name ref) as [[-> _] | [r0 [c [_ [_ [_ ->]]]]]];
    [reflexivity | apply commit_of_app_other; exact Hne].
Qed.

Lemma only_changes_get_default_branch name :
  keeps (only_changes name) (GitLabHandler.get_default_branch Host.serve max_retries).
Proof.
  apply keeps_get_default_branch.
  - apply only_changes_refl.
  - apply only_changes_trans.
  - intros v st st' r [= <- _]. apply only_changes_same_server. reflexivity.
  - intros v st st' r [= <- _]. apply only_changes_same_server. reflexivity.
  - apply only_changes_get.
Qed.

Lemma only_changes_branch_exists name :
  keeps (only_changes name) (GitLabHandler.branch_exists Host.serve max_retries name).
Proof.
  apply keeps_branch_exists;
    [apply only_changes_refl | apply only_changes_trans | apply only_changes_get].
Qed.

Lemma only_changes_confirm_replace name :
  keeps (only_changes name)
        (GitLabHandler.confirm_replace Host.serve max_retries name).
Proof.
  apply keeps_confirm_replace;
    [apply only_changes_refl | apply only_changes_trans | apply only_changes_input
    | apply only_changes_get | apply only_changes_delete].
Qed.

(** *** The memoised default branch *)

Lemma sticky_refl {S} (st : State S) : sticky st st.
Proof. intros _. reflexivity. Qed.

Lemma sticky_trans {S} (a b c : State S) : sticky a b -> sticky b c -> sticky a c.
Proof.
  intros H1 H2 Ha. rewrite <- (H1 Ha). apply H2. rewrite (H1 Ha). exact Ha.
Qed.

Lemma sticky_same_field {S} (a b : State S) :
  _default_branch b = _default_branch a -> sticky a b.
Proof. intros H _. exact H. Qed.

Lemma sticky_sleep {S} seconds : keeps (@sticky S) (sleep seconds).
Proof.
  intros st st' r. unfold sleep. destruct (seconds <? 0); intros [= <- _];
    apply sticky_same_field; reflexivity.
Qed.

Lemma sticky_input {S} : keeps (@sticky S) input.
Proof.
  intros st st' r. unfold input. destruct (stdin st); intros [= <- _];
    apply sticky_same_field; reflexivity.
Qed.

Lemma sticky_call {S} (serve : S -> Request -> S * Reply) method url params payload :
  keeps (@sticky S)
        (GitLabHandler._simple_retry max_retries
           (GitLabHandler._make_request serve method url params payload)).
Proof.
  apply keeps_simple_retry.
  - apply sticky_refl.
  - apply sticky_trans.
  - apply sticky_sleep.
  - intros st st' r. rewrite make_request_run. intros [= <- _].
    apply sticky_same_field. reflexivity.
Qed.

(** [get_default_branch] leaves a memoised default branch alone, and
    memoises the one it returns. *)
Lemma get_default_branch_memoises {S} (serve : S -> Request -> S * Reply)
      (st st' : State S) r :
  GitLabHandler.get_default_branch serve max_retries st = (st', r) ->
  sticky st st'
  /\ (forall default_branch,
         r = Ok default_branch -> default_branch <> JNull ->
         _default_branch st' = default_branch).
Proof.
  unfold GitLabHandler.get_default_branch. unfold bind at 1.
  unfold get_default_branch_field at 1.
  destruct (is_none (_default_branch st)) eqn:Hnone.
  - intros Hrun. split.
    + intros Hnn. destruct (_default_branch st); try discriminate;
        contradiction Hnn; reflexivity.
    + revert Hrun. unfold bind at 1.
      destruct (GitLabHandler.get_project serve max_retries st) as [st1 [info | e]];
        [| intros [= <- <-]; discriminate].
      unfold bind at 1.
      match goal with |- context [(if ?c then ?a else ?b) st1] =>
        destruct ((if c then a else b) st1) as [st2 [[] | e]] eqn:Eset
      end; [| intros [= <- <-]; discriminate].
      unfold get_default_branch_field. intros [= <- <-] d [= <-] _. reflexivity.
  - unfold ret. intros [= <- <-]. split; [apply sticky_refl |].
    intros d [= <-] _. reflexivity.
Qed.

Lemma sticky_get_default_branch {S} (serve : S -> Request -> S * Reply) :
  keeps (@sticky S) (GitLabHandler.get_default_branch serve max_retries).
Proof. intros st st' r Hrun. apply (get_default_branch_memoises serve st st' r Hrun). Qed.

Lemma sticky_create_branch_depth {S} (serve : S -> Request -> S * Reply)
      depth name ref :
  keeps (@sticky S)
        (GitLabHandler.create_branch_depth serve max_retries depth name ref).
Proof.
  apply keeps_create_branch_depth.
  - apply sticky_refl.
  - apply sticky_trans.
  - apply sticky_input.
  - apply sticky_get_default_branch.
  - apply sticky_call.
  - apply sticky_call.
  - intros r. apply sticky_call.
Qed.

(** *** The branch after a successful creation *)

Lemma create_call_outcome name ref (st st' : State Host.State) r :
  GitLabHandler._simple_retry max_retries
    (GitLabHandler._make_request Host.serve POST branches_url []
       (GitLabHandler.branch_payload name ref)) st = (st', r) ->
  (exists e, r = Raise e)
  \/ (exists from commit,
         ref = JStr from
         /\ Host.commit_of name (Host.branches (server st)) = None
         /\ Host.commit_of from (Host.branches (server st)) = Some commit
         /\ Host.branches (server st')
            = (Host.branches (server st) ++ [(name, commit)])%list).
Proof.
  intros Hrun. destruct r as [response | e]; [| left; eauto].
  apply call_effect in Hrun. cbv zeta in Hrun. destruct Hrun as [_ [Hb Hok]].
  destruct (respond_create (Host.branches (server st)) (Host.project (server st))
                           name ref) as [[_ Hfail] | Hadd].
  - rewrite Hfail in Hok. discriminate.
  - right. destruct Hadd as [from [commit [-> [Hn [Hr Hfst]]]]].
    exists from, commit. repeat split; try assumption.
    rewrite Hb. exact Hfst.
Qed.

End Client.
End CreateBranchHost.

(** ** Recreating a branch: the order of prompt, deletion and creation *)

Module RecreateOrder.
Import Py Spec Run Frame RetryFacts BranchListFacts CreateBranchHost.
Local Open Scope py_scope.

Lemma confirmation_guards_app name events more :
  forall asked deleted,
    confirmation_guards name asked deleted (events ++ more)
    = match confirmation_guards name asked deleted events with
      | Some (asked', deleted') => confirmation_guards name asked' deleted' more
      | None => None
      end.
Proof.
  induction events as [|ev rest IH]; intros asked deleted; [reflexivity |].
  destruct ev as [request reply | seconds | line]; cbn [app confirmation_guards];
    try apply IH.
  destruct (deletes name request && negb (failed reply))%bool; [apply IH |].
  destruct (method request); try apply IH.
  destruct (asked && negb deleted)%bool; [reflexivity | apply IH].
Qed.

(** what passing [confirmation_guards] means: a creation that follows a
    prompt follows a deletion that succeeded *)
Lemma confirmation_guards_sound name before :
  forall asked deleted request reply after flags,
    confirmation_guards name asked deleted (before ++ Call request reply :: after)
    = Some flags ->
    method request = POST ->
    asked = true \/ (exists line, In (Input line) before) ->
    deleted = true
    \/ exists deletion answer,
         In (Call deletion answer) before
         /\ deletes name deletion = true
         /\ failed answer = false.
Proof.
  induction before as [|ev rest IH]; intros asked deleted request reply after flags.
  - cbn [app confirmation_guards]. intros H Hm Ha.
    assert (Hd : deletes name request = false) by (unfold deletes; rewrite Hm; reflexivity).
    rewrite Hd, Hm in H. cbn [andb] in H.
    destruct Ha as [-> | [line []]].
    destruct deleted; [left; reflexivity | discriminate H].
  - destruct ev as [q r | seconds | line]; cbn [app confirmation_guards].
    + destruct (deletes name q && negb (failed r))%bool eqn:D.
      * intros _ _ _. right. exists q, r.
        apply andb_true_iff in D. destruct D as [D1 D2].
        split; [left; reflexivity |]. split; [exact D1 |].
        apply negb_true_iff. exact D2.
      * intros H Hm Ha.
        assert (H' : confirmation_guards name asked deleted
                       (rest ++ Call request reply :: after) = Some flags).
        { destruct (method q); try exact H.
          destruct (asked && negb deleted)%bool; [discriminate H | exact H]. }
        destruct (IH _ _ _ _ _ _ H' Hm) as [Hdel | [d [a [Hin Hrest]]]].
        -- destruct Ha as [Ha | [line [Hl | Hl]]];
             [left; exact Ha | discriminate Hl | right; exists line; exact Hl].
        -- left. exact Hdel.
        -- right. exists d, a. split; [right; exact Hin | exact Hrest].
    + intros H Hm Ha.
      destruct (IH _ _ _ _ _ _ H Hm) as [Hdel | [d [a [Hin Hrest]]]].
      * destruct Ha as [Ha | [line [Hl | Hl]]];
          [left; exact Ha | discriminate Hl | right; exists line; exact Hl].
      * left. exact Hdel.
      * right. exists d, a. split; [right; exact Hin | exact Hrest].
    + intros H Hm _.
      destruct (IH _ _ _ _ _ _ H Hm (or_introl eq_refl)) as [Hdel | [d [a [Hin Hrest]]]].
      * left. exact Hdel.
      * right. exists d, a. split; [right; exact Hin | exact Hrest].
Qed.

Lemma retry_trace_last request replies :
  forall index default,
    replies <> [] ->
    In (Call request (last replies default)) (retry_trace request index replies).
Proof.
  induction replies as [|reply rest IH]; intros index default Hne;
    [contradiction Hne; reflexivity |].
  destruct rest as [|r rest'].
  - left. reflexivity.
  - change (last (reply :: r :: rest') default) with (last (r :: rest') default).
    cbn [retry_trace]. right. right. apply IH. discriminate.
Qed.

Section Client.
Context {S : Type}.
Variable serve : S -> Request -> S * Reply.
Variable max_retries : Z.
Variable name : string.

(** the reply that decides the result of a call is in the trace *)
Lemma call_answered method url params payload (st st' : State S) result :
  GitLabHandler._simple_retry max_retries
    (GitLabHandler._make_request serve method url params payload) st = (st', result) ->
  result = Raise TypeError
  \/ exists new reply,
       trace st' = (trace st ++ new)%list
       /\ In (Call (mkRequest method url params payload) reply) new
       /\ result = reply_result reply.
Proof.
  intros Hrun. unfold GitLabHandler._simple_retry in Hrun.
  destruct (Z.to_nat max_retries) as [|remaining] eqn:Hn.
  - cbn in Hrun. injection Hrun as _ <-. left. reflexivity.
  - right. apply retry_loop_run in Hrun; [| lia | lia].
    destruct Hrun as [first [more [_ [Htrace [_ [Hres _]]]]]].
    exists (retry_trace (mkRequest method url params payload) (0 + 1) (first :: more)),
           (last (first :: more) first).
    split; [exact Htrace |]. split; [| exact Hres].
    apply retry_trace_last. discriminate.
Qed.

Lemma trace_grows_input : keeps (@trace_grows S) input.
Proof.
  intros st st' r. unfold input. destruct (stdin st) as [|line rest]; intros [= <- _].
  - apply trace_grows_refl.
  - exists [Input line]. reflexivity.
Qed.

Lemma trace_grows_branch_exists :
  keeps (@trace_grows S) (GitLabHandler.branch_exists serve max_retries name).
Proof.
  apply keeps_branch_exists;
    [apply trace_grows_refl | apply trace_grows_trans | apply trace_grows_call].
Qed.

Lemma trace_grows_confirm_replace :
  keeps (@trace_grows S) (GitLabHandler.confirm_replace serve max_retries name).
Proof.
  apply keeps_confirm_replace;
    [apply trace_grows_refl | apply trace_grows_trans | apply trace_grows_input
    | apply trace_grows_call | apply trace_grows_call].
Qed.

(** *** Steps and the guards *)

Lemma confirmed_refl asked deleted (st : State S) :
  confirmed name asked deleted st st asked deleted.
Proof. exists []. split; [symmetry; apply app_nil_r | reflexivity]. Qed.

Lemma confirmed_trans a1 d1 a2 d2 a3 d3 (x y z : State S) :
  confirmed name a1 d1 x y a2 d2 -> confirmed name a2 d2 y z a3 d3 ->
  confirmed name a1 d1 x z a3 d3.
Proof.
  intros [n1 [H1 G1]] [n2 [H2 G2]]. exists (n1 ++ n2)%list. split.
  - rewrite H2, H1. symmetry. apply app_assoc.
  - rewrite confirmation_guards_app, G1. exact G2.
Qed.

Lemma neutral_refl (st : State S) : neutral name st st.
Proof. intros a d. apply confirmed_refl. Qed.

Lemma neutral_trans (x y z : State S) :
  neutral name x y -> neutral name y z -> neutral name x z.
Proof. intros H1 H2 a d. eapply confirmed_trans; [apply H1 | apply H2]. Qed.

Lemma neutral_sleep seconds : keeps (@neutral S name) (sleep seconds).
Proof.
  intros st st' r. unfold sleep. destruct (seconds <? 0); intros [= <- _].
  - apply neutral_refl.
  - intros a d. exists [Sleep seconds]. split; reflexivity.
Qed.

Lemma neutral_set_project_info v : keeps (@neutral S name) (set_project_info v).
Proof. intros st st' r [= <- _] a d. exists []. split; [symmetry; apply app_nil_r | reflexivity]. Qed.

Lemma neutral_set_default_branch v : keeps (@neutral S name) (set_default_branch v).
Proof. intros st st' r [= <- _] a d. exists []. split; [symmetry; apply app_nil_r | reflexivity]. Qed.

Lemma neutral_get url params payload :
  keeps (@neutral S name)
        (GitLabHandler._simple_retry max_retries
           (GitLabHandler._make_request serve GET url params payload)).
Proof.
  apply keeps_simple_retry.
  - exact neutral_refl.
  - exact neutral_trans.
  - exact neutral_sleep.
  - intros st st' r. rewrite make_request_run. intros [= <- _] a d.
    eexists [_]. split; reflexivity.
Qed.

Lemma neutral_get_default_branch :
  keeps (@neutral S name) (GitLabHandler.get_default_branch serve max_retries).
Proof.
  apply keeps_get_default_branch.
  - exact neutral_refl.
  - exact neutral_trans.
  - exact neutral_set_project_info.
  - exact neutral_set_default_branch.
  - apply neutral_get.
Qed.

Lemma neutral_branch_exists :
  keeps (@neutral S name) (GitLabHandler.branch_exists serve max_retries name).
Proof.
  apply keeps_branch_exists;
    [exact neutral_refl | exact neutral_trans | apply neutral_get].
Qed.

Lemma neutral_get_branch_info :
  keeps (@neutral S name) (GitLabHandler.get_branch_info serve max_retries name).
Proof.
  apply keeps_get_branch_info;
    [exact neutral_refl | exact neutral_trans | apply neutral_get].
Qed.

(** a prompt is noted, a failed one leaves no trace *)
Lemma input_confirmed (st st' : State S) r asked deleted :
  input st = (st', r) ->
  exists asked', confirmed name asked deleted st st' asked' deleted.
Proof.
  unfold input. destruct (stdin st) as [|line rest]; intros [= <- _].
  - exists asked. apply confirmed_refl.
  - exists true. exists [Input line]. split; reflexivity.
Qed.

(** the attempts at deleting: a wrapper that returns has deleted *)
Lemma retry_delete_confirmed remaining :
  forall attempt last_error asked deleted (st st' : State S) r,
    GitLabHandler.retry_loop max_retries
      (GitLabHandler._make_request serve DELETE (branch_url name) [] JNull)
      remaining attempt last_error st = (st', r) ->
    exists deleted',
      confirmed name asked deleted st st' asked deleted'
      /\ ((exists response, r = Ok response) -> deleted' = true).
Proof.
  induction remaining as [|n IH]; intros attempt last_error asked deleted st st' r.
  - cbn [GitLabHandler.retry_loop]. destruct last_error; intros [= <- <-];
      exists deleted; (split; [apply confirmed_refl |]); intros [response H];
      discriminate H.
  - cbn [GitLabHandler.retry_loop]. unfold try_except.
    rewrite make_request_run.
    set (request := mkRequest DELETE (branch_url name) [] JNull).
    set (reply := snd (serve (server st) request)).
    set (st1 := record (Call request reply) _).
    assert (Hdel : deletes name request = true)
      by (unfold deletes, request; cbn; apply String.eqb_refl).
    destruct (reply_result reply) as [response | e] eqn:E.
    + intros [= <- <-]. exists true. split; [| reflexivity].
      exists [Call request reply]. split; [reflexivity |].
      cbn [confirmation_guards]. rewrite Hdel. unfold failed. rewrite E. reflexivity.
    + assert (G1 : confirmed name asked deleted st st1 asked deleted).
      { exists [Call request reply]. split; [reflexivity |].
        cbn [confirmation_guards]. rewrite Hdel. unfold failed. rewrite E. reflexivity. }
      unfold bind.
      destruct ((if attempt <? max_retries - 1
                 then sleep ((attempt + 1) * 2) else ret tt) st1)
        as [st2 [[] | e2]] eqn:Es.
      * assert (G2 : neutral name st1 st2).
        { destruct (attempt <? max_retries - 1);
            [eapply neutral_sleep; exact Es |].
          injection Es as <-. apply neutral_refl. }
        intros Hrun. apply (IH _ _ asked deleted) in Hrun.
        destruct Hrun as [d' [G3 Hd]]. exists d'. split; [| exact Hd].
        eapply confirmed_trans; [exact G1 |].
        eapply confirmed_trans; [apply G2 | exact G3].
      * intros [= <- <-]. exists deleted. split.
        -- eapply confirmed_trans; [exact G1 |].
           assert (G2 : neutral name st1 st2).
           { destruct (attempt <? max_retries - 1);
               [eapply neutral_sleep; exact Es | discriminate Es]. }
           apply G2.
        -- intros [response H]. discriminate H.
Qed.

Lemma delete_branch_confirmed (st st' : State S) r asked deleted :
  GitLabHandler.delete_branch serve max_retries name st = (st', r) ->
  exists deleted',
    confirmed name asked deleted st st' asked deleted'
    /\ (r = Ok true -> deleted' = true)
    /\ exists answer, r = Ok answer.
Proof.
  unfold GitLabHandler.delete_branch, try_except, bind.
  unfold GitLabHandler._simple_retry.
  destruct (GitLabHandler.retry_loop _ _ _ _ _ st) as [st1 [response | e]] eqn:E;
    apply (retry_delete_confirmed _ _ _ asked deleted) in E;
    destruct E as [d' [G Hd]]; intros [= <- <-]; exists d';
    (split; [exact G |]); (split; [| eauto]).
  - intros _. apply Hd. eauto.
  - discriminate.
Qed.

Lemma choice_loop_confirmed lines :
  forall (st st' : State S) r asked deleted,
    GitLabHandler.choice_loop serve max_retries lines name st = (st', r) ->
    exists asked' deleted',
      confirmed name asked deleted st st' asked' deleted'
      /\ (r = Ok true -> deleted' = true).
Proof.
  induction lines as [|l rest IH]; intros st st' r asked deleted;
    cbn [GitLabHandler.choice_loop].
  - intros [= <- <-]. exists asked, deleted.
    split; [apply confirmed_refl | discriminate].
  - unfold bind at 1.
    destruct (input st) as [st1 [line | e]] eqn:Ei;
      destruct (input_confirmed _ _ _ asked deleted Ei) as [a1 G1].
    + destruct (String.eqb (PyStr.strip line) "1" || String.eqb (PyStr.strip line) "")%bool.
      * unfold bind.
        destruct (GitLabHandler.delete_branch serve max_retries name st1)
          as [st2 rd] eqn:Ed.
        destruct (delete_branch_confirmed _ _ _ a1 deleted Ed)
          as [d' [G [Hd [answer ->]]]].
        intros Hr. exists a1, d'. split.
        -- replace st' with st2 by (destruct answer; injection Hr as <- _; reflexivity).
           eapply confirmed_trans; [exact G1 | exact G].
        -- intros ->. apply Hd. destruct answer; [reflexivity |].
           injection Hr as _ H. discriminate H.
      * destruct (String.eqb (PyStr.strip line) "2").
        -- intros [= <- <-]. exists a1, deleted. split; [exact G1 | discriminate].
        -- intros Hr. apply (IH _ _ _ a1 deleted) in Hr.
           destruct Hr as [a' [d' [G Hd]]]. exists a', d'.
           split; [eapply confirmed_trans; [exact G1 | exact G] | exact Hd].
    + intros [= <- <-]. exists a1, deleted. split; [exact G1 | discriminate].
Qed.

Lemma confirm_replace_confirmed (st st' : State S) r asked deleted :
  GitLabHandler.confirm_replace serve max_retries name st = (st', r) ->
  exists asked' deleted',
    confirmed name asked deleted st st' asked' deleted'
    /\ (r = Ok true -> deleted' = true).
Proof.
  unfold GitLabHandler.confirm_replace. unfold bind at 1.
  destruct (GitLabHandler.get_branch_info serve max_retries name st)
    as [st1 [branch_info | e]] eqn:Eg; apply neutral_get_branch_info in Eg.
  - destruct (truthy branch_info).
    + unfold bind at 1, lift.
      destruct (GitLabHandler.read_last_commit branch_info) as [[] | e].
      * intros Hr. apply (choice_loop_confirmed _ _ _ _ asked deleted) in Hr.
        destruct Hr as [a' [d' [G Hd]]]. exists a', d'.
        split; [eapply confirmed_trans; [apply Eg | exact G] | exact Hd].
      * intros [= <- <-]. exists asked, deleted. split; [apply Eg | discriminate].
    + unfold bind at 1.
      destruct (input st1) as [st2 [line | e]] eqn:Ei;
        destruct (input_confirmed _ _ _ asked deleted Ei) as [a1 G1].
      * destruct (PyStr.contains _ _).
        -- unfold bind.
           destruct (GitLabHandler.delete_branch serve max_retries name st2)
             as [st3 rd] eqn:Ed.
           destruct (delete_branch_confirmed _ _ _ a1 deleted Ed)
             as [d' [G [Hd [answer ->]]]].
           intros Hr. exists a1, d'. split.
           ++ replace st' with st3 by (destruct answer; injection Hr as <- _; reflexivity).
              eapply confirmed_trans; [apply Eg |].
              eapply confirmed_trans; [exact G1 | exact G].
           ++ intros ->. apply Hd. destruct answer; [reflexivity |].
              injection Hr as _ H. discriminate H.
        -- intros [= <- <-]. exists a1, deleted.
           split; [eapply confirmed_trans; [apply Eg | exact G1] | discriminate].
      * intros [= <- <-]. exists a1, deleted.
        split; [eapply confirmed_trans; [apply Eg | exact G1] | discriminate].
  - intros [= <- <-]. exists asked, deleted. split; [apply Eg | discriminate].
Qed.

(** a creation passes where no prompt is pending *)
Lemma create_confirmed ref asked deleted :
  asked = false \/ deleted = true ->
  keeps (fun a b : State S => confirmed name asked deleted a b asked deleted)
        (GitLabHandler._simple_retry max_retries
           (GitLabHandler._make_request serve POST branches_url []
              (GitLabHandler.branch_payload name ref))).
Proof.
  intros Hok. apply keeps_simple_retry.
  - intros st. apply confirmed_refl.
  - intros a b c. apply confirmed_trans.
  - intros seconds st st' r E. eapply neutral_sleep. exact E.
  - intros st st' r. rewrite make_request_run. intros [= <- _].
    eexists [_]. split; [reflexivity |].
    cbn. destruct Hok as [-> | ->]; [reflexivity |].
    rewrite andb_false_r. reflexivity.
Qed.

(** In a run of [create_branch], a creation that follows a prompt
    follows a deletion that succeeded. *)
Lemma create_branch_confirmed depth :
  forall ref (st st' : State S) r asked deleted,
    asked = false \/ deleted = true ->
    GitLabHandler.create_branch_depth serve max_retries depth name ref st
    = (st', r) ->
    exists asked' deleted', confirmed name asked deleted st st' asked' deleted'.
Proof.
  induction depth as [|n IH]; intros ref st st' r asked deleted Hok;
    cbn [GitLabHandler.create_branch_depth].
  - intros [= <- <-]. exists asked, deleted. apply confirmed_refl.
  - unfold bind at 1.
    destruct ((if is_none ref then GitLabHandler.get_default_branch serve max_retries
               else ret ref) st) as [st1 r1] eqn:E1.
    assert (Q1 : neutral name st st1).
    { destruct (is_none ref); [eapply neutral_get_default_branch; exact E1 |].
      injection E1 as <- _. apply neutral_refl. }
    destruct r1 as [ref1 | e];
      [| intros [= <- <-]; exists asked, deleted; apply Q1].
    unfold bind at 1.
    destruct (GitLabHandler.branch_exists serve max_retries name st1)
      as [st2 r2] eqn:E2. apply neutral_branch_exists in E2.
    assert (Q2 : neutral name st st2) by (eapply neutral_trans; [exact Q1 | exact E2]).
    destruct r2 as [exists_ | e];
      [| intros [= <- <-]; exists asked, deleted; apply Q2].
    unfold bind at 1.
    destruct ((if exists_
               then GitLabHandler.confirm_replace serve max_retries name
               else ret true) st2) as [st3 rp] eqn:E3.
    assert (G3 : exists a3 d3,
               confirmed name asked deleted st st3 a3 d3
               /\ (rp = Ok true -> a3 = false \/ d3 = true)).
    { destruct exists_.
      - apply (confirm_replace_confirmed _ _ _ asked deleted) in E3.
        destruct E3 as [a3 [d3 [G Hd]]]. exists a3, d3. split.
        + eapply confirmed_trans; [apply Q2 | exact G].
        + intros H. right. apply Hd. exact H.
      - injection E3 as <- <-. exists asked, deleted.
        split; [apply Q2 | intros _; exact Hok]. }
    destruct G3 as [a3 [d3 [G3 Hok3]]].
    destruct rp as [proceed | e];
      [| intros [= <- <-]; exists a3, d3; exact G3].
    destruct proceed; [| intros [= <- <-]; exists a3, d3; exact G3].
    specialize (Hok3 eq_refl).
    unfold try_except, bind at 1.
    destruct (GitLabHandler._simple_retry _ _ st3) as [st4 r4] eqn:E4.
    apply (create_confirmed ref1 a3 d3 Hok3) in E4.
    assert (G4 : confirmed name asked deleted st st4 a3 d3)
      by (eapply confirmed_trans; [exact G3 | exact E4]).
    destruct r4 as [response | e];
      [intros [= <- <-]; exists a3, d3; exact G4 |].
    destruct e as [code | | | | | | | | |];
      try (intros [= <- <-]; exists a3, d3; exact G4).
    destruct (code =? 400);
      [| intros [= <- <-]; exists a3, d3; exact G4].
    unfold bind at 1.
    destruct (GitLabHandler.get_default_branch serve max_retries st4)
      as [st5 r5] eqn:E5. apply neutral_get_default_branch in E5.
    assert (G5 : confirmed name asked deleted st st5 a3 d3)
      by (eapply confirmed_trans; [exact G4 | apply E5]).
    destruct r5 as [default_branch | e];
      [| intros [= <- <-]; exists a3, d3; exact G5].
    destruct (negb (py_eqb ref1 default_branch));
      [| intros [= <- <-]; exists a3, d3; exact G5].
    intros Hr. apply (IH _ _ _ _ a3 d3 Hok3) in Hr.
    destruct Hr as [a' [d' G]]. exists a', d'.
    eapply confirmed_trans; [exact G5 | exact G].
Qed.

Lemma trace_grows_create_branch_depth depth ref :
  keeps (@trace_grows S)
        (GitLabHandler.create_branch_depth serve max_retries depth name ref).
Proof.
  apply keeps_create_branch_depth.
  - apply trace_grows_refl.
  - apply trace_grows_trans.
  - apply trace_grows_input.
  - apply trace_grows_get_default_branch.
  - apply trace_grows_call.
  - apply trace_grows_call.
  - intros r. apply trace_grows_call.
Qed.

(** an event of a part of a run is an event of the run *)
Lemma event_within (a b c d : State S) event :
  trace_grows a b ->
  (exists new, trace c = (trace b ++ new)%list /\ In event new) ->
  trace_grows c d ->
  forall new, trace d = (trace a ++ new)%list -> In event new.
Proof.
  intros [n1 H1] [n [H Hin]] [n2 H2] new Hnew.
  rewrite H2, H, H1 in Hnew. rewrite <- !app_assoc in Hnew.
  apply app_inv_head in Hnew. subst new.
  apply in_or_app. right. apply in_or_app. left. exact Hin.
Qed.

End Client.

(** *** On the host: a branch that was there stays until it is deleted *)

Section OnHost.
Variable max_retries : Z.
Variable name : string.

Lemma refused_app first second :
  refused first -> refused second -> refused (first ++ second).
Proof.
  intros H1 H2 request reply Hin. apply in_app_or in Hin.
  destruct Hin as [Hin | Hin]; [exact (H1 _ _ Hin) | exact (H2 _ _ Hin)].
Qed.

Lemma kept_or_deleted_same (a b : State Host.State) :
  server b = server a -> trace b = trace a -> kept_or_deleted name a b.
Proof.
  intros Hs Ht. exists []. split; [rewrite Ht; symmetry; apply app_nil_r |].
  intros Hp. left. rewrite Hs. split; [exact Hp |]. intros request reply [].
Qed.

Lemma kept_or_deleted_refl (st : State Host.State) : kept_or_deleted name st st.
Proof. apply kept_or_deleted_same; reflexivity. Qed.

Lemma kept_or_deleted_trans (a b c : State Host.State) :
  kept_or_deleted name a b -> kept_or_deleted name b c -> kept_or_deleted name a c.
Proof.
  intros [n1 [H1 K1]] [n2 [H2 K2]]. exists (n1 ++ n2)%list. split.
  - rewrite H2, H1. symmetry. apply app_assoc.
  - intros Ha. destruct (K1 Ha) as [[Hb R1] | D1].
    + destruct (K2 Hb) as [[Hc R2] | [before [d [answer [after [-> [Hd [Hf Rb]]]]]]]].
      * left. split; [exact Hc | apply refused_app; assumption].
      * right. exists (n1 ++ before)%list, d, answer, after.
        split; [apply app_assoc |]. split; [exact Hd |]. split; [exact Hf |].
        apply refused_app; assumption.
    + right. destruct D1 as [before [d [answer [after [-> Hrest]]]]].
      exists before, d, answer, (after ++ n2)%list.
      split; [rewrite <- app_assoc; reflexivity | exact Hrest].
Qed.

Lemma kept_or_deleted_quiet (a b : State Host.State) event :
  server b = server a -> trace b = (trace a ++ [event])%list ->
  (forall request reply, event <> Call request reply) ->
  kept_or_deleted name a b.
Proof.
  intros Hs Ht Hev. exists [event]. split; [exact Ht |].
  intros Hp. left. rewrite Hs. split; [exact Hp |].
  intros request reply [Hin | []]. contradiction (Hev _ _ Hin).
Qed.

Lemma kept_or_deleted_sleep seconds : keeps (kept_or_deleted name) (sleep seconds).
Proof.
  intros st st' r. unfold sleep. destruct (seconds <? 0); intros [= <- _].
  - apply kept_or_deleted_refl.
  - apply (kept_or_deleted_quiet _ _ (Sleep seconds)); [reflexivity | reflexivity |].
    discriminate.
Qed.

Lemma kept_or_deleted_input : keeps (kept_or_deleted name) input.
Proof.
  intros st st' r. unfold input. destruct (stdin st) as [|line rest]; intros [= <- _].
  - apply kept_or_deleted_refl.
  - apply (kept_or_deleted_quiet _ _ (Input line)); [reflexivity | reflexivity |].
    discriminate.
Qed.

(** one request of those [create_branch] sends *)
Lemma kept_or_deleted_request method url params payload :
  method = GET
  \/ (method = DELETE /\ url = branch_url name)
  \/ (method = POST /\ url = branches_url /\ params = []
      /\ exists ref, payload = GitLabHandler.branch_payload name ref) ->
  keeps (kept_or_deleted name)
        (GitLabHandler._make_request Host.serve method url params payload).
Proof.
  intros Hkind st st' r. rewrite make_request_run.
  set (request := mkRequest method url params payload).
  set (reply := snd (Host.serve (server st) request)).
  set (st1 := record _ _).
  assert (Hs1 : server st1 = fst (Host.serve (server st) request)) by reflexivity.
  intros [= <- _]. exists [Call request reply]. split; [reflexivity |].
  intros Hp. rewrite Hs1.
  assert (Hone : (Py.method request = POST -> failed reply = true) ->
                 refused [Call request reply]).
  { intros HP q a [[= <- <-] | []]. exact HP. }
  destruct (serve_effect (server st) request) as [_ [[Hb Hf] | [Hb Hr]]].
  - left. rewrite Hb. split; [exact Hp |].
    apply Hone.
    intros _. exact Hf.
  - fold reply in Hr.
    destruct Hkind as [-> | [[-> ->] | [-> [-> [-> [ref ->]]]]]].
    + left. rewrite Hb, respond_get by reflexivity. split; [exact Hp |].
      apply Hone.
      discriminate.
    + destruct (failed reply) eqn:Hf.
      * left. rewrite Hb, respond_failed by (rewrite <- Hr; exact Hf).
        split; [exact Hp |].
        apply Hone.
        discriminate.
      * right. exists [], request, reply, [].
        split; [reflexivity |]. split; [apply String.eqb_refl |].
        split; [exact Hf | intros q a []].
    + destruct (respond_create (Host.branches (server st)) (Host.project (server st))
                               name ref) as [[Hsame Hfail] | [r0 [c [_ [Habsent _]]]]].
      * left. fold request in Hsame, Hfail. rewrite Hb, Hsame. split; [exact Hp |].
        apply Hone.
        intros _. rewrite Hr. exact Hfail.
      * contradiction (Hp Habsent).
Qed.

Lemma kept_or_deleted_call method url params payload :
  method = GET
  \/ (method = DELETE /\ url = branch_url name)
  \/ (method = POST /\ url = branches_url /\ params = []
      /\ exists ref, payload = GitLabHandler.branch_payload name ref) ->
  keeps (kept_or_deleted name)
        (GitLabHandler._simple_retry max_retries
           (GitLabHandler._make_request Host.serve method url params payload)).
Proof.
  intros Hkind. apply keeps_simple_retry.
  - exact kept_or_deleted_refl.
  - exact kept_or_deleted_trans.
  - exact kept_or_deleted_sleep.
  - apply kept_or_deleted_request. exact Hkind.
Qed.

Lemma kept_or_deleted_get_default_branch :
  keeps (kept_or_deleted name) (GitLabHandler.get_default_branch Host.serve max_retries).
Proof.
  apply keeps_get_default_branch.
  - exact kept_or_deleted_refl.
  - exact kept_or_deleted_trans.
  - intros v st st' r [= <- _]. apply kept_or_deleted_same; reflexivity.
  - intros v st st' r [= <- _]. apply kept_or_deleted_same; reflexivity.
  - apply kept_or_deleted_call. left. reflexivity.
Qed.

(** Over a run of [create_branch], a branch of that name that was on the
    host is still there, and then no creation went through, or it was
    deleted before any creation went through. *)
Lemma kept_or_deleted_create_branch_depth depth ref :
  keeps (kept_or_deleted name)
        (GitLabHandler.create_branch_depth Host.serve max_retries depth name ref).
Proof.
  apply keeps_create_branch_depth.
  - exact kept_or_deleted_refl.
  - exact kept_or_deleted_trans.
  - exact kept_or_deleted_input.
  - exact kept_or_deleted_get_default_branch.
  - apply kept_or_deleted_call. left. reflexivity.
  - apply kept_or_deleted_call. right. left. split; reflexivity.
  - intros r. apply kept_or_deleted_call. right. right.
    split; [reflexivity |]. split; [reflexivity |]. split; [reflexivity |].
    exists r. reflexivity.
Qed.

(** a creation that went through comes after the deletion *)
Lemma creation_after_deletion events creation reply :
  deleted_first name events ->
  In (Call creation reply) events ->
  method creation = POST -> failed reply = false ->
  exists before deletion answer between after,
    events = (before ++ Call deletion answer
                     :: between ++ Call creation reply :: after)%list
    /\ deletes name deletion = true
    /\ failed answer = false
    /\ refused before.
Proof.
  intros [before [deletion [answer [rest [-> [Hd [Hf Hr]]]]]]] Hin Hm Hok.
  apply in_app_or in Hin. destruct Hin as [Hin | [Heq | Hin]].
  - rewrite (Hr _ _ Hin Hm) in Hok. discriminate Hok.
  - injection Heq as -> _. unfold deletes in Hd. rewrite Hm in Hd. discriminate Hd.
  - apply in_split in Hin. destruct Hin as [between [after ->]].
    exists before, deletion, answer, between, after.
    split; [reflexivity |]. split; [exact Hd |]. split; [exact Hf | exact Hr].
Qed.

End OnHost.
End RecreateOrder.


Module CreateBranchFacts.
Import Py Spec Run Frame RetryFacts BranchListFacts CreateBranchTrace CreateBranchHost
       RecreateOrder.
Local Open Scope py_scope.

Section Client.
Variable max_retries : Z.
Variable name : string.

Lemma sticky_branch_exists :
  keeps (@sticky Host.State)
        (GitLabHandler.branch_exists Host.serve max_retries name).
Proof.
  apply keeps_branch_exists;
    [apply sticky_refl | apply sticky_trans | apply sticky_call].
Qed.

Lemma sticky_confirm_replace :
  keeps (@sticky Host.State)
        (GitLabHandler.confirm_replace Host.serve max_retries name).
Proof.
  apply keeps_confirm_replace;
    [apply sticky_refl | apply sticky_trans | apply sticky_input
    | apply sticky_call | apply sticky_call].
Qed.

(** When [create_branch] answers [True], the host holds one branch of
    that name, at the commit of the ref asked for, or of the memoised
    default branch when no ref was asked for or the host answered 400 to
    the creation from the ref asked for; and the creation from that
    origin is in the trace with an answer that is no error. *)
Lemma create_branch_leaves_one_branch depth :
  forall ref (st st' : State Host.State),
    GitLabHandler.create_branch_depth Host.serve max_retries depth name ref st
    = (st', Ok true) ->
    forall new,
      trace st' = (trace st ++ new)%list ->
      exists from commit,
        from <> name
        /\ (ref = JStr from
            \/ (_default_branch st' = JStr from
                /\ (ref = JNull
                    \/ exists reply,
                         In (Call (mkRequest POST branches_url []
                                     (GitLabHandler.branch_payload name ref)) reply)
                            new
                         /\ reply_result reply = Raise (HTTPError 400))))
        /\ Host.commit_of from (Host.branches (server st)) = Some commit
        /\ Host.commit_of name (Host.branches (server st')) = Some commit
        /\ Host.count name (Host.branches (server st')) = 1%nat
        /\ exists reply,
             In (Call (mkRequest POST branches_url []
                         (GitLabHandler.branch_payload name (JStr from))) reply) new
             /\ failed reply = false.
Proof.
  induction depth as [|n IH]; intros ref st st';
    cbn [GitLabHandler.create_branch_depth]; [discriminate |].
  unfold bind at 1.
  destruct ((if is_none ref
             then GitLabHandler.get_default_branch Host.serve max_retries
             else ret ref) st) as [st1 [ref1 | e]] eqn:E1; [| discriminate].
  assert (O1 : only_changes name st st1).
  { destruct (is_none ref).
    - eapply only_changes_get_default_branch; exact E1.
    - injection E1 as <- _. apply only_changes_refl. }
  assert (T1 : trace_grows st st1).
  { destruct (is_none ref).
    - eapply trace_grows_get_default_branch; exact E1.
    - injection E1 as <- _. apply trace_grows_refl. }
  assert (K1 : forall from, ref1 = JStr from ->
                 ref = JStr from \/ (_default_branch st1 = JStr from /\ ref = JNull)).
  { intros from ->. destruct ref; cbn [is_none] in E1;
      try (left; injection E1 as _ <-; reflexivity).
    right. apply get_default_branch_memoises in E1.
    split; [apply (proj2 E1); [reflexivity | discriminate] | reflexivity]. }
  assert (N1 : ref = JNull \/ ref1 = ref).
  { destruct ref; cbn [is_none] in E1;
      try (right; injection E1 as _ <-; reflexivity).
    left. reflexivity. }
  unfold bind at 1.
  destruct (GitLabHandler.branch_exists Host.serve max_retries name st1)
    as [st2 [exists_ | e]] eqn:E2; [| discriminate].
  pose proof (only_changes_branch_exists max_retries name _ _ _ E2) as O2.
  pose proof (sticky_branch_exists _ _ _ E2) as S2.
  pose proof (trace_grows_branch_exists Host.serve max_retries name _ _ _ E2) as T2.
  unfold bind at 1.
  destruct ((if exists_
             then GitLabHandler.confirm_replace Host.serve max_retries name
             else ret true) st2) as [st3 [proceed | e]] eqn:E3; [| discriminate].
  assert (O3 : only_changes name st2 st3).
  { destruct exists_.
    - eapply only_changes_confirm_replace; exact E3.
    - injection E3 as <- _. apply only_changes_refl. }
  assert (S3 : sticky st2 st3).
  { destruct exists_.
    - eapply sticky_confirm_replace; exact E3.
    - injection E3 as <- _. apply sticky_refl. }
  assert (T3 : trace_grows st2 st3).
  { destruct exists_.
    - eapply trace_grows_confirm_replace; exact E3.
    - injection E3 as <- _. apply trace_grows_refl. }
  destruct proceed; [| discriminate].
  assert (O03 : only_changes name st st3).
  { eapply only_changes_trans; [exact O1 |].
    eapply only_changes_trans; [exact O2 | exact O3]. }
  assert (S13 : sticky st1 st3) by (eapply sticky_trans; [exact S2 | exact S3]).
  assert (T03 : trace_grows st st3).
  { eapply trace_grows_trans; [exact T1 |].
    eapply trace_grows_trans; [exact T2 | exact T3]. }
  unfold try_except, bind at 1.
  destruct (GitLabHandler._simple_retry _ _ st3) as [st4 rpost] eqn:E4.
  pose proof (sticky_call max_retries Host.serve _ _ _ _ _ _ _ E4) as S4.
  pose proof (only_changes_create max_retries name ref1 _ _ _ E4) as O4.
  pose proof (call_answered Host.serve max_retries _ _ _ _ _ _ _ E4) as A4.
  destruct (create_call_outcome max_retries name ref1 st3 st4 rpost E4)
    as [[e ->] | [from [commit [-> [Habsent [Hfrom Hadded]]]]]].
  - (* the creation was refused *)
    destruct e as [code | | | | | | | | |]; try discriminate.
    destruct (Z.eqb_spec code 400) as [-> |]; [| discriminate].
    destruct A4 as [A4 | [new4 [reply4 [Htrace4 [Hin4 Hres4]]]]]; [discriminate A4 |].
    unfold bind at 1.
    destruct (GitLabHandler.get_default_branch Host.serve max_retries st4)
      as [st5 [default_branch | e]] eqn:E5; [| discriminate].
    pose proof (only_changes_get_default_branch max_retries name _ _ _ E5) as O5.
    pose proof (trace_grows_get_default_branch Host.serve max_retries _ _ _ E5) as T5.
    apply get_default_branch_memoises in E5. destruct E5 as [_ M5].
    destruct (negb (py_eqb ref1 default_branch)); [| discriminate].
    intros Hrun new Hnew.
    pose proof (sticky_create_branch_depth max_retries Host.serve n name
                  default_branch _ _ _ Hrun) as S6.
    pose proof (trace_grows_create_branch_depth Host.serve max_retries name n
                  default_branch _ _ _ Hrun) as T6.
    destruct T6 as [new6 Hnew6].
    destruct (IH _ _ _ Hrun new6 Hnew6)
      as [from [commit [Hne [Hwhich [Hfrom [Hname [Hcount [reply6 [Hin6 Hok6]]]]]]]]].
    exists from, commit. split; [exact Hne |]. split; [| split; [| split; [| split]]].
    + right. split.
      * destruct Hwhich as [-> | [Hd _]]; [| exact Hd].
        assert (Hm : _default_branch st5 = JStr from)
          by (apply M5; [reflexivity | discriminate]).
        rewrite (S6 ltac:(rewrite Hm; discriminate)). exact Hm.
      * destruct N1 as [-> | ->]; [left; reflexivity | right].
        exists reply4. split; [| symmetry; exact Hres4].
        apply (event_within st st3 st4 st').
        -- exact T03.
        -- exists new4. split; [exact Htrace4 | exact Hin4].
        -- eapply trace_grows_trans; [exact T5 | exists new6; exact Hnew6].
        -- exact Hnew.
    + rewrite <- Hfrom. symmetry.
      assert (O05 : only_changes name st st5).
      { eapply only_changes_trans; [exact O03 |].
        eapply only_changes_trans; [exact O4 | exact O5]. }
      apply O05. exact Hne.
    + exact Hname.
    + exact Hcount.
    + exists reply6. split; [| exact Hok6].
      apply (event_within st st5 st' st').
      * eapply trace_grows_trans; [exact T03 |].
        eapply trace_grows_trans; [exists new4; exact Htrace4 | exact T5].
      * exists new6. split; [exact Hnew6 | exact Hin6].
      * apply trace_grows_refl.
      * exact Hnew.
  - (* the creation went through *)
    destruct rpost as [response | e].
    2:{ (* a wrapper that raised has added nothing *)
        exfalso. apply call_effect in E4. cbv zeta in E4.
        destruct E4 as [_ Hsame]. rewrite Hsame in Hadded.
        apply (f_equal (@List.length _)) in Hadded.
        rewrite length_app in Hadded. cbn in Hadded. lia. }
    destruct A4 as [A4 | [new4 [reply4 [Htrace4 [Hin4 Hres4]]]]]; [discriminate A4 |].
    intros [= <-] new Hnew.
    assert (Hne : from <> name).
    { intros ->. rewrite Habsent in Hfrom. discriminate. }
    exists from, commit. split; [exact Hne |]. split; [| split; [| split; [| split]]].
    + destruct (K1 from eq_refl) as [Hl | [Hr Hnull]]; [left; exact Hl | right].
      split; [| left; exact Hnull].
      assert (S14 : sticky st1 st4) by (eapply sticky_trans; [exact S13 | exact S4]).
      rewrite (S14 ltac:(rewrite Hr; discriminate)). exact Hr.
    + rewrite <- Hfrom. symmetry. apply O03. exact Hne.
    + rewrite Hadded. apply commit_of_app_absent. exact Habsent.
    + rewrite Hadded, count_app, (count_absent _ _ Habsent). reflexivity.
    + exists reply4. split.
      * apply (event_within st st3 st4 st4).
        -- exact T03.
        -- exists new4. split; [exact Htrace4 | exact Hin4].
        -- apply trace_grows_refl.
        -- exact Hnew.
      * unfold failed. rewrite <- Hres4. reflexivity.
Qed.

(** C6, as the code has it.  Over a run of [create_branch] on the host:
    - when the answer is [True], the host holds exactly one branch of
      that name, at the commit of an origin that is the ref asked for,
      or else the memoised default branch; the default branch is the
      origin only when no ref was asked for or the host answered 400 to
      the creation from the ref asked for; and the creation from the
      origin is in the trace with an answer that is no error;
    - no request follows a failed attempt at deleting except a new
      attempt, and when the last attempt has failed the answer is
      [False];
    - a creation request sent after the user was prompted is sent after
      a deletion of the branch that succeeded;
    - when the branch was on the host and the answer is [True], the
      branch was deleted with success, no creation went through before
      that, and the creation that went through was sent after it. *)
Theorem create_branch_delete_and_recreate ref (st : State Host.State) :
  let run := GitLabHandler.create_branch Host.serve max_retries name ref st in
  exists new,
    trace (fst run) = (trace st ++ new)%list
    /\ (snd run = Ok true ->
        exists from commit,
          from <> name
          /\ (ref = JStr from
              \/ (_default_branch (fst run) = JStr from
                  /\ (ref = JNull
                      \/ exists reply,
                           In (Call (mkRequest POST branches_url []
                                       (GitLabHandler.branch_payload name ref)) reply)
                              new
                           /\ reply_result reply = Raise (HTTPError 400))))
          /\ Host.commit_of from (Host.branches (server st)) = Some commit
          /\ Host.commit_of name (Host.branches (server (fst run))) = Some commit
          /\ Host.count name (Host.branches (server (fst run))) = 1%nat
          /\ exists reply,
               In (Call (mkRequest POST branches_url []
                           (GitLabHandler.branch_payload name (JStr from))) reply) new
               /\ failed reply = false)
    /\ (exists blocked,
           guarded false st (fst run) blocked
           /\ (blocked = true -> snd run = Ok false))
    /\ (forall before request reply after,
           new = (before ++ Call request reply :: after)%list ->
           method request = POST ->
           (exists line, In (Input line) before) ->
           exists deletion answer,
             In (Call deletion answer) before
             /\ deletes name deletion = true
             /\ failed answer = false)
    /\ (Host.commit_of name (Host.branches (server st)) <> None ->
        snd run = Ok true ->
        exists before deletion answer between creation reply after,
          new = (before ++ Call deletion answer
                        :: between ++ Call creation reply :: after)%list
          /\ deletes name deletion = true
          /\ failed answer = false
          /\ method creation = POST
          /\ url creation = branches_url
          /\ failed reply = false
          /\ refused before).
Proof.
  cbv zeta. unfold GitLabHandler.create_branch.
  destruct (GitLabHandler.create_branch_depth Host.serve max_retries
              recursion_limit name ref st) as [st' r] eqn:E.
  cbn [fst snd].
  destruct (create_branch_confirmed Host.serve max_retries name _ _ _ _ _
              false false (or_introl eq_refl) E)
    as [asked' [deleted' [new [Hnew Hguards]]]].
  exists new. split; [exact Hnew |]. split; [| split; [| split]].
  - intros ->. eapply create_branch_leaves_one_branch; [exact E | exact Hnew].
  - eapply create_branch_guarded. exact E.
  - intros before request reply after -> Hm Hprompt.
    destruct (confirmation_guards_sound name before _ _ _ _ _ _ Hguards Hm
                (or_intror Hprompt)) as [Hd | Hd]; [discriminate Hd | exact Hd].
  - intros Hthere ->.
    destruct (create_branch_leaves_one_branch _ _ _ _ E new Hnew)
      as [from [commit [_ [_ [_ [_ [_ [reply [Hin Hok]]]]]]]]].
    destruct (kept_or_deleted_create_branch_depth max_retries name _ _ _ _ _ E)
      as [new' [Hnew' Hkept]].
    rewrite Hnew in Hnew'. apply app_inv_head in Hnew'. subst new'.
    destruct (Hkept Hthere) as [[_ Hrefused] | Hdeleted].
    + rewrite (Hrefused _ _ Hin eq_refl) in Hok. discriminate Hok.
    + destruct (creation_after_deletion name new _ _ Hdeleted Hin eq_refl Hok)
        as [before [deletion [answer [between [after [Heq [Hd [Hf Hr]]]]]]]].
      exists before, deletion, answer, between,
        (mkRequest POST branches_url []
                   (GitLabHandler.branch_payload name (JStr from))),
        reply, after.
      split; [exact Heq |]. split; [exact Hd |]. split; [exact Hf |].
      split; [reflexivity |]. split; [reflexivity |]. split; [exact Hok | exact Hr].
Qed.

End Client.

Lemma create_branch_delete_and_recreate_witness :
  Host.commit_of "feature/pipeops" (Host.branches Sample.leftover) = Some "c9"
  /\ snd (GitLabHandler.create_branch Host.serve 3 "feature/pipeops"
                (JStr "develop") (Host.start Sample.leftover ["1"])) = Ok true
  /\ (exists commit,
         Host.commit_of "develop" (Host.branches Sample.leftover) = Some commit
         /\ Host.commit_of "feature/pipeops" (Host.branches (server (fst (GitLabHandler.create_branch Host.serve 3 "feature/pipeops"
                (JStr "develop") (Host.start Sample.leftover ["1"])))))
            = Some commit
         /\ Host.count "feature/pipeops" (Host.branches (server (fst (GitLabHandler.create_branch Host.serve 3 "feature/pipeops"
                (JStr "develop") (Host.start Sample.leftover ["1"]))))) = 1%nat)
  /\ (exists before deletion answer between creation reply after,
         trace (fst (GitLabHandler.create_branch Host.serve 3 "feature/pipeops"
                (JStr "develop") (Host.start Sample.leftover ["1"])))
         = (before ++ Call deletion answer
                   :: between ++ Call creation reply :: after)%list
         /\ deletes "feature/pipeops" deletion = true
         /\ failed answer = false
         /\ method creation = POST
         /\ url creation = branches_url
         /\ failed reply = false
         /\ refused before).
Proof.
  pose proof (create_branch_delete_and_recreate 3 "feature/pipeops" (JStr "develop")
                (Host.start Sample.leftover ["1"])) as H.
  cbv zeta in H. destruct H as [new [Hnew [Horigin [_ [_ Horder]]]]].
  assert (Hrun : snd (GitLabHandler.create_branch Host.serve 3 "feature/pipeops"
                (JStr "develop") (Host.start Sample.leftover ["1"])) = Ok true) by (vm_compute; reflexivity).
  split; [reflexivity |]. split; [exact Hrun |]. split.
  - destruct (Horigin Hrun) as [from [commit [_ [Hwhich [Hfrom [Hname [Hcount _]]]]]]].
    assert (Hdevelop : from = "develop").
    { destruct Hwhich as [Hl | [Hd _]]; [injection Hl as <-; reflexivity |].
      vm_compute in Hd. discriminate Hd. }
    subst from. exists commit.
    split; [exact Hfrom |]. split; [exact Hname | exact Hcount].
  - destruct (Horder ltac:(vm_compute; discriminate) Hrun)
      as [before [deletion [answer [between [creation [reply [after [Heq Hrest]]]]]]]].
    exists before, deletion, answer, between, creation, reply, after.
    split; [rewrite Hnew; exact Heq | exact Hrest].
Defined.

(** C6 as stated fails.  The branch feature/pipeops exists; the user
    confirms, the branch is deleted, and the creation from the ref asked
    for, "release", is refused with 400 because no such ref exists; the
    client falls back to the default branch.  [create_branch] answers
    [True], and the one branch of that name points at the commit of "main",
    not at the ref asked for. *)
Lemma create_branch_delete_and_recreate_counterexample :
  let run := GitLabHandler.create_branch Host.serve 3 "feature/pipeops"
               (JStr "release") (Host.start Sample.leftover ["1"]) in
  Host.commit_of "feature/pipeops" (Host.branches Sample.leftover) = Some "c9"
  /\ In (Call (mkRequest DELETE (branch_url "feature/pipeops") [] JNull)
              (Answers 204 None))
        (trace (fst run))
  /\ snd run = Ok true
  /\ Host.commit_of "release" (Host.branches Sample.leftover) = None
  /\ Host.commit_of "feature/pipeops" (Host.branches (server (fst run)))
     = Host.commit_of "main" (Host.branches Sample.leftover)
  /\ Host.commit_of "feature/pipeops" (Host.branches (server (fst run)))
     <> Host.commit_of "release" (Host.branches Sample.leftover).
Proof.
  cbv zeta. split; [reflexivity |]. split.
  - vm_compute. tauto.
  - split; [vm_compute; reflexivity |]. split; [reflexivity |].
    split; [vm_compute; reflexivity | vm_compute; discriminate].
Qed.

End CreateBranchFacts.

(** ** Type detection *)

Module DetectTypeFacts.
Import ProjectAnalyzer PyFacts.

Lemma any_indicator_In indicators files_lower :
  any_indicator indicators files_lower = true
  <-> exists indicator, In indicator indicators /\ In indicator files_lower.
Proof.
  unfold any_indicator. rewrite existsb_exists.
  split; intros [i [Hi Hc]]; exists i; (split; [exact Hi |]);
    apply contains_In; exact Hc.
Qed.

Lemma any_indicator_lower indicators files :
  any_indicator indicators (map PyStr.lower files) = true
  <-> exists file, In file files /\ In (PyStr.lower file) indicators.
Proof.
  rewrite any_indicator_In. split.
  - intros [i [Hi Hf]]. apply in_map_iff in Hf. destruct Hf as [file [<- Hf]].
    exists file. split; assumption.
  - intros [file [Hf Hi]]. exists (PyStr.lower file). split; [exact Hi |].
    apply in_map. exact Hf.
Qed.

Lemma detect_type_cases files language :
  let service := any_indicator service_indicators (map PyStr.lower files) in
  let package := any_indicator package_indicators (map PyStr.lower files) in
  _detect_type files language
  = if service then "service" else if package then "package" else "unknown".
Proof.
  cbv zeta. unfold _detect_type.
  destruct (any_indicator service_indicators _);
    destruct (any_indicator package_indicators _); cbn [andb];
    try reflexivity.
  destruct (PyStr.contains _ _); reflexivity.
Qed.

(** X1. A listing is a service exactly when one of its paths, in lower
    case, is a service indicator, whatever else it holds; it is a package
    exactly when no path is a service indicator and one is a package
    indicator.  The language plays no part. *)
Theorem detect_type_service_before_package files language :
  (_detect_type files language = "service"
   <-> exists file, In file files /\ In (PyStr.lower file) service_indicators)
  /\ (_detect_type files language = "package"
      <-> (forall file, In file files ->
                        ~ In (PyStr.lower file) service_indicators)
          /\ exists file, In file files
                          /\ In (PyStr.lower file) package_indicators).
Proof.
  rewrite detect_type_cases. cbv zeta.
  rewrite <- !any_indicator_lower.
  destruct (any_indicator service_indicators _) eqn:Hs.
  - split; [split; trivial |].
    split; [discriminate |].
    intros [Hno _]. exfalso.
    apply any_indicator_lower in Hs. destruct Hs as [file [Hf Hi]].
    exact (Hno file Hf Hi).
  - assert (Hno : forall file, In file files ->
                               ~ In (PyStr.lower file) service_indicators).
    { intros file Hf Hi.
      assert (H : any_indicator service_indicators (map PyStr.lower files) = true)
        by (apply any_indicator_lower; exists file; split; assumption).
      rewrite H in Hs. discriminate. }
    destruct (any_indicator package_indicators _) eqn:Hp.
    + split; [split; discriminate |].
      split; [intros _; split; [exact Hno | reflexivity] | reflexivity].
    + split; [split; discriminate |].
      split; [discriminate | intros [_ H]; discriminate H].
Qed.

Lemma count_indicators_zero indicators files_lower :
  count_indicators indicators files_lower = 0%nat ->
  forall indicator, In indicator indicators ->
                    PyStr.contains indicator files_lower = false.
Proof.
  unfold count_indicators. intros H indicator Hi.
  apply length_zero_iff_nil in H.
  destruct (PyStr.contains indicator files_lower) eqn:Hc; [| reflexivity].
  assert (Hin : In indicator
                   (filter (fun i => PyStr.contains i files_lower) indicators))
    by (apply filter_In; split; assumption).
  rewrite H in Hin. destruct Hin.
Qed.

(** X2. The two detections together: a listing whose language is
    "unknown" is never typed "package", since every package indicator is
    also an indicator of one of the two languages. *)
Theorem unknown_language_is_never_a_package files language :
  _detect_language files = "unknown" ->
  _detect_type files language <> "package".
Proof.
  intros Hlang Htype.
  destruct (ProjectAnalyzerFacts.detect_language_cases files)
    as [[H _] | [[H _] | [_ [Hp Hn]]]];
    [rewrite H in Hlang; discriminate | rewrite H in Hlang; discriminate |].
  unfold python_count in Hp. unfold nodejs_count in Hn.
  assert (Hpy : count_indicators python_indicators (map PyStr.lower files) = 0%nat)
    by lia.
  assert (Hjs : count_indicators nodejs_indicators (map PyStr.lower files) = 0%nat)
    by lia.
  rewrite detect_type_cases in Htype. cbv zeta in Htype.
  destruct (any_indicator service_indicators _); [discriminate |].
  destruct (any_indicator package_indicators _) eqn:Hpk; [| discriminate].
  apply any_indicator_In in Hpk. destruct Hpk as [i [Hi Hf]].
  apply contains_In in Hf.
  cbn in Hi. destruct Hi as [<- | [<- | [<- | []]]].
  - rewrite (count_indicators_zero _ _ Hpy "setup.py") in Hf;
      [discriminate | cbn; tauto].
  - rewrite (count_indicators_zero _ _ Hpy "pyproject.toml") in Hf;
      [discriminate | cbn; tauto].
  - rewrite (count_indicators_zero _ _ Hjs "package.json") in Hf;
      [discriminate | cbn; tauto].
Qed.

Lemma unknown_language_is_never_a_package_witness :
  _detect_language ["Dockerfile"; "README.md"] = "unknown"
  /\ _detect_type ["Dockerfile"; "README.md"] "unknown" = "service"
  /\ _detect_type ["Dockerfile"; "README.md"] "unknown" <> "package".
Proof.
  split; [reflexivity |]. split; [reflexivity |].
  apply (unknown_language_is_never_a_package ["Dockerfile"; "README.md"] "unknown").
  reflexivity.
Defined.

End DetectTypeFacts.

(** ** The generator: branches, templates and context *)

Module GeneratorFacts.
Import Py Spec PyFacts.
Import PipelineGenerator.

(** X3. The source branch chosen for the new branch is one of the
    available branches whenever there is one; with no branch known it is
    "main", whatever the default branch of the project. *)
Theorem best_source_branch_is_available project_data config :
  (available_branches project_data <> [] ->
   In (_get_best_source_branch project_data config)
      (available_branches project_data))
  /\ (available_branches project_data = [] ->
      _get_best_source_branch project_data config = "main").
Proof.
  unfold _get_best_source_branch. split.
  - intros Hne.
    destruct (negb (String.eqb (analysis_branch project_data) "")
              && PyStr.contains (analysis_branch project_data)
                                (available_branches project_data))%bool eqn:Ha.
    + apply andb_true_iff in Ha. apply contains_In. apply Ha.
    + destruct (PyStr.contains (default_branch project_data)
                               (available_branches project_data)) eqn:Hd.
      * apply contains_In. exact Hd.
      * destruct (available_branches project_data) as [|first rest];
          [contradiction Hne; reflexivity | left; reflexivity].
  - intros ->. cbn [PyStr.contains]. rewrite andb_false_r. reflexivity.
Qed.

Lemma best_source_branch_is_available_witness :
  In (_get_best_source_branch Sample.project_data Sample.config)
     (available_branches Sample.project_data)
  /\ _get_best_source_branch
       (mkProjectData "shop" "python" "python_service" false [] "trunk" [] "trunk")
       Sample.config = "main".
Proof.
  split.
  - apply (proj1 (best_source_branch_is_available Sample.project_data Sample.config)).
    discriminate.
  - apply (proj2 (best_source_branch_is_available
                    (mkProjectData "shop" "python" "python_service" false []
                                   "trunk" [] "trunk")
                    Sample.config)).
    reflexivity.
Defined.

(** X4. The target of the merge request: an analysis branch named
    develop or dev is the target even when it is not among the available
    branches; else develop, when available, comes before dev and the
    default branch; and the target is always the analysis branch, an
    available branch or the default branch. *)
Theorem best_target_branch_choice project_data :
  let target := _get_best_target_branch project_data in
  (In (analysis_branch project_data) ["develop"; "dev"] ->
   target = analysis_branch project_data)
  /\ (~ In (analysis_branch project_data) ["develop"; "dev"] ->
      In "develop" (available_branches project_data) ->
      target = "develop")
  /\ (target = analysis_branch project_data
      \/ In target (available_branches project_data)
      \/ target = default_branch project_data).
Proof.
  cbv zeta. unfold _get_best_target_branch.
  destruct (PyStr.contains (analysis_branch project_data) ["develop"; "dev"]) eqn:Ha.
  - split; [reflexivity |]. split; [| left; reflexivity].
    intros Hno. apply contains_In in Ha. contradiction.
  - split; [| split].
    + intros Hin. apply contains_In in Hin. rewrite Hin in Ha. discriminate.
    + intros _ Hdev. apply contains_In in Hdev. cbn [find]. rewrite Hdev. reflexivity.
    + destruct (find _ _) as [target |] eqn:Hf; [| right; right; reflexivity].
      apply find_some in Hf. destruct Hf as [_ Hc].
      right. left. apply contains_In. exact Hc.
Qed.

Lemma best_target_branch_choice_witness :
  _get_best_target_branch
    (mkProjectData "shop" "python" "python_service" false [] "main" ["main"] "dev")
  = "dev"
  /\ _get_best_target_branch
       (mkProjectData "shop" "python" "python_service" false []
                      "main" ["main"; "dev"; "develop"] "main")
     = "develop".
Proof.
  split.
  - apply (proj1 (best_target_branch_choice
                    (mkProjectData "shop" "python" "python_service" false []
                                   "main" ["main"] "dev"))).
    cbn. tauto.
  - apply (proj1 (proj2 (best_target_branch_choice
                    (mkProjectData "shop" "python" "python_service" false []
                                   "main" ["main"; "dev"; "develop"] "main")))).
    + cbn. intros [H | [H | []]]; discriminate H.
    + cbn. tauto.
Defined.

(** *** Rendering *)

Lemma append_assoc (a b c : string) : (a ++ b) ++ c = a ++ b ++ c.
Proof. induction a as [|x a IH]; [reflexivity | cbn; rewrite IH; reflexivity]. Qed.

Lemma startswith_app needle rest : PyStr.startswith needle (needle ++ rest) = true.
Proof.
  induction needle as [|c needle IH]; [reflexivity |].
  cbn. rewrite Ascii.eqb_refl. exact IH.
Qed.

Lemma has_substring_here needle s :
  PyStr.startswith needle s = true -> PyStr.has_substring needle s = true.
Proof. intros H. destruct s; cbn in *; rewrite H; reflexivity. Qed.

Lemma has_substring_app before needle rest :
  PyStr.has_substring needle (before ++ needle ++ rest) = true.
Proof.
  induction before as [|c before IH].
  - cbn [append]. apply has_substring_here. apply startswith_app.
  - cbn [append PyStr.has_substring]. rewrite IH. apply orb_true_r.
Qed.

Lemma replace_from_skip old new skipped rest :
  PyStr.replace_from old new (String.length skipped) (skipped ++ rest)
  = PyStr.replace_from old new 0 rest.
Proof.
  induction skipped as [|c skipped IH]; [reflexivity |].
  cbn [String.length append PyStr.replace_from]. exact IH.
Qed.

Lemma replace_from_other a old new text :
  (forall c, In c (list_ascii_of_string text) -> c <> a) ->
  PyStr.replace_from (String a old) new 0 text = text.
Proof.
  induction text as [|c text IH]; intros Hno; [reflexivity |].
  cbn [PyStr.replace_from PyStr.startswith].
  destruct (Ascii.eqb_spec a c) as [-> | _].
  - exfalso. apply (Hno c); [left; reflexivity | reflexivity].
  - cbn [andb]. rewrite IH; [reflexivity |].
    intros c' Hc'. apply Hno. right. exact Hc'.
Qed.

Lemma replace_between a old new before after :
  (forall c, In c (list_ascii_of_string before) -> c <> a) ->
  (forall c, In c (list_ascii_of_string after) -> c <> a) ->
  PyStr.replace (String a old) new (before ++ String a old ++ after)
  = before ++ new ++ after.
Proof.
  intros Hb Ha. unfold PyStr.replace.
  induction before as [|c before IH].
  - cbn [append]. cbn [PyStr.replace_from].
    change (String a (old ++ after)) with (String a old ++ after).
    rewrite startswith_app. cbn [String.length].
    rewrite Nat.sub_succ, Nat.sub_0_r, replace_from_skip, replace_from_other;
      [reflexivity | exact Ha].
  - cbn [append PyStr.replace_from PyStr.startswith].
    destruct (Ascii.eqb_spec a c) as [-> | _].
    + exfalso. apply (Hb c); [left; reflexivity | reflexivity].
    + cbn [andb]. f_equal. apply IH.
      intros c' Hc'. apply Hb. right. exact Hc'.
Qed.

(** X5. A template that holds none of the placeholders of the context is
    rendered as it is. *)
Theorem render_template_without_placeholders template_str context :
  (forall key value,
      In (key, value) context ->
      PyStr.has_substring ("{{" ++ key ++ "}}") template_str = false) ->
  _render_template template_str context = template_str.
Proof.
  unfold _render_template.
  induction context as [|[key value] context IH]; intros Hno; [reflexivity |].
  cbn [fold_left fst snd].
  rewrite (Hno key value); [| left; reflexivity].
  apply IH. intros k v Hin. apply (Hno k v). right. exact Hin.
Qed.

Lemma render_template_without_placeholders_witness :
  _render_template "FROM python:3" [("language", "python"); ("project_name", "shop")]
  = "FROM python:3".
Proof.
  apply render_template_without_placeholders.
  intros key value [[= <- <-] | [[= <- <-] | []]]; reflexivity.
Defined.

(** X6. A placeholder standing between two texts without an opening
    brace is replaced by the value of its key, and the two texts are
    kept. *)
Theorem render_template_replaces_placeholder before after key value :
  plain before -> plain after ->
  _render_template (before ++ "{{" ++ key ++ "}}" ++ after) [(key, value)]
  = before ++ value ++ after.
Proof.
  intros Hb Ha. unfold _render_template. cbn [fold_left fst snd].
  change ("{{" ++ key ++ "}}") with (String "{" (String "{" (key ++ "}}"))).
  assert (E : before ++ "{{" ++ key ++ "}}" ++ after
              = before ++ String "{" (String "{" (key ++ "}}")) ++ after).
  { cbn [append]. rewrite append_assoc. reflexivity. }
  rewrite E. rewrite has_substring_app.
  apply replace_between; assumption.
Qed.

Lemma render_template_replaces_placeholder_witness :
  _render_template "# pipeline of {{project_name}}, built daily"
                   [("project_name", "shop")]
  = "# pipeline of shop, built daily".
Proof.
  apply (render_template_replaces_placeholder
           "# pipeline of " ", built daily" "project_name" "shop");
    intros c Hc; cbn in Hc;
    repeat (destruct Hc as [<- | Hc]; [discriminate |]); destruct Hc.
Defined.

End GeneratorFacts.

(** ** The generator: the context and the early exits *)

Module ContextFacts.
Import Py Spec PyFacts GeneratorFacts.
Import PipelineGenerator.

Lemma append_empty (a : string) : a ++ "" = a.
Proof. induction a as [|x a IH]; [reflexivity | cbn; rewrite IH; reflexivity]. Qed.

Lemma split_on_simple sep acc text :
  (forall c, In c (list_ascii_of_string text) -> c <> sep) ->
  PyStr.split_on sep acc text = [acc ++ text].
Proof.
  revert acc. induction text as [|c text IH]; intros acc Hno.
  - cbn. rewrite append_empty. reflexivity.
  - cbn [PyStr.split_on].
    destruct (Ascii.eqb_spec c sep) as [-> | _].
    + exfalso. apply (Hno sep); [left; reflexivity | reflexivity].
    + rewrite IH; [| intros c' Hc'; apply Hno; right; exact Hc'].
      rewrite append_assoc. reflexivity.
Qed.

Lemma split_on_first sep acc first rest :
  (forall c, In c (list_ascii_of_string first) -> c <> sep) ->
  PyStr.split_on sep acc (first ++ String sep rest)
  = (acc ++ first) :: PyStr.split_on sep "" rest.
Proof.
  revert acc. induction first as [|c first IH]; intros acc Hno.
  - cbn [append PyStr.split_on]. rewrite Ascii.eqb_refl, append_empty. reflexivity.
  - cbn [append PyStr.split_on].
    destruct (Ascii.eqb_spec c sep) as [-> | _].
    + exfalso. apply (Hno sep); [left; reflexivity | reflexivity].
    + rewrite IH; [| intros c' Hc'; apply Hno; right; exact Hc'].
      rewrite append_assoc. reflexivity.
Qed.

Lemma simple_name_has_no_underscore text :
  simple_name text -> PyStr.has_substring "_" text = false.
Proof.
  induction text as [|c text IH]; intros Hno; [reflexivity |].
  cbn [PyStr.has_substring PyStr.startswith].
  destruct (Ascii.eqb_spec "_"%char c) as [<- | _].
  - exfalso. apply (Hno "_"%char); [left; reflexivity | reflexivity].
  - cbn [andb orb]. apply IH. intros c' Hc'. apply Hno. right. exact Hc'.
Qed.

Section Generator.
Context {S : Type}.
Variable serve : S -> Request -> S * Reply.
Variable file_system : string -> option (Result string).
Variable creation_date : string.
Variable creation_year : Z.

(** X7. The pipeline type the command line builds as
    "<language>_<type>" from two names without underscore is taken
    apart again by the context: [original_language] and
    [original_type] are the two names.  A type without underscore
    gives neither key. *)
Theorem prepare_context_splits_pipeline_type project_data :
  (forall language_name type_name,
      type project_data = language_name ++ "_" ++ type_name ->
      simple_name language_name ->
      simple_name type_name ->
      let context := _prepare_context creation_date creation_year project_data in
      assoc "pipeline_type" context = Some (language_name ++ "_" ++ type_name)
      /\ assoc "original_language" context = Some language_name
      /\ assoc "original_type" context = Some type_name)
  /\ (simple_name (type project_data) ->
      let context := _prepare_context creation_date creation_year project_data in
      assoc "pipeline_type" context = Some (type project_data)
      /\ assoc "original_language" context = None
      /\ assoc "original_type" context = None).
Proof.
  split.
  - intros language_name type_name Htype Hl Ht. cbv zeta.
    unfold _prepare_context. rewrite Htype.
    rewrite (has_substring_app language_name "_" type_name).
    unfold PyStr.split.
    change (language_name ++ "_" ++ type_name)
      with (language_name ++ String "_" type_name).
    rewrite split_on_first by exact Hl.
    rewrite split_on_simple by exact Ht.
    cbn. repeat split; reflexivity.
  - intros Hsimple. cbv zeta. unfold _prepare_context.
    rewrite simple_name_has_no_underscore by exact Hsimple.
    cbn. repeat split; reflexivity.
Qed.

(** X8. When the pipeline type is not configured, or is configured
    with no file to create, [generate_and_commit] gives no result, and
    it finds out only after the branch has been created: the run ends
    in the state in which [create_branch] has left the host. *)
Theorem generate_and_commit_without_actions project_data config (st : State S) :
  (forall pipeline_config,
      assoc (type project_data) (pipelines config) = Some pipeline_config ->
      files_to_create pipeline_config = []) ->
  let new_branch := get_or "feature" (_get_branch_names config) "" in
  let source_branch := _get_best_source_branch project_data config in
  generate_and_commit serve file_system creation_date creation_year
                      project_data config st
  = (fst (GitLabHandler.create_branch serve max_retries new_branch
            (JStr source_branch) st),
     Ok JNull).
Proof.
  intros Hfiles. cbv zeta. unfold generate_and_commit. cbv zeta.
  unfold try_except. unfold bind at 1.
  destruct (GitLabHandler.create_branch serve max_retries _ _ st)
    as [st1 [[|] | e]]; cbn [negb fst]; try reflexivity.
  unfold bind at 1. unfold _create_pipeline_files.
  destruct (assoc (type project_data) (pipelines config)) as [pipeline_config |] eqn:E.
  - rewrite (Hfiles pipeline_config eq_refl). cbn. reflexivity.
  - reflexivity.
Qed.

End Generator.

Lemma prepare_context_splits_pipeline_type_witness :
  assoc "original_language" (_prepare_context "2024-05-01" 2024 Sample.project_data)
  = Some "python"
  /\ assoc "original_type" (_prepare_context "2024-05-01" 2024 Sample.project_data)
     = Some "service".
Proof.
  apply (proj1 (prepare_context_splits_pipeline_type "2024-05-01" 2024
                  Sample.project_data) "python" "service").
  - reflexivity.
  - intros c Hc; cbn in Hc;
      repeat (destruct Hc as [<- | Hc]; [discriminate |]); destruct Hc.
  - intros c Hc; cbn in Hc;
      repeat (destruct Hc as [<- | Hc]; [discriminate |]); destruct Hc.
Defined.

Lemma generate_and_commit_without_actions_witness :
  let config := mkConfig [] [("python_service",
                              mkPipelineConfig "templates/python_service" [] [])] in
  let st := Script.start [Answers 404 None; Answers 404 None;
                          Answers 404 None; Answers 201 None] [] in
  generate_and_commit Script.serve Sample.file_system "2024-05-01" 2024
                      Sample.project_data config st
  = (fst (GitLabHandler.create_branch Script.serve max_retries "feature/pipeops"
            (JStr "develop") st),
     Ok JNull).
Proof.
  cbv zeta.
  apply (generate_and_commit_without_actions Script.serve Sample.file_system
           "2024-05-01" 2024 Sample.project_data
           (mkConfig [] [("python_service",
                          mkPipelineConfig "templates/python_service" [] [])])).
  intros pipeline_config H. injection H as <-. reflexivity.
Defined.

End ContextFacts.

(** ** The client in front of a host that cannot be reached *)

Module UnreachableFacts.
Import Py Spec Run Frame RetryFacts FileListFacts PyFacts.
Local Open Scope py_scope.

Section Client.
Context {S : Type}.
Variable serve : S -> Request -> S * Reply.
Variable max_retries : Z.
Hypothesis Hdown : unreachable serve.

Lemma make_request_unreachable method url params payload (st : State S) :
  exists e,
    snd (GitLabHandler._make_request serve method url params payload st) = Raise e.
Proof.
  rewrite make_request_run. cbn [snd].
  specialize (Hdown (server st) (mkRequest method url params payload)).
  unfold failed in Hdown. destruct (reply_result _) as [r | e]; [discriminate |].
  exists e. reflexivity.
Qed.

Lemma retry_loop_unreachable method url params payload remaining :
  forall attempt last_error (st : State S),
  exists st' e,
    GitLabHandler.retry_loop max_retries
      (GitLabHandler._make_request serve method url params payload)
      remaining attempt last_error st = (st', Raise e).
Proof.
  induction remaining as [|n IH]; intros attempt last_error st;
    cbn [GitLabHandler.retry_loop].
  - destruct last_error as [e |]; unfold raise; eauto.
  - unfold try_except.
    destruct (make_request_unreachable method url params payload st) as [e He].
    destruct (GitLabHandler._make_request serve method url params payload st)
      as [st1 r]. cbn [snd] in He. subst r.
    unfold bind.
    destruct ((if attempt <? max_retries - 1
               then sleep ((attempt + 1) * 2) else ret tt) st1)
      as [st2 [[] | e2]]; [apply IH | eauto].
Qed.

(** every call through the retry wrapper raises, and leaves what is
    memoised alone *)
Lemma call_unreachable method url params payload (st : State S) :
  exists st' e,
    GitLabHandler._simple_retry max_retries
      (GitLabHandler._make_request serve method url params payload) st
    = (st', Raise e)
    /\ same_caches st st'.
Proof.
  destruct (retry_loop_unreachable method url params payload
              (Z.to_nat max_retries) 0 None st) as [st' [e E]].
  exists st', e. split; [exact E |].
  eapply same_caches_call. exact E.
Qed.

Lemma get_project_unreachable (st : State S) :
  _project_info st = JNull ->
  exists st',
    GitLabHandler.get_project serve max_retries st = (st', Ok JNull)
    /\ same_caches st st'.
Proof.
  intros Hinfo.
  destruct (call_unreachable GET api_url [] JNull st) as [st' [e [E Hc]]].
  exists st'. split; [| exact Hc].
  unfold GitLabHandler.get_project.
  rewrite (bind_ok _ _ st st (_project_info st)) by reflexivity.
  rewrite Hinfo. cbn [is_none].
  erewrite try_raise; [reflexivity |].
  erewrite bind_raise; [reflexivity | exact E].
Qed.

Lemma default_branch_memoised (st : State S) default_branch :
  _default_branch st = JStr default_branch ->
  GitLabHandler.get_default_branch serve max_retries st
  = (st, Ok (JStr default_branch)).
Proof.
  intros H. unfold GitLabHandler.get_default_branch.
  rewrite (bind_ok _ _ st st (_default_branch st)) by reflexivity.
  rewrite H. reflexivity.
Qed.

(** the default branch the client settles on *)
Lemma get_default_branch_unreachable (st : State S) :
  default_settled st ->
  exists st' default_branch,
    GitLabHandler.get_default_branch serve max_retries st
    = (st', Ok (JStr default_branch))
    /\ _default_branch st' = JStr default_branch
    /\ (_default_branch st = JNull -> default_branch = "main").
Proof.
  intros [[Hinfo Hdef] | [d Hd]].
  - destruct (get_project_unreachable st Hinfo) as [st1 [E Hc]].
    exists (mkState (server st1) (trace st1) (ticks st1) (stdin st1)
                    (_project_info st1) (JStr "main")), "main".
    split; [| split; [reflexivity | reflexivity]].
    unfold GitLabHandler.get_default_branch.
    rewrite (bind_ok _ _ st st (_default_branch st)) by reflexivity.
    rewrite Hdef. cbn [is_none].
    rewrite (bind_ok _ _ st st1 JNull E). cbn [truthy].
    reflexivity.
  - exists st, d. split; [apply default_branch_memoised; exact Hd |].
    split; [exact Hd |]. intros Hn. rewrite Hn in Hd. discriminate.
Qed.

Lemma get_available_branches_unreachable (st : State S) :
  default_settled st ->
  exists st' default_branch,
    GitLabHandler.get_available_branches serve max_retries st
    = (st', Ok [JStr default_branch])
    /\ _default_branch st' = JStr default_branch.
Proof.
  intros Hst.
  destruct (call_unreachable GET branches_url [] JNull st) as [st1 [e [E Hc]]].
  assert (Hst1 : default_settled st1).
  { destruct Hc as [Hi Hd]. unfold default_settled. rewrite <- Hi, <- Hd. exact Hst. }
  destruct (get_default_branch_unreachable st1 Hst1) as [st2 [d [Ed [Hd _]]]].
  exists st2, d. split; [| exact Hd].
  unfold GitLabHandler.get_available_branches.
  erewrite try_raise; [| erewrite bind_raise; [reflexivity | exact E]].
  rewrite (bind_ok _ _ st1 st2 (JStr d) Ed). reflexivity.
Qed.

Lemma fetch_tree_unreachable ref (st : State S) :
  exists st' e,
    GitLabHandler.fetch_tree serve max_retries ref st = (st', Raise e)
    /\ same_caches st st'.
Proof.
  destruct (call_unreachable GET tree_url (GitLabHandler.tree_params ref) JNull st)
    as [st' [e [E Hc]]].
  exists st', e. split; [| exact Hc].
  unfold GitLabHandler.fetch_tree. erewrite bind_raise; [reflexivity | exact E].
Qed.

(** no common name is probed when the only branch known is the one
    that has just failed *)
Lemma probe_only_known branches name (st : State S) :
  GitLabHandler.probe_common_branches serve max_retries branches
    [JStr name] (JStr name) st
  = (st, Ok []).
Proof.
  induction branches as [|b rest IH]; [reflexivity |].
  cbn [GitLabHandler.probe_common_branches py_in existsb py_eqb].
  destruct (String.eqb b name); cbn [orb negb andb]; exact IH.
Qed.

(** listing the branches leaves a memoised default branch as it is *)
Lemma available_keeps_default (st st' : State S) r before after :
  GitLabHandler.get_available_branches serve max_retries st = (st', r) ->
  _default_branch st = JStr before ->
  _default_branch st' = JStr after ->
  after = before.
Proof.
  intros E Hb Ha.
  assert (Hk : keeps (@sticky S)
                 (GitLabHandler.get_available_branches serve max_retries)).
  { apply keeps_get_available_branches.
    - apply CreateBranchHost.sticky_refl.
    - apply CreateBranchHost.sticky_trans.
    - apply CreateBranchHost.sticky_get_default_branch.
    - apply CreateBranchHost.sticky_call. }
  specialize (Hk st st' _ E). unfold sticky in Hk.
  rewrite Hb, Ha in Hk.
  assert (H : JStr after = JStr before) by (apply Hk; discriminate).
  injection H as ->. reflexivity.
Qed.

Lemma get_file_list_default_unreachable depth name (st : State S) :
  _default_branch st = JStr name ->
  exists st',
    GitLabHandler.get_file_list_depth serve max_retries (Datatypes.S depth)
      (JStr name) st
    = (st', Ok [])
    /\ _default_branch st' = JStr name.
Proof.
  intros Hd. rewrite get_file_list_depth_S. cbn [is_none].
  rewrite (bind_ok _ _ st st (JStr name)) by reflexivity.
  destruct (fetch_tree_unreachable (JStr name) st) as [st1 [e [E [_ Hc]]]].
  assert (Hd1 : _default_branch st1 = JStr name) by (rewrite <- Hc; exact Hd).
  rewrite (try_raise _ _ st st1 e E).
  assert (Hgive : @ret S (list json) [] st1 = (st1, Ok [])) by reflexivity.
  destruct e as [code | | | | | | | | |];
    try (exists st1; split; [exact Hgive | exact Hd1]).
  destruct (code =? 404); [| exists st1; split; [exact Hgive | exact Hd1]].
  rewrite (bind_ok _ _ st1 st1 (JStr name) (default_branch_memoised st1 name Hd1)).
  rewrite py_eqb_str_refl. cbn [negb].
  assert (Hst1 : default_settled st1) by (right; exists name; exact Hd1).
  destruct (get_available_branches_unreachable st1 Hst1) as [st2 [d [Ea Hd2]]].
  assert (Hsame : d = name) by exact (available_keeps_default st1 st2 _ _ _ Ea Hd1 Hd2).
  subst d.
  rewrite (bind_ok _ _ st1 st2 [JStr name] Ea).
  exists st2. split; [apply probe_only_known | exact Hd2].
Qed.

Lemma get_file_list_depth_unreachable depth ref (st : State S) :
  default_settled st ->
  snd (GitLabHandler.get_file_list_depth serve max_retries
         (Datatypes.S (Datatypes.S depth)) ref st) = Ok [].
Proof.
  intros Hst. rewrite get_file_list_depth_S.
  destruct (is_none ref) eqn:Hnone.
  - destruct (get_default_branch_unreachable st Hst) as [st1 [d [Ed [Hd _]]]].
    rewrite (bind_ok _ _ st st1 (JStr d) Ed).
    destruct (get_file_list_default_unreachable (Datatypes.S depth) d st1 Hd)
      as [st2 [E _]].
    rewrite get_file_list_depth_S in E. cbn [is_none] in E.
    rewrite (bind_ok _ _ st1 st1 (JStr d)) in E by reflexivity.
    rewrite E. reflexivity.
  - rewrite (bind_ok _ _ st st ref) by reflexivity.
    destruct (fetch_tree_unreachable ref st) as [st1 [e [E Hc]]].
    assert (Hst1 : default_settled st1).
    { destruct Hc as [Hi Hd]. unfold default_settled. rewrite <- Hi, <- Hd. exact Hst. }
    rewrite (try_raise _ _ st st1 e E).
    destruct e as [code | | | | | | | | |]; try reflexivity.
    destruct (code =? 404); [| reflexivity].
    destruct (get_default_branch_unreachable st1 Hst1) as [st2 [d [Ed [Hd _]]]].
    rewrite (bind_ok _ _ st1 st2 (JStr d) Ed).
    destruct (py_eqb ref (JStr d)) eqn:Heq; cbn [negb].
    + apply py_eqb_str_r in Heq. subst ref.
      assert (Hst2 : default_settled st2) by (right; exists d; exact Hd).
      destruct (get_available_branches_unreachable st2 Hst2) as [st3 [d' [Ea Hd3]]].
      assert (Hsame : d' = d) by exact (available_keeps_default st2 st3 _ _ _ Ea Hd Hd3).
      subst d'.
      rewrite (bind_ok _ _ st2 st3 [JStr d] Ea).
      rewrite probe_only_known. reflexivity.
    + destruct (get_file_list_default_unreachable depth d st2 Hd) as [st3 [E3 _]].
      rewrite E3. reflexivity.
Qed.

(** X9. In front of a host that cannot be reached, or turns every
    request down, a client that has nothing memoised, or a default
    branch name, lists no file, whatever the branch asked for: the
    fallbacks to the default branch and to the common names end in the
    empty list, and no error reaches the caller. *)
Theorem get_file_list_of_unreachable_host ref (st : State S) :
  default_settled st ->
  snd (GitLabHandler.get_file_list serve max_retries ref st) = Ok [].
Proof.
  intros Hst. unfold GitLabHandler.get_file_list, recursion_limit.
  change 1000%nat with (Datatypes.S (Datatypes.S 998)).
  apply get_file_list_depth_unreachable. exact Hst.
Qed.

End Client.

Lemma get_file_list_of_unreachable_host_witness :
  snd (GitLabHandler.get_file_list (Steady.serve (Answers 503 None)) 3
         (JStr "develop") (Steady.start []))
  = Ok [].
Proof.
  apply (get_file_list_of_unreachable_host (Steady.serve (Answers 503 None)) 3).
  - intros s request. reflexivity.
  - left. split; reflexivity.
Defined.

End UnreachableFacts.

(** ** The analysis of the project *)

Module AnalyzerFacts.
Import Py Spec Run Frame RetryFacts FileListFacts PyFacts.
Import Analyzer.
Local Open Scope py_scope.

Lemma primary_branch_available_or_default project_data :
  py_in (_get_primary_branch_for_analysis project_data)
        (available_branches project_data) = true
  \/ _get_primary_branch_for_analysis project_data = default_branch project_data.
Proof.
  unfold _get_primary_branch_for_analysis.
  destruct (find _ _) as [branch |] eqn:Hf; [| right; reflexivity].
  apply find_some in Hf. left. apply Hf.
Qed.

(** X10. The branch analysed is develop when develop is available, else
    dev when dev is; and it is always an available branch or the default
    branch, which is taken even when it is not available. *)
Theorem primary_branch_for_analysis_choice project_data :
  let branch := _get_primary_branch_for_analysis project_data in
  (py_in (JStr "develop") (available_branches project_data) = true ->
   branch = JStr "develop")
  /\ (py_in (JStr "develop") (available_branches project_data) = false ->
      py_in (JStr "dev") (available_branches project_data) = true ->
      branch = JStr "dev")
  /\ (py_in branch (available_branches project_data) = true
      \/ branch = default_branch project_data).
Proof.
  cbv zeta. split; [| split].
  - intros H. unfold _get_primary_branch_for_analysis. cbn [find].
    rewrite H. reflexivity.
  - intros H1 H2. unfold _get_primary_branch_for_analysis. cbn [find].
    rewrite H1, H2. reflexivity.
  - apply primary_branch_available_or_default.
Qed.

Lemma primary_branch_for_analysis_choice_witness :
  _get_primary_branch_for_analysis
    (mkProjectData "shop" "unknown" "unknown" false [] (JStr "main")
                   [JStr "main"; JStr "dev"; JStr "develop"] (JStr "main"))
  = JStr "develop"
  /\ _get_primary_branch_for_analysis
       (mkProjectData "shop" "unknown" "unknown" false [] (JStr "main")
                      [JStr "main"; JStr "dev"] (JStr "main"))
     = JStr "dev".
Proof.
  split.
  - apply (proj1 (primary_branch_for_analysis_choice
                    (mkProjectData "shop" "unknown" "unknown" false [] (JStr "main")
                       [JStr "main"; JStr "dev"; JStr "develop"] (JStr "main")))).
    reflexivity.
  - apply (proj1 (proj2 (primary_branch_for_analysis_choice
                    (mkProjectData "shop" "unknown" "unknown" false [] (JStr "main")
                       [JStr "main"; JStr "dev"] (JStr "main")))));
      reflexivity.
Defined.

Lemma all_names (values : list json) :
  forallb is_str values = true -> exists names, values = map JStr names.
Proof.
  induction values as [|v values IH]; intros H.
  - exists []. reflexivity.
  - cbn in H. apply andb_true_iff in H. destruct H as [Hv Hrest].
    destruct (IH Hrest) as [names ->].
    destruct v; try discriminate. exists (s :: names). reflexivity.
Qed.

Section Client.
Context {S : Type}.
Variable serve : S -> Request -> S * Reply.

Lemma requests_get_run url (st : State S) :
  requests_get serve url st
  = (asked serve url st,
     match snd (serve (server st) (mkRequest GET url [] JNull)) with
     | Fails e => Raise e
     | Answers status_code body => Ok (mkResponse status_code body)
     end).
Proof.
  unfold requests_get, asked. cbv zeta.
  destruct (serve (server st) _) as [s' [e | code b]]; reflexivity.
Qed.

Lemma asked_caches url (st : State S) : same_caches st (asked serve url st).
Proof. split; reflexivity. Qed.

(** what the analyzer's listing of the branches does and returns *)
Lemma get_available_branches_run (st : State S) :
  exists names,
    _get_available_branches serve st
    = (asked serve branches_url st, Ok (map JStr names))
    /\ (failed (snd (serve (server st) (mkRequest GET branches_url [] JNull)))
        = true -> names = []).
Proof.
  unfold _get_available_branches, try_except. unfold bind at 1.
  rewrite requests_get_run.
  unfold failed, reply_result.
  destruct (snd (serve (server st) _)) as [e | code b].
  - exists []. split; reflexivity.
  - unfold bind at 1. unfold lift at 1. cbn [status_code].
    unfold GitLabHandler.raise_for_status.
    destruct ((400 <=? code) && (code <? 600))%bool.
    + exists []. split; reflexivity.
    + unfold bind at 1. unfold lift at 1, response_json. cbn [body].
      destruct b as [branches |];
        [| exists []; split; [reflexivity | discriminate]].
      unfold bind at 1. unfold lift at 1.
      destruct (iterate branches) as [items | e];
        [| exists []; split; [reflexivity | discriminate]].
      unfold bind at 1. unfold lift at 1.
      destruct (map_result _ items) as [branch_names | e];
        [| exists []; split; [reflexivity | discriminate]].
      unfold bind at 1. unfold lift at 1, join_names.
      destruct (forallb is_str branch_names) eqn:Hnames;
        [| exists []; split; [reflexivity | discriminate]].
      destruct (all_names branch_names Hnames) as [names ->].
      exists names. split; [reflexivity | discriminate].
Qed.

(** X11. The analyzer asks for the branches once, without retry, and
    never fails: the names it returns are all strings, since a name
    that is not one makes the log line raise, and there is none when
    the request fails, where the client's own listing falls back to the
    default branch. *)
Theorem analyzer_branches_are_names (st : State S) :
  let request := mkRequest GET branches_url [] JNull in
  let run := _get_available_branches serve st in
  trace (fst run) = (trace st ++ [Call request (snd (serve (server st) request))])%list
  /\ (exists names, snd run = Ok (map JStr names))
  /\ (failed (snd (serve (server st) request)) = true -> snd run = Ok []).
Proof.
  cbv zeta. destruct (get_available_branches_run st) as [names [E Hfail]].
  rewrite E. cbn [fst snd]. split; [reflexivity |].
  split; [exists names; reflexivity |].
  intros H. rewrite (Hfail H). reflexivity.
Qed.

Lemma analyzer_default_branch_run (st : State S) :
  exists default_branch,
    _get_default_branch serve st = (asked serve api_url st, Ok default_branch)
    /\ (failed (snd (serve (server st) (mkRequest GET api_url [] JNull))) = true ->
        default_branch = JStr "main").
Proof.
  unfold _get_default_branch, try_except. unfold bind at 1.
  rewrite requests_get_run.
  unfold failed, reply_result.
  destruct (snd (serve (server st) _)) as [e | code b].
  - exists (JStr "main"). split; reflexivity.
  - unfold bind at 1. unfold lift at 1. cbn [status_code].
    unfold GitLabHandler.raise_for_status.
    destruct ((400 <=? code) && (code <? 600))%bool.
    + exists (JStr "main"). split; reflexivity.
    + unfold bind at 1. unfold lift at 1, response_json. cbn [body].
      destruct b as [project_info |];
        [| exists (JStr "main"); split; [reflexivity | discriminate]].
      unfold lift.
      destruct (get project_info "default_branch" (JStr "main")) as [d | e].
      * exists d. split; [reflexivity | discriminate].
      * exists (JStr "main"). split; [reflexivity | discriminate].
Qed.

Lemma check_branches_returns project_data branches :
  forall st : State S,
  exists st' found,
    check_branches serve branches project_data st = (st', Ok found)
    /\ (available_branches project_data = [] -> st' = st /\ found = false).
Proof.
  induction branches as [|branch rest IH]; intros st.
  - exists st, false. split; [reflexivity | auto].
  - cbn [check_branches].
    destruct (py_in branch (available_branches project_data)) eqn:Hin.
    + unfold bind at 1. unfold try_except at 1.
      match goal with
      | |- context [match ?body st with _ => _ end] =>
          destruct (body st) as [st1 [found | e]]
      end.
      * destruct found.
        -- exists st1, true. split; [reflexivity |].
           intros Hnone. rewrite Hnone in Hin. discriminate.
        -- destruct (IH st1) as [st2 [found [E Hnone]]].
           exists st2, found. split; [exact E |].
           intros Hn. rewrite Hn in Hin. discriminate.
      * unfold ret at 1.
        destruct (IH st1) as [st2 [found [E Hnone]]].
        exists st2, found. split; [exact E |].
        intros Hn. rewrite Hn in Hin. discriminate.
    + exact (IH st).
Qed.

(** X12. Looking for an existing pipeline never fails, whatever the
    host does; and with no branch available it answers [False] without
    a single request. *)
Theorem check_for_pipeline_returns project_data (st : State S) :
  (exists st' found, _check_for_pipeline serve project_data st = (st', Ok found))
  /\ (available_branches project_data = [] ->
      _check_for_pipeline serve project_data st = (st, Ok false)).
Proof.
  unfold _check_for_pipeline.
  destruct (check_branches_returns project_data
              [JStr "develop"; JStr "dev"; default_branch project_data;
               JStr "main"; JStr "master"] st) as [st' [found [E Hnone]]].
  split; [exists st', found; exact E |].
  intros Hn. destruct (Hnone Hn) as [-> ->]. exact E.
Qed.

Lemma get_analysis_files_returns project_data (st : State S) :
  exists st' files branch,
    _get_analysis_files serve project_data st = (st', Ok (files, branch))
    /\ (branch = _get_primary_branch_for_analysis project_data
        \/ branch = default_branch project_data).
Proof.
  unfold _get_analysis_files. cbv zeta. unfold try_except at 1. unfold bind at 1.
  destruct (GitLabHandler.get_file_list serve max_retries
              (_get_primary_branch_for_analysis project_data) st)
    as [st1 [files | e]].
  - exists st1, files, (_get_primary_branch_for_analysis project_data).
    split; [reflexivity | left; reflexivity].
  - destruct (negb (py_eqb (_get_primary_branch_for_analysis project_data)
                           (default_branch project_data))).
    + unfold try_except, bind.
      destruct (GitLabHandler.get_file_list serve max_retries
                  (default_branch project_data) st1) as [st2 [files | e2]].
      * exists st2, files, (default_branch project_data).
        split; [reflexivity | right; reflexivity].
      * exists st2, [], (_get_primary_branch_for_analysis project_data).
        split; [reflexivity | left; reflexivity].
    + exists st1, [], (_get_primary_branch_for_analysis project_data).
      split; [reflexivity | left; reflexivity].
Qed.

Lemma detect_language_names names :
  In (ProjectAnalyzer._detect_language names) ["python"; "javascript"; "unknown"].
Proof.
  destruct (ProjectAnalyzerFacts.detect_language_cases names)
    as [[-> _] | [[-> _] | [-> _]]]; cbn; tauto.
Qed.

Lemma detect_type_names names language :
  In (ProjectAnalyzer._detect_type names language) ["service"; "package"; "unknown"].
Proof.
  rewrite DetectTypeFacts.detect_type_cases. cbv zeta.
  destruct (ProjectAnalyzer.any_indicator ProjectAnalyzer.service_indicators _);
    [cbn; tauto |].
  destruct (ProjectAnalyzer.any_indicator ProjectAnalyzer.package_indicators _);
    cbn; tauto.
Qed.

(** X13. [analyze] always returns a descriptor, whatever the host
    does.  It carries the name given; its branches are strings; the
    branch analysed is one of them or the default branch; a pipeline is
    reported only when there is a branch; and the language and the type
    are among the three names each detection knows. *)
Theorem analyze_returns_a_descriptor project_name (st : State S) :
  exists st' d,
    analyze serve project_name st = (st', Ok d)
    /\ name d = project_name
    /\ (exists names, available_branches d = map JStr names)
    /\ (py_in (analysis_branch d) (available_branches d) = true
        \/ analysis_branch d = default_branch d)
    /\ (has_pipeline d = true -> available_branches d <> [])
    /\ In (language d) ["python"; "javascript"; "unknown"]
    /\ In (type d) ["service"; "package"; "unknown"].
Proof.
  unfold analyze. cbv zeta.
  destruct (analyzer_default_branch_run st) as [db [E1 _]].
  unfold attempt at 1. rewrite E1.
  destruct (get_available_branches_run (asked serve api_url st)) as [names [E2 _]].
  unfold attempt at 1. rewrite E2.
  set (st2 := asked serve branches_url (asked serve api_url st)).
  set (d2 := with_available_branches _ (map JStr names)).
  destruct (check_branches_returns d2
              [JStr "develop"; JStr "dev"; default_branch d2;
               JStr "main"; JStr "master"] st2) as [st3 [found [E3 Hnone]]].
  unfold attempt at 1. unfold _check_for_pipeline. rewrite E3.
  set (d3 := with_has_pipeline d2 found).
  destruct (get_analysis_files_returns d3 st3) as [st4 [listed [branch [E4 Hb]]]].
  unfold attempt at 1. rewrite E4.
  set (d4 := with_analysis_branch (with_files d3 listed) branch).
  assert (Hbranch : py_in branch (map JStr names) = true \/ branch = db).
  { destruct Hb as [-> | ->]; [| right; reflexivity].
    exact (primary_branch_available_or_default d3). }
  assert (Hpipe : found = true -> map JStr names <> []).
  { intros -> Hn. destruct (Hnone Hn) as [_ H]. discriminate H. }
  unfold attempt at 1, lift at 1.
  unfold _detect_language, _detect_type.
  destruct (strings_of listed) as [paths | e]; cbn [bind_result].
  - unfold attempt, lift, ret.
    exists st4, (with_type (with_language d4 (ProjectAnalyzer._detect_language paths))
                           (ProjectAnalyzer._detect_type paths
                              (ProjectAnalyzer._detect_language paths))).
    split; [reflexivity |]. cbn.
    split; [reflexivity |]. split; [exists names; reflexivity |].
    split; [exact Hbranch |]. split; [exact Hpipe |].
    split; [apply detect_language_names | apply detect_type_names].
  - exists st4, d4. split; [reflexivity |]. cbn.
    split; [reflexivity |]. split; [exists names; reflexivity |].
    split; [exact Hbranch |]. split; [exact Hpipe |].
    split; tauto.
Qed.

(** X14. In front of a host that cannot be reached, or turns every
    request down, [analyze] returns the descriptor it started from:
    default branch "main", no branch, no pipeline, no file, language
    and type unknown. *)
Theorem analyze_of_unreachable_host project_name (st : State S) :
  unreachable serve ->
  default_settled st ->
  snd (analyze serve project_name st) = Ok (blank_descriptor project_name).
Proof.
  intros Hdown Hst. unfold analyze. cbv zeta.
  destruct (analyzer_default_branch_run st) as [db [E1 Hmain]].
  rewrite (Hmain (Hdown _ _)) in E1. clear Hmain db.
  unfold attempt at 1. rewrite E1.
  destruct (get_available_branches_run (asked serve api_url st))
    as [names [E2 Hnone]].
  rewrite (Hnone (Hdown _ _)) in E2. clear Hnone names. cbn [map] in E2.
  unfold attempt at 1. rewrite E2.
  set (st2 := asked serve branches_url (asked serve api_url st)).
  assert (Hst2 : default_settled st2).
  { destruct (asked_caches branches_url (asked serve api_url st)) as [Hi Hd].
    destruct (asked_caches api_url st) as [Hi' Hd'].
    unfold default_settled, st2. rewrite <- Hi, <- Hd, <- Hi', <- Hd'. exact Hst. }
  unfold attempt at 1. unfold _check_for_pipeline.
  match goal with
  | |- context [check_branches serve ?branches ?d st2] =>
      destruct (check_branches_returns d branches st2) as [st3 [found [E3 Hno]]];
      destruct (Hno eq_refl) as [-> ->]; rewrite E3
  end.
  unfold attempt at 1.
  unfold _get_analysis_files. cbv zeta.
  change (_get_primary_branch_for_analysis _) with (JStr "main").
  pose proof (UnreachableFacts.get_file_list_depth_unreachable serve max_retries
                Hdown 998 (JStr "main") st2 Hst2) as Hlist.
  change (GitLabHandler.get_file_list_depth serve max_retries 1000 (JStr "main") st2)
    with (GitLabHandler.get_file_list serve max_retries (JStr "main") st2) in Hlist.
  unfold try_except at 1. unfold bind at 1.
  destruct (GitLabHandler.get_file_list serve max_retries (JStr "main") st2)
    as [st3 r]. cbn [snd] in Hlist. subst r.
  reflexivity.
Qed.

End Client.

Lemma analyze_of_unreachable_host_witness :
  snd (analyze (Steady.serve (Fails (RequestException "ConnectionError"))) "shop"
               (Steady.start []))
  = Ok (blank_descriptor "shop").
Proof.
  apply (analyze_of_unreachable_host
           (Steady.serve (Fails (RequestException "ConnectionError"))) "shop").
  - intros s request. reflexivity.
  - left. split; reflexivity.
Defined.

End AnalyzerFacts.

(** ** Failed jobs, and waiting for one job *)

Module JobFacts.
Import Py Spec Run PyFacts Frame Calls.
Import PipelineMonitor.
Local Open Scope py_scope.

Lemma chars_length (s : string) : List.length (chars s) = String.length s.
Proof. induction s as [|c s IH]; [reflexivity | cbn; rewrite IH; reflexivity]. Qed.

(** what [for x in v] visits is what [len(v)] counts, and there is
    something to visit when [v] is read as true *)
Lemma iterate_len (v : json) items :
  iterate v = Ok items ->
  len v = Ok (List.length items)
  /\ (truthy v = true -> (1 <= List.length items)%nat).
Proof.
  destruct v as [| b | n | q | s | l | f]; try discriminate; intros [= <-]; cbn.
  - rewrite chars_length. split; [reflexivity |].
    destruct s; [discriminate | cbn; lia].
  - split; [reflexivity |]. destruct l; [discriminate | cbn; lia].
  - rewrite length_map. split; [reflexivity |].
    destruct f; [discriminate | cbn; lia].
Qed.

Lemma collect_failed_jobs_records jobs :
  forall failed_jobs,
    collect_failed_jobs jobs = Ok failed_jobs ->
    (List.length failed_jobs <= List.length jobs)%nat
    /\ forall record, In record failed_jobs ->
         exists job, In job jobs
                     /\ get job "status" JNull = Ok (JStr "failed")
                     /\ exists name id stage,
                          get job "name" JNull = Ok name
                          /\ get job "id" JNull = Ok id
                          /\ get job "stage" JNull = Ok stage
                          /\ record = JDict [("name", name); ("id", id);
                                             ("stage", stage)].
Proof.
  induction jobs as [|job rest IH]; intros failed_jobs; cbn [collect_failed_jobs].
  - intros [= <-]. split; [cbn; lia | intros record []].
  - unfold bind_result at 1.
    destruct (get job "status" JNull) as [status | e] eqn:Es; [| discriminate].
    destruct (py_eqb status (JStr "failed")) eqn:Hf.
    + apply py_eqb_str_r in Hf. subst status.
      unfold bind_result.
      destruct (get job "name" JNull) as [name | e] eqn:En; [| discriminate].
      destruct (get job "id" JNull) as [id | e] eqn:Ei; [| discriminate].
      destruct (get job "stage" JNull) as [stage | e] eqn:Eg; [| discriminate].
      destruct (collect_failed_jobs rest) as [others | e]; [| discriminate].
      intros [= <-]. destruct (IH others eq_refl) as [Hlen Hrec].
      split; [cbn; lia |].
      intros record [<- | Hin].
      * exists job. split; [left; reflexivity |]. split; [exact Es |].
        exists name, id, stage. repeat split; assumption.
      * destruct (Hrec record Hin) as [j [Hj Hrest]].
        exists j. split; [right; exact Hj | exact Hrest].
    + intros H. destruct (IH failed_jobs H) as [Hlen Hrec].
      split; [cbn; lia |].
      intros record Hin. destruct (Hrec record Hin) as [j [Hj Hrest]].
      exists j. split; [right; exact Hj | exact Hrest].
Qed.

Section Monitor.
Context {S : Type}.
Variable serve : S -> Request -> S * Reply.
Variable max_retries : Z.
Variable clock : nat -> Q.
Variable check_interval : Z.

(** X15. The analysis of a failed pipeline never raises.  It is an
    error record, or it counts all the jobs of a list that is not empty
    and reports no more failed jobs than that; every record reported
    comes from a job of the list whose status is "failed", and holds
    its name, id and stage and nothing else. *)
Theorem analyze_failure_counts pipeline_id (st : State S) :
  exists st' analysis,
    _analyze_failure serve max_retries pipeline_id st = (st', Ok analysis)
    /\ ((exists message, analysis = JDict [("error", JStr message)])
        \/ exists jobs items failed_jobs,
             fst (GitLabHandler.get_pipeline_jobs serve max_retries pipeline_id st)
             = st'
             /\ snd (GitLabHandler.get_pipeline_jobs serve max_retries pipeline_id st)
                = Ok jobs
             /\ iterate jobs = Ok items
             /\ analysis = JDict [("failed_jobs", JList failed_jobs);
                                  ("total_jobs",
                                   JNum (Z.of_nat (List.length items)))]
             /\ (List.length failed_jobs <= List.length items)%nat
             /\ (1 <= List.length items)%nat
             /\ forall record, In record failed_jobs ->
                  exists job name id stage,
                    In job items
                    /\ get job "status" JNull = Ok (JStr "failed")
                    /\ get job "name" JNull = Ok name
                    /\ get job "id" JNull = Ok id
                    /\ get job "stage" JNull = Ok stage
                    /\ record = JDict [("name", name); ("id", id);
                                       ("stage", stage)]).
Proof.
  unfold _analyze_failure, try_except. unfold bind at 1.
  destruct (GitLabHandler.get_pipeline_jobs serve max_retries pipeline_id st)
    as [st1 [jobs | e]]; [| eexists _, _; split; [reflexivity | left; eauto]].
  destruct (truthy jobs) eqn:Ht; cbn [negb];
    [| eexists _, _; split; [reflexivity | left; eauto]].
  unfold bind at 1. unfold lift at 1.
  destruct (iterate jobs) as [items | e] eqn:Ei;
    [| eexists _, _; split; [reflexivity | left; eauto]].
  destruct (iterate_len jobs items Ei) as [Hlen Hpos].
  unfold bind at 1. unfold lift at 1.
  destruct (collect_failed_jobs items) as [failed_jobs | e] eqn:Ec;
    [| eexists _, _; split; [reflexivity | left; eauto]].
  unfold bind at 1. unfold lift at 1. rewrite Hlen.
  destruct (collect_failed_jobs_records items failed_jobs Ec) as [Hle Hrec].
  eexists _, _. split; [reflexivity |]. right.
  exists jobs, items, failed_jobs. cbn [fst snd].
  split; [reflexivity |]. split; [reflexivity |]. split; [exact Ei |].
  split; [reflexivity |]. split; [exact Hle |]. split; [exact (Hpos Ht) |].
  intros record Hin.
  destruct (Hrec record Hin) as [job [Hj [Hs [name [id [stage [Hn [Hi [Hg Hr]]]]]]]]].
  exists job, name, id, stage. repeat split; assumption.
Qed.

(** *** Waiting for one job *)



Lemma get_pipeline_jobs_unreachable pipeline_id (st : State S) :
  unreachable serve ->
  exists st',
    GitLabHandler.get_pipeline_jobs serve max_retries pipeline_id st
    = (st', Ok (JList []))
    /\ ticks st' = ticks st.
Proof.
  intros Hdown.
  destruct (UnreachableFacts.call_unreachable serve max_retries Hdown
              GET (pipeline_jobs_url pipeline_id) [] JNull st) as [st' [e [E _]]].
  exists st'. split.
  - unfold GitLabHandler.get_pipeline_jobs.
    erewrite try_raise; [reflexivity |].
    erewrite bind_raise; [reflexivity | exact E].
  - symmetry.
    exact (PipelineMonitorFacts.same_ticks_call serve max_retries
             GET (pipeline_jobs_url pipeline_id) [] JNull st st' _ E).
Qed.

(** X17. In front of a host that cannot be reached, waiting for a job
    does not wait: as the list of jobs comes back empty, the first round
    reports the job as not found, after two readings of the clock. *)
Theorem wait_for_job_completion_of_unreachable_host
        fuel pipeline_id job_name timeout (st : State S) :
  unreachable serve ->
  (clock (Datatypes.S (ticks st)) - clock (ticks st) < inject_Z timeout)%Q ->
  exists st',
    wait_for_job_completion serve max_retries clock check_interval
                            (Datatypes.S fuel) pipeline_id job_name timeout st
    = Some (st', Ok (JDict [("error",
                             JStr ("Job '" ++ job_name ++ "' not found"))]))
    /\ ticks st' = Datatypes.S (Datatypes.S (ticks st)).
Proof.
  intros Hdown Hclock.
  destruct (get_pipeline_jobs_unreachable pipeline_id (tick (tick st)) Hdown)
    as [st' [E Hticks]].
  exists st'. split; [| exact Hticks].
  unfold wait_for_job_completion, time_time. cbn [wait_loop].
  unfold wait_round. unfold bind at 1. unfold time_time at 1.
  assert (Hlt : Qltb (clock (ticks (tick st)) - clock (ticks st)) (inject_Z timeout)
                = true).
  { unfold Qltb. apply negb_true_iff.
    destruct (Qle_bool _ _) eqn:Hle; [| reflexivity].
    apply Qle_bool_iff in Hle. cbn [ticks tick] in Hle. lra. }
  cbv beta iota. rewrite Hlt.
  match goal with
  | |- context [try_except ?body ?handler (tick (tick st))] =>
      assert (Hbody : body (tick (tick st))
                      = (st', Ok (inr (JDict [("error",
                            JStr ("Job '" ++ job_name ++ "' not found"))]))))
        by (rewrite (bind_ok _ _ _ _ _ E); reflexivity);
      rewrite (try_ok body handler _ _ _ Hbody)
  end.
  reflexivity.
Qed.

(** X18. With a timeout that is not positive, and a clock that has not
    gone back between its two first readings, waiting for a job returns
    the timeout record at once: the host is asked nothing. *)
Theorem wait_for_job_completion_no_wait fuel pipeline_id job_name timeout
        (st : State S) :
  timeout <= 0 ->
  (clock (ticks st) <= clock (Datatypes.S (ticks st)))%Q ->
  wait_for_job_completion serve max_retries clock check_interval
                          (Datatypes.S fuel) pipeline_id job_name timeout st
  = Some (tick (tick st),
          Ok (JDict [("job_name", JStr job_name);
                     ("status", JStr "timeout");
                     ("duration", JNum timeout)])).
Proof.
  intros Hwait Hclock.
  unfold wait_for_job_completion, time_time. cbn [wait_loop].
  unfold wait_round. unfold bind at 1. unfold time_time at 1.
  assert (Hge : Qltb (clock (ticks (tick st)) - clock (ticks st)) (inject_Z timeout)
                = false).
  { unfold Qltb. apply negb_false_iff. apply Qle_bool_iff. cbn [ticks tick].
    assert (inject_Z timeout <= 0)%Q.
    { change 0%Q with (inject_Z 0). rewrite <- Zle_Qle. exact Hwait. }
    lra. }
  rewrite Hge. reflexivity.
Qed.

End Monitor.
End JobFacts.

(** ** The client: edges of the retry wrapper, the memo fields and the
    error handling *)

Module HandlerFacts.
Import Py Spec Run Frame RetryFacts FileListFacts PyFacts.
Local Open Scope py_scope.

Section Client.
Context {S : Type}.
Variable serve : S -> Request -> S * Reply.
Variable max_retries : Z.

(** X19. With [max_retries] at zero or below, the retry wrapper never
    makes the call: the loop is not entered, [raise last_error] raises
    [None], which is a [TypeError], and nothing else has happened. *)
Theorem simple_retry_without_attempts {A} (func : M S A) (st : State S) :
  max_retries <= 0 ->
  GitLabHandler._simple_retry max_retries func st = (st, Raise TypeError).
Proof.
  intros H. unfold GitLabHandler._simple_retry.
  replace (Z.to_nat max_retries) with 0%nat by lia.
  reflexivity.
Qed.

(** X20. One call of [_make_request] is one request, whatever comes
    back.  A status from 400 to 599 raises the HTTP error of that
    status; any other status is handed back as a response, also one of
    600 or more, which passes the check [>= 400] but on which
    [raise_for_status] does not raise. *)
Theorem make_request_raises_from_400_to_599 method url params payload
        (st : State S) :
  let request := mkRequest method url params payload in
  let reply := snd (serve (server st) request) in
  let run := GitLabHandler._make_request serve method url params payload st in
  trace (fst run) = (trace st ++ [Call request reply])%list
  /\ (forall status_code body,
         reply = Answers status_code body ->
         (400 <= status_code < 600 -> snd run = Raise (HTTPError status_code))
         /\ (status_code < 400 \/ 600 <= status_code ->
             snd run = Ok (mkResponse status_code body)))
  /\ (forall e, reply = Fails e -> snd run = Raise e).
Proof.
  cbv zeta. rewrite make_request_run. cbn [fst snd].
  split; [reflexivity |]. split.
  - intros code b ->. unfold reply_result. split.
    + intros [Hlo Hhi].
      destruct (Z.leb_spec 400 code); [| lia].
      destruct (Z.ltb_spec code 600); [| lia]. reflexivity.
    + intros [Hlo | Hhi].
      * destruct (Z.leb_spec 400 code); [lia |]. reflexivity.
      * destruct (Z.ltb_spec code 600); [lia |].
        rewrite andb_false_r. reflexivity.
  - intros e ->. reflexivity.
Qed.

(** X21. What [get_project] returns is what the client holds memoised
    afterwards: a fetch that fails returns [None] and memoises nothing.
    Once a record is memoised, every later call returns it and leaves
    the state as it is: no request is made. *)
Theorem get_project_memoises (st st1 : State S) r :
  GitLabHandler.get_project serve max_retries st = (st1, r) ->
  r = Ok (_project_info st1)
  /\ (_project_info st1 <> JNull ->
      forall st2 : State S,
        _project_info st2 = _project_info st1 ->
        GitLabHandler.get_project serve max_retries st2 = (st2, r)).
Proof.
  intros Hrun. destruct (get_project_post serve max_retries st st1 r Hrun) as [-> _].
  split; [reflexivity |].
  intros Hnn st2 H2. unfold GitLabHandler.get_project.
  rewrite (bind_ok _ _ st2 st2 (_project_info st2)) by reflexivity.
  rewrite H2.
  destruct (_project_info st1); try reflexivity. contradiction Hnn. reflexivity.
Qed.

(** X22. When nothing is memoised and the project record cannot be
    had (the fetch fails, or gives a value read as false), the default
    branch is "main", and it stays: every later call by a client that
    holds this memo answers "main" without asking the host, also when
    the host can be reached again. *)
Theorem get_default_branch_settles_on_main (st st1 : State S) project_info :
  _default_branch st = JNull ->
  GitLabHandler.get_project serve max_retries st = (st1, Ok project_info) ->
  truthy project_info = false ->
  exists st2,
    GitLabHandler.get_default_branch serve max_retries st = (st2, Ok (JStr "main"))
    /\ trace st2 = trace st1
    /\ server st2 = server st1
    /\ forall st3 : State S,
         _default_branch st3 = _default_branch st2 ->
         GitLabHandler.get_default_branch serve max_retries st3
         = (st3, Ok (JStr "main")).
Proof.
  intros Hdef Hproj Hfalse.
  exists (mkState (server st1) (trace st1) (ticks st1) (stdin st1)
                  (_project_info st1) (JStr "main")).
  split; [| split; [reflexivity | split; [reflexivity |]]].
  - unfold GitLabHandler.get_default_branch.
    rewrite (bind_ok _ _ st st (_default_branch st)) by reflexivity.
    rewrite Hdef. cbn [is_none].
    rewrite (bind_ok _ _ st st1 project_info Hproj). rewrite Hfalse.
    reflexivity.
  - intros st3 H3. cbn [_default_branch] in H3.
    unfold GitLabHandler.get_default_branch.
    rewrite (bind_ok _ _ st3 st3 (_default_branch st3)) by reflexivity.
    rewrite H3. reflexivity.
Qed.

(** X23. When the listing of a branch fails with anything but a 404,
    be it another HTTP status, a connection error, or a listing that
    cannot be read, [get_file_list] gives the empty list at once: no
    other branch is tried and no error reaches the caller. *)
Theorem get_file_list_gives_up_on_other_errors ref (st st1 : State S) e :
  is_none ref = false ->
  GitLabHandler.fetch_tree serve max_retries ref st = (st1, Raise e) ->
  e <> HTTPError 404 ->
  GitLabHandler.get_file_list serve max_retries ref st = (st1, Ok []).
Proof.
  intros Href Hfetch Hne.
  unfold GitLabHandler.get_file_list, recursion_limit.
  change 1000%nat with (Datatypes.S 999).
  rewrite get_file_list_depth_S. rewrite Href.
  rewrite (bind_ok _ _ st st ref) by reflexivity.
  rewrite (try_raise _ _ st st1 e Hfetch).
  destruct e as [code | | | | | | | | |]; try reflexivity.
  destruct (Z.eqb_spec code 404) as [-> | _]; [contradiction Hne |]; reflexivity.
Qed.

(** X24. The errors of the creation of a merge request are not treated
    alike.  An HTTP error other than 409 is raised to the caller, while
    any other error is swallowed and [None] returned; and a 409 for
    which no open merge request is found is raised again. *)
Theorem create_merge_request_raises_http_errors
        title source_branch target_branch description (st st1 : State S) e :
  is_none target_branch = false ->
  GitLabHandler._simple_retry max_retries
    (GitLabHandler._make_request serve POST merge_requests_url []
       (GitLabHandler.mr_payload title source_branch target_branch description)) st
  = (st1, Raise e) ->
  (e <> HTTPError 409 ->
   GitLabHandler.create_merge_request serve max_retries
     title source_branch target_branch description st
   = (st1, match e with
           | HTTPError _ => Raise e
           | _ => Ok JNull
           end))
  /\ (e = HTTPError 409 ->
      forall st2 existing_mr,
        GitLabHandler._find_existing_mr serve max_retries source_branch st1
        = (st2, Ok existing_mr) ->
        truthy existing_mr = false ->
        GitLabHandler.create_merge_request serve max_retries
          title source_branch target_branch description st
        = (st2, Raise (HTTPError 409))).
Proof.
  intros Htarget Hcall.
  assert (Hstart :
    GitLabHandler.create_merge_request serve max_retries
      title source_branch target_branch description st
    = match e with
      | HTTPError status_code =>
          if status_code =? 409 then
            (existing_mr <-
               GitLabHandler._find_existing_mr serve max_retries source_branch ;;
             if truthy existing_mr then
               lift (get existing_mr "web_url" JNull) ;;;
               ret existing_mr
             else raise e) st1
          else (st1, Raise e)
      | _ => (st1, Ok JNull)
      end).
  { unfold GitLabHandler.create_merge_request. rewrite Htarget.
    rewrite (bind_ok _ _ st st target_branch) by reflexivity.
    erewrite try_raise; [| erewrite bind_raise; [reflexivity | exact Hcall]].
    destruct e as [code | | | | | | | | |]; try reflexivity.
    destruct (code =? 409); reflexivity. }
  rewrite Hstart. split.
  - intros Hne. destruct e as [code | | | | | | | | |]; try reflexivity.
    destruct (Z.eqb_spec code 409) as [-> | _]; [contradiction Hne |]; reflexivity.
  - intros -> st2 existing_mr Hfind Hfalse. cbn [Z.eqb Pos.eqb].
    rewrite (bind_ok _ _ st1 st2 existing_mr Hfind). rewrite Hfalse.
    reflexivity.
Qed.

(** X25. The target picked when none is given: develop when it is
    listed, before dev and the default branch; and always a listed
    branch or the default branch. *)
Theorem select_target_choice (st st1 st2 : State S) available default_branch :
  GitLabHandler.get_available_branches serve max_retries st = (st1, Ok available) ->
  GitLabHandler.get_default_branch serve max_retries st1 = (st2, Ok default_branch) ->
  exists target,
    GitLabHandler.select_target serve max_retries st = (st2, Ok target)
    /\ (py_in (JStr "develop") available = true -> target = JStr "develop")
    /\ (py_in (JStr "develop") available = false ->
        py_in (JStr "dev") available = true -> target = JStr "dev")
    /\ (py_in target available = true \/ target = default_branch).
Proof.
  intros Ha Hd. unfold GitLabHandler.select_target.
  rewrite (bind_ok _ _ st st1 available Ha).
  rewrite (bind_ok _ _ st1 st2 default_branch Hd).
  eexists. split; [reflexivity |]. split; [| split].
  - intros H. cbn [find]. rewrite H. reflexivity.
  - intros H1 H2. cbn [find]. rewrite H1, H2. reflexivity.
  - destruct (find _ _) as [preferred |] eqn:Hf; [| right; reflexivity].
    apply find_some in Hf. destruct Hf as [_ Hin].
    destruct (is_none preferred); [right; reflexivity | left; exact Hin].
Qed.

(** X26. When the branch exists and its record can be read, the user
    is asked what to do.  With no line to read the prompt raises
    [EOFError], which [create_branch] lets through; with the answer "2"
    [create_branch] returns [False], and the line read is the last thing
    that happens: nothing is deleted and nothing created. *)
Theorem create_branch_cancelled branch_name ref (st st1 st2 : State S) branch_info :
  is_none ref = false ->
  GitLabHandler.branch_exists serve max_retries branch_name st = (st1, Ok true) ->
  GitLabHandler.get_branch_info serve max_retries branch_name st1
  = (st2, Ok branch_info) ->
  truthy branch_info = true ->
  GitLabHandler.read_last_commit branch_info = Ok tt ->
  (stdin st2 = [] ->
   GitLabHandler.create_branch serve max_retries branch_name ref st
   = (st2, Raise EOFError))
  /\ (forall line rest,
         stdin st2 = line :: rest ->
         PyStr.strip line = "2" ->
         GitLabHandler.create_branch serve max_retries branch_name ref st
         = (record (Input line)
                   (mkState (server st2) (trace st2) (ticks st2) rest
                            (_project_info st2) (_default_branch st2)),
            Ok false)).
Proof.
  intros Href Hexists Hinfo Htrue Hread.
  assert (Hstart :
    GitLabHandler.create_branch serve max_retries branch_name ref st
    = (proceed <- GitLabHandler.choice_loop serve max_retries (stdin st2) branch_name ;;
       if proceed then
         try_except
           (GitLabHandler._simple_retry max_retries
              (GitLabHandler._make_request serve POST branches_url []
                 (GitLabHandler.branch_payload branch_name ref)) ;;;
            ret true)
           (fun e =>
              match e with
              | HTTPError status_code =>
                  if status_code =? 400 then
                    default_branch <-
                      GitLabHandler.get_default_branch serve max_retries ;;
                    if negb (py_eqb ref default_branch)
                    then GitLabHandler.create_branch_depth serve max_retries
                           999 branch_name default_branch
                    else ret false
                  else ret false
              | _ => ret false
              end)
       else ret false) st2).
  { unfold GitLabHandler.create_branch, recursion_limit.
    change 1000%nat with (Datatypes.S 999).
    cbn [GitLabHandler.create_branch_depth]. rewrite Href.
    rewrite (bind_ok _ _ st st ref) by reflexivity.
    rewrite (bind_ok _ _ st st1 true Hexists).
    unfold GitLabHandler.confirm_replace.
    unfold bind at 1. unfold bind at 1. rewrite Hinfo. rewrite Htrue.
    unfold bind at 1. unfold lift at 1. rewrite Hread.
    reflexivity. }
  rewrite Hstart. split.
  - intros Hnone. rewrite Hnone. reflexivity.
  - intros line rest Hline Hstrip. rewrite Hline.
    cbn [GitLabHandler.choice_loop].
    unfold bind at 1. unfold bind at 1. unfold input. rewrite Hline.
    rewrite Hstrip. reflexivity.
Qed.

End Client.
End HandlerFacts.

(** ** Looking up and deleting a branch, against the model of the host *)

Module BranchHostFacts.
Import Py Spec Run Frame RetryFacts PyFacts CreateBranchHost.
Local Open Scope py_scope.

Lemma commit_of_remove name bs : Host.commit_of name (Host.remove name bs) = None.
Proof.
  unfold Host.remove. induction bs as [|[n c] rest IH]; [reflexivity |].
  cbn [filter fst]. destruct (String.eqb n name) eqn:E; cbn [negb]; [exact IH |].
  cbn [Host.commit_of]. rewrite E. exact IH.
Qed.

Lemma respond_lookup bs project name :
  Host.respond bs project (mkRequest GET (branch_url name) [] JNull)
  = match Host.commit_of name bs with
    | Some commit => (bs, Answers 200 (Some (Host.branch_record name commit)))
    | None => (bs, Answers 404 None)
    end.
Proof. reflexivity. Qed.

Section Client.
Variable max_retries : Z.

(** X27. [branch_exists] never raises and leaves the branches of the
    host as they are.  Its [True] is always right: the branch is there.
    Its [False] is right on a host that is reached; during an outage
    that lasts through all the attempts it is the answer as well,
    whether the branch is there or not. *)
Theorem branch_exists_on_host name (st st' : State Host.State) r :
  GitLabHandler.branch_exists Host.serve max_retries name st = (st', r) ->
  Host.branches (server st') = Host.branches (server st)
  /\ exists found,
       r = Ok found
       /\ (found = true ->
           Host.commit_of name (Host.branches (server st)) <> None)
       /\ (reachable (server st) -> 1 <= max_retries ->
           Host.commit_of name (Host.branches (server st)) <> None ->
           found = true).
Proof.
  unfold GitLabHandler.branch_exists, try_except. unfold bind at 1.
  destruct (GitLabHandler._simple_retry max_retries _ st)
    as [st1 [response | e]] eqn:E.
  - intros [= <- <-].
    pose proof E as Heff. apply call_effect in Heff. cbv zeta in Heff.
    destruct Heff as [_ [Hb Hok]]. rewrite respond_lookup in Hb, Hok.
    split.
    + rewrite Hb. destruct (Host.commit_of name _); reflexivity.
    + exists true. split; [reflexivity |]. split; [| reflexivity].
      intros _ Hnone. rewrite Hnone in Hok. discriminate.
  - assert (Hfalse : (match e with
                      | HTTPError status_code =>
                          if status_code =? 404 then ret false else ret false
                      | _ => ret false
                      end) st1 = (st1, Ok false)).
    { destruct e as [code | | | | | | | | |]; try reflexivity.
      destruct (code =? 404); reflexivity. }
    rewrite Hfalse. intros [= <- <-].
    pose proof E as Heff. apply call_effect in Heff. cbv zeta in Heff.
    destruct Heff as [_ Hb].
    split; [exact Hb |].
    exists false. split; [reflexivity |]. split; [discriminate |].
    intros Hreach Hmax Hthere. exfalso.
    revert E. unfold GitLabHandler._simple_retry.
    destruct (Z.to_nat max_retries) as [|n] eqn:Hn; [lia |].
    cbn [GitLabHandler.retry_loop]. unfold try_except.
    rewrite make_request_run. unfold Host.serve. rewrite Hreach.
    rewrite respond_lookup.
    destruct (Host.commit_of name (Host.branches (server st))) as [commit |];
      [| contradiction Hthere; reflexivity].
    cbn. discriminate.
Qed.

(** X28. [delete_branch] never raises.  When it returns [True] the
    branch was there and is gone, and the other branches are as they
    were; when it returns [False] the branches are as they were. *)
Theorem delete_branch_on_host name (st st' : State Host.State) r :
  GitLabHandler.delete_branch Host.serve max_retries name st = (st', r) ->
  exists deleted,
    r = Ok deleted
    /\ if deleted
       then Host.commit_of name (Host.branches (server st)) <> None
            /\ Host.branches (server st')
               = Host.remove name (Host.branches (server st))
            /\ Host.commit_of name (Host.branches (server st')) = None
       else Host.branches (server st') = Host.branches (server st).
Proof.
  unfold GitLabHandler.delete_branch, try_except. unfold bind at 1.
  destruct (GitLabHandler._simple_retry max_retries _ st)
    as [st1 [response | e]] eqn:E.
  - intros [= <- <-]. exists true. split; [reflexivity |].
    apply call_effect in E. cbv zeta in E. destruct E as [_ [Hb Hok]].
    revert Hb Hok. unfold Host.respond. cbn [method url].
    destruct (Host.commit_of name (Host.branches (server st))) as [commit |];
      cbn [fst snd]; [| discriminate].
    intros Hb _. split; [discriminate |]. split; [exact Hb |].
    rewrite Hb. apply commit_of_remove.
  - intros [= <- <-]. exists false. split; [reflexivity |].
    apply call_effect in E. cbv zeta in E. apply E.
Qed.

Lemma names_of_records bs :
  map_result (fun branch => getitem branch "name")
             (map (fun b => Host.branch_record (fst b) (snd b)) bs)
  = Ok (map (fun b => JStr (fst b)) bs).
Proof.
  induction bs as [|[n c] rest IH]; [reflexivity |].
  cbn [map map_result fst snd]. unfold bind_result at 1.
  cbn [Host.branch_record getitem lookup String.eqb Ascii.eqb Bool.eqb].
  rewrite IH. reflexivity.
Qed.

Lemma names_join (bs : list (string * string)) :
  GitLabHandler.join_first_five (map (fun b => JStr (fst b)) bs) = Ok tt.
Proof.
  unfold GitLabHandler.join_first_five.
  assert (H : forall n, forallb is_str (firstn n (map (fun b => JStr (fst b)) bs))
                        = true).
  { induction bs as [|b rest IH]; intros [|n]; cbn; auto. }
  rewrite H. reflexivity.
Qed.

(** X29. On a host that is reached, the client lists the names of the
    branches of the host, in the order of the host, with one request
    and no change to the branches. *)
Theorem get_available_branches_on_host (st : State Host.State) :
  reachable (server st) ->
  1 <= max_retries ->
  exists st',
    GitLabHandler.get_available_branches Host.serve max_retries st
    = (st', Ok (map (fun b => JStr (fst b)) (Host.branches (server st))))
    /\ Host.branches (server st') = Host.branches (server st)
    /\ exists reply,
         trace st' = (trace st ++ [Call (mkRequest GET branches_url [] JNull) reply])%list.
Proof.
  intros Hreach Hmax.
  set (request := mkRequest GET branches_url [] JNull).
  set (listing := JList (map (fun b => Host.branch_record (fst b) (snd b))
                             (Host.branches (server st)))).
  assert (Hserve : Host.serve (server st) request
                   = (Host.mkHost (Host.branches (server st))
                                  (Host.project (server st)) [],
                      Answers 200 (Some listing))).
  { unfold Host.serve. rewrite Hreach. reflexivity. }
  assert (Hcall :
    GitLabHandler._simple_retry max_retries
      (GitLabHandler._make_request Host.serve GET branches_url [] JNull) st
    = (record (Call request (Answers 200 (Some listing)))
              (set_server (Host.mkHost (Host.branches (server st))
                                       (Host.project (server st)) []) st),
       Ok (mkResponse 200 (Some listing)))).
  { unfold GitLabHandler._simple_retry.
    destruct (Z.to_nat max_retries) as [|n] eqn:Hn; [lia |].
    cbn [GitLabHandler.retry_loop].
    erewrite try_ok; [reflexivity |].
    rewrite make_request_run. fold request. rewrite Hserve. reflexivity. }
  exists (record (Call request (Answers 200 (Some listing)))
                 (set_server (Host.mkHost (Host.branches (server st))
                                          (Host.project (server st)) []) st)).
  split; [| split; [| eexists; reflexivity]].
  - unfold GitLabHandler.get_available_branches.
    erewrite try_ok; [reflexivity |].
    rewrite (bind_ok _ _ _ _ _ Hcall).
    unfold bind at 1. unfold lift at 1, response_json. cbn [body].
    unfold bind at 1. unfold lift at 1. cbn [iterate listing].
    unfold bind at 1. unfold lift at 1. rewrite names_of_records.
    unfold bind at 1. unfold lift at 1. rewrite names_join.
    reflexivity.
  - reflexivity.
Qed.

(** a request leaves the lines to read alone, and a host that is
    reached stays so *)
Lemma call_keeps_reach method url params payload :
  keeps (fun a b : State Host.State =>
           stdin b = stdin a /\ (reachable (server a) -> reachable (server b)))
        (GitLabHandler._simple_retry max_retries
           (GitLabHandler._make_request Host.serve method url params payload)).
Proof.
  apply keeps_simple_retry.
  - intros st. split; [reflexivity | trivial].
  - intros a b c [Hs1 Hr1] [Hs2 Hr2]. split; [congruence | auto].
  - intros seconds st st' r. unfold sleep.
    destruct (seconds <? 0); intros [= <- _]; split; (reflexivity || trivial).
  - intros st st' r. rewrite make_request_run. intros [= <- _].
    split; [reflexivity |].
    cbn [server record set_server]. unfold reachable, Host.serve.
    intros ->.
    destruct (Host.respond _ _ _) as [bs reply]. reflexivity.
Qed.

(** X30. On a host that is reached, creating a branch under a name
    that is free, from a ref that names a branch, succeeds without a
    question to the user: [create_branch] returns [True], the lines to
    read are untouched, and the host has one more branch, of that name,
    at the commit of the ref. *)
Theorem create_branch_on_fresh_name name from commit (st : State Host.State) :
  reachable (server st) ->
  1 <= max_retries ->
  Host.commit_of name (Host.branches (server st)) = None ->
  Host.commit_of from (Host.branches (server st)) = Some commit ->
  exists st',
    GitLabHandler.create_branch Host.serve max_retries name (JStr from) st
    = (st', Ok true)
    /\ Host.branches (server st')
       = (Host.branches (server st) ++ [(name, commit)])%list
    /\ stdin st' = stdin st.
Proof.
  intros Hreach Hmax Hfree Hfrom.
  (* the branch is looked up, and not found *)
  destruct (GitLabHandler.branch_exists Host.serve max_retries name st)
    as [st1 r] eqn:E1.
  assert (H1 : r = Ok false
               /\ Host.branches (server st1) = Host.branches (server st)
               /\ Host.project (server st1) = Host.project (server st)
               /\ stdin st1 = stdin st
               /\ reachable (server st1)).
  { revert E1. unfold GitLabHandler.branch_exists, try_except. unfold bind at 1.
    destruct (GitLabHandler._simple_retry max_retries _ st)
      as [st0 [response | e]] eqn:E.
    - exfalso. apply call_effect in E. cbv zeta in E.
      destruct E as [_ [_ Hok]]. rewrite respond_lookup, Hfree in Hok.
      discriminate.
    - pose proof (call_keeps_reach _ _ _ _ _ _ _ E) as [Hin Hr].
      apply call_effect in E. cbv zeta in E. destruct E as [Hp Hb].
      assert (Hfalse : (match e with
                        | HTTPError status_code =>
                            if status_code =? 404 then ret false else ret false
                        | _ => ret false
                        end) st0 = (st0, Ok false)).
      { destruct e as [code | | | | | | | | |]; try reflexivity.
        destruct (code =? 404); reflexivity. }
      rewrite Hfalse. intros [= <- <-].
      split; [reflexivity |]. split; [exact Hb |]. split; [exact Hp |].
      split; [exact Hin | exact (Hr Hreach)]. }
  destruct H1 as [-> [Hb1 [Hp1 [Hin1 Hreach1]]]].
  (* the creation succeeds at the first attempt *)
  set (request := mkRequest POST branches_url []
                    (GitLabHandler.branch_payload name (JStr from))).
  set (created := Host.mkHost (Host.branches (server st) ++ [(name, commit)])%list
                              (Host.project (server st)) []).
  assert (Hserve : Host.serve (server st1) request
                   = (created, Answers 201 (Some (Host.branch_record name commit)))).
  { unfold Host.serve. rewrite Hreach1. unfold Host.respond, request.
    cbn [method url payload GitLabHandler.branch_payload Host.creation lookup
         String.eqb Ascii.eqb Bool.eqb].
    rewrite Hb1, Hp1, Hfree, Hfrom. reflexivity. }
  assert (Hcall :
    GitLabHandler._simple_retry max_retries
      (GitLabHandler._make_request Host.serve POST branches_url []
         (GitLabHandler.branch_payload name (JStr from))) st1
    = (record (Call request (Answers 201 (Some (Host.branch_record name commit))))
              (set_server created st1),
       Ok (mkResponse 201 (Some (Host.branch_record name commit))))).
  { unfold GitLabHandler._simple_retry.
    destruct (Z.to_nat max_retries) as [|n] eqn:Hn; [lia |].
    cbn [GitLabHandler.retry_loop].
    erewrite try_ok; [reflexivity |].
    rewrite make_request_run. fold request. rewrite Hserve. reflexivity. }
  exists (record (Call request (Answers 201 (Some (Host.branch_record name commit))))
                 (set_server created st1)).
  split; [| split; [reflexivity | exact Hin1]].
  unfold GitLabHandler.create_branch, recursion_limit.
  change 1000%nat with (Datatypes.S 999).
  cbn [GitLabHandler.create_branch_depth is_none].
  rewrite (bind_ok _ _ st st (JStr from)) by reflexivity.
  rewrite (bind_ok _ _ st st1 false E1).
  rewrite (bind_ok _ _ st1 st1 true) by reflexivity.
  erewrite try_ok; [reflexivity |].
  rewrite (bind_ok _ _ _ _ _ Hcall). reflexivity.
Qed.

End Client.

Lemma create_branch_on_fresh_name_witness :
  exists st',
    GitLabHandler.create_branch Host.serve 3 "feature/ci" (JStr "develop")
      (Host.start Sample.leftover [])
    = (st', Ok true)
    /\ Host.commit_of "feature/ci" (Host.branches (server st')) = Some "c1".
Proof.
  destruct (create_branch_on_fresh_name 3 "feature/ci" "develop" "c1"
              (Host.start Sample.leftover [])
              eq_refl ltac:(lia) eq_refl eq_refl) as [st' [E [Hb _]]].
  exists st'. split; [exact E |]. rewrite Hb. reflexivity.
Defined.

Lemma get_available_branches_on_host_witness :
  snd (GitLabHandler.get_available_branches Host.serve 3
         (Host.start Sample.leftover []))
  = Ok [JStr "main"; JStr "develop"; JStr "feature/pipeops"].
Proof.
  destruct (get_available_branches_on_host 3 (Host.start Sample.leftover [])
              eq_refl ltac:(lia)) as [st' [E _]].
  rewrite E. reflexivity.
Defined.

Lemma branch_exists_on_host_witness :
  snd (GitLabHandler.branch_exists Host.serve 3 "feature/pipeops"
         (Host.start Sample.leftover []))
  = Ok true
  /\ Host.branches
       (server (fst (GitLabHandler.branch_exists Host.serve 3 "feature/pipeops"
                       (Host.start Sample.leftover []))))
     = Host.branches Sample.leftover.
Proof.
  destruct (GitLabHandler.branch_exists Host.serve 3 "feature/pipeops"
              (Host.start Sample.leftover [])) as [st' r] eqn:E.
  destruct (branch_exists_on_host 3 "feature/pipeops" _ _ _ E)
    as [Hb [found [-> [_ Hthere]]]].
  cbn [fst snd]. split; [| exact Hb].
  rewrite Hthere; [reflexivity | reflexivity | lia | discriminate].
Defined.

Lemma delete_branch_on_host_witness :
  let run := GitLabHandler.delete_branch Host.serve 3 "feature/pipeops"
               (Host.start Sample.leftover []) in
  snd run = Ok true
  /\ Host.commit_of "feature/pipeops" (Host.branches (server (fst run))) = None
  /\ Host.commit_of "develop" (Host.branches (server (fst run))) = Some "c1".
Proof.
  cbv zeta.
  destruct (GitLabHandler.delete_branch Host.serve 3 "feature/pipeops"
              (Host.start Sample.leftover [])) as [st' r] eqn:E.
  destruct (delete_branch_on_host 3 "feature/pipeops" _ _ _ E)
    as [deleted [Hr Hcase]].
  assert (Hrun : r = Ok true) by (vm_compute in E; injection E as _ <-; reflexivity).
  rewrite Hr in Hrun. injection Hrun as ->. cbn [fst snd].
  destruct Hcase as [_ [Hb Hgone]].
  split; [exact Hr |]. split; [exact Hgone |]. rewrite Hb. reflexivity.
Defined.

End BranchHostFacts.

(** ** Runs of the client against the hosts *)

Module HandlerExamples.
Import Py Spec HandlerFacts.

Lemma simple_retry_without_attempts_witness :
  GitLabHandler._simple_retry 0
    (GitLabHandler._make_request Script.serve GET api_url [] JNull)
    (Script.start [Answers 200 None] [])
  = (Script.start [Answers 200 None] [], Raise TypeError).
Proof.
  apply (simple_retry_without_attempts 0
           (GitLabHandler._make_request Script.serve GET api_url [] JNull)).
  lia.
Defined.

Lemma make_request_raises_from_400_to_599_witness :
  snd (GitLabHandler._make_request (Steady.serve (Answers 600 None)) GET api_url []
         JNull (Steady.start []))
  = Ok (mkResponse 600 None)
  /\ snd (GitLabHandler._make_request (Steady.serve (Answers 404 None)) GET api_url []
            JNull (Steady.start []))
     = Raise (HTTPError 404).
Proof.
  split.
  - pose proof (make_request_raises_from_400_to_599
                  (Steady.serve (Answers 600 None)) GET api_url [] JNull
                  (Steady.start [])) as H.
    cbv zeta in H. destruct H as [_ [H _]].
    apply (proj2 (H 600 None eq_refl)). right. lia.
  - pose proof (make_request_raises_from_400_to_599
                  (Steady.serve (Answers 404 None)) GET api_url [] JNull
                  (Steady.start [])) as H.
    cbv zeta in H. destruct H as [_ [H _]].
    apply (proj1 (H 404 None eq_refl)). lia.
Defined.

Lemma get_project_memoises_witness :
  let record := JDict [("default_branch", JStr "trunk")] in
  let run := GitLabHandler.get_project Script.serve 3
               (Script.start [Answers 200 (Some record)] []) in
  snd run = Ok record
  /\ GitLabHandler.get_project Script.serve 3 (fst run) = (fst run, Ok record).
Proof.
  cbv zeta.
  destruct (GitLabHandler.get_project Script.serve 3
              (Script.start [Answers 200 (Some (JDict [("default_branch",
                                                        JStr "trunk")]))] []))
    as [st1 r] eqn:E.
  destruct (get_project_memoises Script.serve 3 _ _ _ E) as [Hr Hmemo].
  assert (Hrun : r = Ok (JDict [("default_branch", JStr "trunk")]))
    by (vm_compute in E; injection E as _ <-; reflexivity).
  cbn [fst snd]. split; [exact Hrun |].
  rewrite <- Hrun. apply Hmemo; [| reflexivity].
  rewrite Hr in Hrun. injection Hrun as ->. discriminate.
Defined.

Lemma get_default_branch_settles_on_main_witness :
  exists st2,
    GitLabHandler.get_default_branch Script.serve 3 (Script.start [] [])
    = (st2, Ok (JStr "main"))
    /\ let back :=
         set_server [Answers 200 (Some (JDict [("default_branch", JStr "trunk")]))]
                    st2 in
       GitLabHandler.get_default_branch Script.serve 3 back
       = (back, Ok (JStr "main")).
Proof.
  destruct (get_default_branch_settles_on_main Script.serve 3
              (Script.start [] [])
              (fst (GitLabHandler.get_project Script.serve 3 (Script.start [] [])))
              JNull eq_refl eq_refl eq_refl)
    as [st2 [E [_ [_ Hlater]]]].
  exists st2. split; [exact E |].
  cbv zeta. apply Hlater. reflexivity.
Defined.

Lemma get_file_list_gives_up_on_other_errors_witness :
  snd (GitLabHandler.get_file_list Script.serve 3 (JStr "develop")
         (Script.start [Answers 500 None; Answers 500 None; Answers 500 None;
                        Answers 200 (Some Sample.tree)] []))
  = Ok [].
Proof.
  rewrite (get_file_list_gives_up_on_other_errors Script.serve 3 (JStr "develop")
             (Script.start [Answers 500 None; Answers 500 None; Answers 500 None;
                            Answers 200 (Some Sample.tree)] [])
             (fst (GitLabHandler.fetch_tree Script.serve 3 (JStr "develop")
                     (Script.start [Answers 500 None; Answers 500 None;
                                    Answers 500 None;
                                    Answers 200 (Some Sample.tree)] [])))
             (HTTPError 500) eq_refl eq_refl);
    [reflexivity | discriminate].
Defined.

Lemma create_merge_request_raises_http_errors_witness :
  snd (GitLabHandler.create_merge_request Script.serve 3
         "PipeOps: Add pipeline for python_service" "feature/pipeops"
         (JStr "develop") JNull
         (Script.start [Answers 403 None; Answers 403 None; Answers 403 None] []))
  = Raise (HTTPError 403)
  /\ snd (GitLabHandler.create_merge_request Script.serve 3
            "PipeOps: Add pipeline for python_service" "feature/pipeops"
            (JStr "develop") JNull
            (Script.start [Answers 409 None; Answers 409 None; Answers 409 None;
                           Answers 200 (Some (JList []))] []))
     = Raise (HTTPError 409).
Proof.
  split.
  - rewrite (proj1 (create_merge_request_raises_http_errors Script.serve 3
               "PipeOps: Add pipeline for python_service" "feature/pipeops"
               (JStr "develop") JNull
               (Script.start [Answers 403 None; Answers 403 None; Answers 403 None] [])
               (fst (GitLabHandler._simple_retry 3
                       (GitLabHandler._make_request Script.serve POST
                          merge_requests_url []
                          (GitLabHandler.mr_payload
                             "PipeOps: Add pipeline for python_service"
                             "feature/pipeops" (JStr "develop") JNull))
                       (Script.start [Answers 403 None; Answers 403 None;
                                      Answers 403 None] [])))
               (HTTPError 403) eq_refl eq_refl));
      [reflexivity | discriminate].
  - set (st := Script.start [Answers 409 None; Answers 409 None; Answers 409 None;
                             Answers 200 (Some (JList []))] []).
    set (st1 := fst (GitLabHandler._simple_retry 3
                       (GitLabHandler._make_request Script.serve POST
                          merge_requests_url []
                          (GitLabHandler.mr_payload
                             "PipeOps: Add pipeline for python_service"
                             "feature/pipeops" (JStr "develop") JNull)) st)).
    rewrite (proj2 (create_merge_request_raises_http_errors Script.serve 3
               "PipeOps: Add pipeline for python_service" "feature/pipeops"
               (JStr "develop") JNull st st1 (HTTPError 409) eq_refl eq_refl)
               eq_refl
               (fst (GitLabHandler._find_existing_mr Script.serve 3
                       "feature/pipeops" st1))
               JNull eq_refl eq_refl).
    reflexivity.
Defined.

Lemma select_target_choice_witness :
  snd (GitLabHandler.select_target Script.serve 3
         (Script.start
            [Answers 200 (Some (JList [JDict [("name", JStr "main")];
                                       JDict [("name", JStr "develop")]]));
             Answers 200 (Some (JDict [("default_branch", JStr "main")]))] []))
  = Ok (JStr "develop").
Proof.
  set (st := Script.start _ []).
  destruct (select_target_choice Script.serve 3 st
              (fst (GitLabHandler.get_available_branches Script.serve 3 st))
              (fst (GitLabHandler.get_default_branch Script.serve 3
                      (fst (GitLabHandler.get_available_branches Script.serve 3 st))))
              [JStr "main"; JStr "develop"] (JStr "main") eq_refl eq_refl)
    as [target [E [Hdevelop _]]].
  rewrite E. cbn [snd]. rewrite Hdevelop; reflexivity.
Defined.

Lemma create_branch_cancelled_witness :
  snd (GitLabHandler.create_branch Host.serve 3 "feature/pipeops" (JStr "develop")
         (Host.start Sample.leftover ["2"]))
  = Ok false
  /\ snd (GitLabHandler.create_branch Host.serve 3 "feature/pipeops" (JStr "develop")
            (Host.start Sample.leftover []))
     = Raise EOFError.
Proof.
  split.
  - set (st := Host.start Sample.leftover ["2"]).
    set (st1 := fst (GitLabHandler.branch_exists Host.serve 3 "feature/pipeops" st)).
    set (st2 := fst (GitLabHandler.get_branch_info Host.serve 3 "feature/pipeops" st1)).
    rewrite (proj2 (create_branch_cancelled Host.serve 3 "feature/pipeops"
                      (JStr "develop") st st1 st2
                      (Host.branch_record "feature/pipeops" "c9")
                      eq_refl eq_refl eq_refl eq_refl eq_refl)
                   "2" [] eq_refl eq_refl).
    reflexivity.
  - set (st := Host.start Sample.leftover []).
    set (st1 := fst (GitLabHandler.branch_exists Host.serve 3 "feature/pipeops" st)).
    set (st2 := fst (GitLabHandler.get_branch_info Host.serve 3 "feature/pipeops" st1)).
    rewrite (proj1 (create_branch_cancelled Host.serve 3 "feature/pipeops"
                      (JStr "develop") st st1 st2
                      (Host.branch_record "feature/pipeops" "c9")
                      eq_refl eq_refl eq_refl eq_refl eq_refl)
                   eq_refl).
    reflexivity.
Defined.

End HandlerExamples.

Module JobExamples.
Import Py Spec PipelineMonitor JobFacts.


Lemma wait_for_job_completion_of_unreachable_host_witness :
  exists st',
    wait_for_job_completion (Steady.serve (Answers 502 None)) 3
      one_second_per_reading 30 1 7 "deploy" 600 (Steady.start [])
    = Some (st', Ok (JDict [("error", JStr "Job 'deploy' not found")]))
    /\ ticks st' = 2%nat.
Proof.
  apply (wait_for_job_completion_of_unreachable_host
           (Steady.serve (Answers 502 None)) 3 one_second_per_reading 30
           0 7 "deploy" 600 (Steady.start [])).
  - intros s request. reflexivity.
  - vm_compute. reflexivity.
Defined.

Lemma wait_for_job_completion_no_wait_witness :
  wait_for_job_completion Script.serve 3 one_second_per_reading 30
    1 7 "deploy" 0 (Script.start [] [])
  = Some (mkState [] [] 2 [] JNull JNull,
          Ok (JDict [("job_name", JStr "deploy");
                     ("status", JStr "timeout");
                     ("duration", JNum 0)])).
Proof.
  apply (wait_for_job_completion_no_wait Script.serve 3 one_second_per_reading 30
           0 7 "deploy" 0 (Script.start [] [])).
  - lia.
  - vm_compute. discriminate.
Defined.

End JobExamples.
